(** * FARIS analysis pipeline: a shallow embedding of the Python core

    The development follows the layout of [app/core]: the text helpers the
    nodes rely on, the settings of [app/config.py], the state records of
    [app/core/graph/state.py], then one module per node or client, the
    schemas of [app/api/schemas] with the service that builds the response,
    and last the properties proved about them.

    Conventions of the embedding.
    - Python [str] values are Rocq [string]s over the 8-bit [ascii] alphabet;
      the texts considered are ASCII texts.
    - Python [float] values are given twice. The nodes of the graph are
      written over exact rationals ([Q]), the reading in which orders and
      bounds are proved: equalities between scores are stated with [==] and
      [round(x, n)] is decimal rounding to the nearest multiple of 10^-n,
      ties to even. The risk scorer is written a second time over binary64
      numbers (modules [Float64], [Config64] and [RiskScoring64]), with the
      additions, products, comparisons and roundings of the doubles: the
      numbers it returns are stated there.
    - A [dict] literal is an association list read with [dict_get], the
      counterpart of [dict.get(key, default)].
    - What the model backend returns is read at the types the nodes expect
      (a confidence is a number, a severity or a reason a string, findings
      a list). The nodes do not check these types; what they do on values
      of other types is outside the embedding, and the statements about
      whole runs are about the runs that reach END.
    - Wall-clock bookkeeping ([node_times], [start_time], [end_time]) is left
      out of the state: no node reads it back. *)

From Stdlib Require Import List String Ascii Bool Arith NArith ZArith QArith Qround.
From Stdlib Require Import Lia Lqa Permutation Sorted DecimalString DecimalNat.
From Stdlib Require Import Floats.
Import ListNotations.

Open Scope string_scope.
Open Scope Q_scope.
Open Scope list_scope.

(** ** Python built-ins used by the nodes *)

Module Py.

(** [str.isspace] on one ASCII character: TAB, LF, VT, FF, CR, the four
    separators FS, GS, RS, US and the blank. *)
Definition is_space (c : ascii) : bool :=
  let n := nat_of_ascii c in
  ((9 <=? n) && (n <=? 13) || (28 <=? n) && (n <=? 32))%nat.

Fixpoint lstrip (s : string) : string :=
  match s with
  | EmptyString => EmptyString
  | String c rest => if is_space c then lstrip rest else s
  end.

(** [rstrip] keeps a character when it is not a blank or when something
    that is kept follows it. *)
Fixpoint rstrip (s : string) : string :=
  match s with
  | EmptyString => EmptyString
  | String c rest =>
      match rstrip rest with
      | EmptyString => if is_space c then EmptyString else String c EmptyString
      | kept => String c kept
      end
  end.

Definition strip (s : string) : string := rstrip (lstrip s).

Definition lower_char (c : ascii) : ascii :=
  let n := nat_of_ascii c in
  if ((65 <=? n) && (n <=? 90))%nat then ascii_of_nat (n + 32) else c.

Fixpoint lower (s : string) : string :=
  match s with
  | EmptyString => EmptyString
  | String c rest => String (lower_char c) (lower rest)
  end.

(** [pattern in text] *)
Fixpoint contains (pattern text : string) : bool :=
  if prefix pattern text then true
  else match text with
       | EmptyString => false
       | String _ rest => contains pattern rest
       end.

(** [any(pattern in text for pattern in patterns)] *)
Definition any_in (patterns : list string) (text : string) : bool :=
  existsb (fun pattern => contains pattern text) patterns.

(** [not s] for a string *)
Definition is_empty (s : string) : bool :=
  match s with EmptyString => true | _ => false end.

(** [dict.get(key, default)] over a dict literal. *)
Fixpoint dict_get {V : Type} (d : list (string * V)) (key : string) (default : V) : V :=
  match d with
  | [] => default
  | (k, v) :: rest => if String.eqb k key then v else dict_get rest key default
  end.

(** [str(n)] for a natural number. *)
Definition str_of_nat (n : nat) : string :=
  NilEmpty.string_of_uint (Nat.to_uint n).

(** Rounding of a rational to the nearest integer, ties to the even one. *)
Definition round_half_even (q : Q) : Z :=
  let f := Qfloor q in
  match Qcompare (q - inject_Z f) (1 # 2) with
  | Lt => f
  | Gt => (f + 1)%Z
  | Eq => if Z.even f then f else (f + 1)%Z
  end.

Definition pow10 (ndigits : nat) : Q := inject_Z (10 ^ Z.of_nat ndigits).

(** [round(x, ndigits)] *)
Definition round (x : Q) (ndigits : nat) : Q :=
  inject_Z (round_half_even (x * pow10 ndigits)) / pow10 ndigits.

(** [min(a, b)]: the second argument wins only when strictly smaller. *)
Definition min (a b : Q) : Q := if Qlt_le_dec b a then b else a.

(** [sorted(l, key=key)] and [l.sort(key=key)]: a stable sort, ascending in
    the key. [insert_by] places [x] before the first element whose key is
    strictly greater, so earlier elements stay ahead of later equal ones
    when the list is folded from the right. *)
Section StableSort.
Context {A K : Type} (key : A -> K) (leb : K -> K -> bool).

Fixpoint insert_by (x : A) (l : list A) : list A :=
  match l with
  | [] => [x]
  | y :: rest =>
      if leb (key x) (key y) then x :: l else y :: insert_by x rest
  end.

Definition sort_by (l : list A) : list A := fold_right insert_by [] l.

(** [x] may stand right before [y] in a sorted list. *)
Definition key_le (x y : A) : Prop := leb (key x) (key y) = true.
End StableSort.

End Py.

(** ** Python floats as binary64 numbers *)

Module Float64.
Import Floats.

(** The exact value of a finite double; a nan or an infinity has none. *)
Definition to_Q (x : float) : option Q :=
  match Prim2SF x with
  | S754_zero _ => Some 0
  | S754_finite s m e =>
      Some ((if s then -1 else 1) * (inject_Z (Z.pos m) * Qpower 2 e))
  | _ => None
  end.

(** The double nearest to a rational, ties to the even significand, which
    is what the conversion of a decimal text to a double gives;
    [negative_zero] is the sign of a result that is exactly zero. *)
Definition of_Q (negative_zero : bool) (q : Q) : float :=
  let a := Z.abs (Qnum q) in
  let d := Z.pos (Qden q) in
  let scaled := (a * 2 ^ 1200)%Z in
  let m := (scaled / d)%Z in
  let r := (scaled mod d)%Z in
  let l := if (r =? 0)%Z then loc_Exact else loc_Inexact (Z.compare (2 * r) d) in
  match Qnum q with
  | Z0 => if negative_zero then neg_zero else zero
  | Zpos _ => SF2Prim (binary_round_aux prec emax false m (-1200) l)
  | Zneg _ => SF2Prim (binary_round_aux prec emax true m (-1200) l)
  end.

(** [round(x, ndigits)] on a double: the exact value of [x] is rounded to
    the nearest decimal of [ndigits] digits, ties to even, and the result
    is the double nearest to that decimal. A nan or an infinity is returned
    as it is, and a zero result keeps the sign of [x]. *)
Definition round (x : float) (ndigits : nat) : float :=
  match to_Q x with
  | None => x
  | Some q =>
      of_Q (get_sign x)
        (inject_Z (Py.round_half_even (q * Py.pow10 ndigits)) / Py.pow10 ndigits)
  end.

(** [min(a, b)]: the second argument wins only when strictly smaller. *)
Definition min (a b : float) : float := if (b <? a)%float then b else a.

End Float64.

(** ** Settings ([app/config.py]) *)

Module Config.

Record Settings := {
  failure_confidence_threshold : Q;
  weight_hallucination : Q;
  weight_logical_inconsistency : Q;
  weight_missing_assumptions : Q;
  weight_overconfidence : Q;
  weight_scope_violation : Q;
  weight_underspecification : Q;
  domain_multiplier_general : Q;
  domain_multiplier_finance : Q;
  domain_multiplier_medical : Q;
  domain_multiplier_legal : Q;
  domain_multiplier_code : Q
}.

(** The field defaults of [Settings]. *)
Definition default_settings : Settings := {|
  failure_confidence_threshold := 5 # 10;
  weight_hallucination := 35 # 100;
  weight_logical_inconsistency := 25 # 100;
  weight_missing_assumptions := 20 # 100;
  weight_overconfidence := 10 # 100;
  weight_scope_violation := 5 # 100;
  weight_underspecification := 5 # 100;
  domain_multiplier_general := 1;
  domain_multiplier_finance := 15 # 10;
  domain_multiplier_medical := 2;
  domain_multiplier_legal := 18 # 10;
  domain_multiplier_code := 13 # 10
|}.

Definition failure_weights (self : Settings) : list (string * Q) :=
  [ ("hallucination", weight_hallucination self);
    ("logical_inconsistency", weight_logical_inconsistency self);
    ("missing_assumptions", weight_missing_assumptions self);
    ("overconfidence", weight_overconfidence self);
    ("scope_violation", weight_scope_violation self);
    ("underspecification", weight_underspecification self) ].

Definition domain_multipliers (self : Settings) : list (string * Q) :=
  [ ("general", domain_multiplier_general self);
    ("finance", domain_multiplier_finance self);
    ("medical", domain_multiplier_medical self);
    ("legal", domain_multiplier_legal self);
    ("code", domain_multiplier_code self) ].

End Config.

(** ** State records ([app/core/graph/state.py]) *)

Module State.

Record ClaimData := {
  claim_id : string;
  claim_text : string;
  claim_type : string;
  implicit_assumptions : list string
}.

(** One finding of a detector, read through the keys the detector uses. *)
Record Finding := {
  is_hallucinated : option bool;
  finding_claim_id : option string;
  reason : option string
}.

Record FailureSignal := {
  failure_type : string;
  detected : bool;
  confidence : Q;
  severity : string;
  evidence : list string;
  related_claim_ids : list string;
  explanation : string;
  findings : list Finding
}.

Record RecommendationData := {
  recommendation_id : string;
  priority : Z;
  rec_failure_type : string;
  title : string;
  description : string;
  implementation_hint : option string
}.

End State.

Module Scoring.

(** One entry of [contributing_factors]. *)
Record Factor := {
  factor_failure_type : string;
  factor_confidence : Q;
  factor_severity : string;
  factor_type_weight : Q;
  factor_severity_multiplier : Q;
  factor_domain_multiplier : Q;
  factor_contribution : Q
}.

End Scoring.

Module Graph.
Import State.

(** [AnalysisState]; every key is present from [create_initial_state] on. *)
Record AnalysisState := {
  question : string;
  answer : string;
  context : string;
  domain : string;
  precheck_passed : bool;
  precheck_failure_reason : option string;
  answer_type : string;
  claims : list ClaimData;
  assumptions : list string;
  reasoning_steps : list string;
  failure_signals : list FailureSignal;
  hallucination_signal : option FailureSignal;
  logical_signal : option FailureSignal;
  assumptions_signal : option FailureSignal;
  overconfidence_signal : option FailureSignal;
  scope_signal : option FailureSignal;
  underspec_signal : option FailureSignal;
  detected_failures : list FailureSignal;
  failure_detected : bool;
  failure_types : list string;
  risk_score : Q;
  risk_level : string;
  domain_multiplier : Q;
  contributing_factors : list Scoring.Factor;
  final_explanation : string;
  recommendations : list RecommendationData;
  errors : list (string * string)
}.

Definition create_initial_state
    (question answer : string) (context : option string) (domain : string)
    : AnalysisState := {|
  question := question;
  answer := answer;
  context := match context with Some c => c | None => "" end;
  domain := domain;
  precheck_passed := false;
  precheck_failure_reason := None;
  answer_type := "unknown";
  claims := [];
  assumptions := [];
  reasoning_steps := [];
  failure_signals := [];
  hallucination_signal := None;
  logical_signal := None;
  assumptions_signal := None;
  overconfidence_signal := None;
  scope_signal := None;
  underspec_signal := None;
  detected_failures := [];
  failure_detected := false;
  failure_types := [];
  risk_score := 0;
  risk_level := "low";
  domain_multiplier := 1;
  contributing_factors := [];
  final_explanation := "";
  recommendations := [];
  errors := []
|}.

End Graph.

(** ** Aggregation node ([nodes/aggregation.py]) *)

Module Aggregation.
Import State Graph.

(** The dict returned by [aggregation_node]. *)
Record Update := {
  out_failure_signals : list FailureSignal;
  out_detected_failures : list FailureSignal;
  out_failure_detected : bool;
  out_failure_types : list string
}.

(** [state.get(key)] for the six [signal_keys], in their order. *)
Definition signal_slots (state : AnalysisState) : list (option FailureSignal) :=
  [ hallucination_signal state; logical_signal state; assumptions_signal state;
    overconfidence_signal state; scope_signal state; underspec_signal state ].

(** The first loop: a slot that holds a signal is appended. *)
Definition collect_signals (slots : list (option FailureSignal)) : list FailureSignal :=
  fold_left
    (fun signals slot =>
       match slot with Some signal => signals ++ [signal] | None => signals end)
    slots [].

(** One turn of the filtering loop over [(detected_failures, failure_types)]. *)
Definition filter_step (threshold : Q)
    (acc : list FailureSignal * list string) (signal : FailureSignal)
    : list FailureSignal * list string :=
  let '(detected_failures, failure_types) := acc in
  if detected signal then
    if Qle_bool threshold (confidence signal) then
      (detected_failures ++ [signal],
       if existsb (String.eqb (failure_type signal)) failure_types
       then failure_types
       else failure_types ++ [failure_type signal])
    else acc
  else acc.

(** [a] may stand before [b] in a list sorted with [reverse=True]. *)
Definition ge_conf (a b : Q) : bool := Qle_bool b a.

Definition aggregation_node (settings : Config.Settings) (state : AnalysisState)
    : Update :=
  let threshold := Config.failure_confidence_threshold settings in
  let signals := collect_signals (signal_slots state) in
  let '(detected_failures, failure_types) :=
    fold_left (filter_step threshold) signals ([], []) in
  let detected_failures := Py.sort_by confidence ge_conf detected_failures in
  {| out_failure_signals := signals;
     out_detected_failures := detected_failures;
     out_failure_detected := (0 <? List.length detected_failures)%nat;
     out_failure_types := failure_types |}.

(** The graph writes the returned keys over the state. *)
Definition merge (state : AnalysisState) (u : Update) : AnalysisState := {|
  question := question state;
  answer := answer state;
  context := context state;
  domain := domain state;
  precheck_passed := precheck_passed state;
  precheck_failure_reason := precheck_failure_reason state;
  answer_type := answer_type state;
  claims := claims state;
  assumptions := assumptions state;
  reasoning_steps := reasoning_steps state;
  failure_signals := out_failure_signals u;
  hallucination_signal := hallucination_signal state;
  logical_signal := logical_signal state;
  assumptions_signal := assumptions_signal state;
  overconfidence_signal := overconfidence_signal state;
  scope_signal := scope_signal state;
  underspec_signal := underspec_signal state;
  detected_failures := out_detected_failures u;
  failure_detected := out_failure_detected u;
  failure_types := out_failure_types u;
  risk_score := risk_score state;
  risk_level := risk_level state;
  domain_multiplier := domain_multiplier state;
  contributing_factors := contributing_factors state;
  final_explanation := final_explanation state;
  recommendations := recommendations state;
  errors := errors state
|}.

End Aggregation.

(** ** Risk scoring node ([nodes/risk_scoring.py]) *)

Module RiskScoring.
Import State Graph Scoring.

(** The dict returned by [risk_scoring_node]; the text of
    [risk_explanation] is not modelled. *)
Record Update := {
  out_risk_score : Q;
  out_risk_level : string;
  out_domain_multiplier : Q;
  out_contributing_factors : list Factor
}.

Definition severity_multipliers : list (string * Q) :=
  [ ("low", 25 # 100); ("medium", 5 # 10); ("high", 75 # 100); ("critical", 1) ].

(** One turn of the loop over [detected_failures], on
    [(total_risk, contributing_factors)]. *)
Definition score_step (failure_weights : list (string * Q)) (domain_multiplier : Q)
    (acc : Q * list Factor) (failure : FailureSignal) : Q * list Factor :=
  let '(total_risk, contributing_factors) := acc in
  let failure_type := State.failure_type failure in
  let confidence := State.confidence failure in
  let severity := State.severity failure in
  let type_weight := Py.dict_get failure_weights failure_type (1 # 10) in
  let severity_mult := Py.dict_get severity_multipliers severity (5 # 10) in
  let contribution := confidence * type_weight * severity_mult * domain_multiplier in
  (total_risk + contribution,
   contributing_factors ++
     [ {| factor_failure_type := failure_type;
          factor_confidence := confidence;
          factor_severity := severity;
          factor_type_weight := type_weight;
          factor_severity_multiplier := severity_mult;
          factor_domain_multiplier := domain_multiplier;
          factor_contribution := Py.round contribution 4 |} ]).

(** The [if]/[elif] chain choosing [risk_level]. *)
Definition level_of (risk_score : Q) : string :=
  if Qlt_le_dec risk_score (25 # 100) then "low"
  else if Qlt_le_dec risk_score (5 # 10) then "medium"
  else if Qlt_le_dec risk_score (75 # 100) then "high"
  else "critical".

(** [total_risk] when the loop ends. *)
Definition total_risk (settings : Config.Settings) (state : AnalysisState) : Q :=
  let domain_multiplier :=
    Py.dict_get (Config.domain_multipliers settings) (domain state) 1 in
  fst (fold_left (score_step (Config.failure_weights settings) domain_multiplier)
         (detected_failures state) (0, [])).

Definition risk_scoring_node (settings : Config.Settings) (state : AnalysisState)
    : Update :=
  let detected_failures := Graph.detected_failures state in
  let domain := Graph.domain state in
  let failure_weights := Config.failure_weights settings in
  let domain_multipliers := Config.domain_multipliers settings in
  let domain_multiplier := Py.dict_get domain_multipliers domain 1 in
  let '(total_risk, contributing_factors) :=
    fold_left (score_step failure_weights domain_multiplier) detected_failures (0, []) in
  let risk_score := Py.min total_risk 1 in
  let risk_level := level_of risk_score in
  {| out_risk_score := Py.round risk_score 3;
     out_risk_level := risk_level;
     out_domain_multiplier := domain_multiplier;
     out_contributing_factors := contributing_factors |}.

Definition merge (state : AnalysisState) (u : Update) : AnalysisState := {|
  question := question state;
  answer := answer state;
  context := context state;
  domain := domain state;
  precheck_passed := precheck_passed state;
  precheck_failure_reason := precheck_failure_reason state;
  answer_type := answer_type state;
  claims := Graph.claims state;
  assumptions := Graph.assumptions state;
  reasoning_steps := Graph.reasoning_steps state;
  failure_signals := Graph.failure_signals state;
  hallucination_signal := Graph.hallucination_signal state;
  logical_signal := Graph.logical_signal state;
  assumptions_signal := Graph.assumptions_signal state;
  overconfidence_signal := Graph.overconfidence_signal state;
  scope_signal := Graph.scope_signal state;
  underspec_signal := Graph.underspec_signal state;
  detected_failures := Graph.detected_failures state;
  failure_detected := Graph.failure_detected state;
  failure_types := Graph.failure_types state;
  risk_score := out_risk_score u;
  risk_level := out_risk_level u;
  domain_multiplier := out_domain_multiplier u;
  contributing_factors := out_contributing_factors u;
  final_explanation := final_explanation state;
  recommendations := Graph.recommendations state;
  errors := Graph.errors state
|}.

End RiskScoring.

(** ** Settings and risk scoring node, on doubles *)

Set Warnings "-inexact-float".

Module Config64.
Import Floats.

(** The fields of [Settings] that the risk scorer reads. *)
Record Settings := {
  weight_hallucination : float;
  weight_logical_inconsistency : float;
  weight_missing_assumptions : float;
  weight_overconfidence : float;
  weight_scope_violation : float;
  weight_underspecification : float;
  domain_multiplier_general : float;
  domain_multiplier_finance : float;
  domain_multiplier_medical : float;
  domain_multiplier_legal : float;
  domain_multiplier_code : float
}.

Definition default_settings : Settings := {|
  weight_hallucination := 0.35;
  weight_logical_inconsistency := 0.25;
  weight_missing_assumptions := 0.20;
  weight_overconfidence := 0.10;
  weight_scope_violation := 0.05;
  weight_underspecification := 0.05;
  domain_multiplier_general := 1.0;
  domain_multiplier_finance := 1.5;
  domain_multiplier_medical := 2.0;
  domain_multiplier_legal := 1.8;
  domain_multiplier_code := 1.3
|}.

Definition failure_weights (self : Settings) : list (string * float) :=
  [ ("hallucination", weight_hallucination self);
    ("logical_inconsistency", weight_logical_inconsistency self);
    ("missing_assumptions", weight_missing_assumptions self);
    ("overconfidence", weight_overconfidence self);
    ("scope_violation", weight_scope_violation self);
    ("underspecification", weight_underspecification self) ].

Definition domain_multipliers (self : Settings) : list (string * float) :=
  [ ("general", domain_multiplier_general self);
    ("finance", domain_multiplier_finance self);
    ("medical", domain_multiplier_medical self);
    ("legal", domain_multiplier_legal self);
    ("code", domain_multiplier_code self) ].

End Config64.

Module RiskScoring64.
Import Floats.

(** The three keys the scorer reads of a retained failure. *)
Record Failure := {
  failure_type : string;
  confidence : float;
  severity : string
}.

(** One entry of [contributing_factors]. *)
Record Factor := {
  factor_failure_type : string;
  factor_confidence : float;
  factor_severity : string;
  factor_type_weight : float;
  factor_severity_multiplier : float;
  factor_domain_multiplier : float;
  factor_contribution : float
}.

(** The dict returned by [risk_scoring_node]; the text of
    [risk_explanation] is not modelled. *)
Record Update := {
  out_risk_score : float;
  out_risk_level : string;
  out_domain_multiplier : float;
  out_contributing_factors : list Factor
}.

Definition severity_multipliers : list (string * float) :=
  [ ("low", 0.25); ("medium", 0.5); ("high", 0.75); ("critical", 1.0) ]%float.

(** One turn of the loop over [detected_failures], on
    [(total_risk, contributing_factors)]. *)
Definition score_step (failure_weights : list (string * float))
    (domain_multiplier : float) (acc : float * list Factor) (failure : Failure)
    : float * list Factor :=
  let '(total_risk, contributing_factors) := acc in
  let failure_type := failure_type failure in
  let confidence := confidence failure in
  let severity := severity failure in
  let type_weight := Py.dict_get failure_weights failure_type 0.1%float in
  let severity_mult := Py.dict_get severity_multipliers severity 0.5%float in
  let contribution :=
    (confidence * type_weight * severity_mult * domain_multiplier)%float in
  ((total_risk + contribution)%float,
   contributing_factors ++
     [ {| factor_failure_type := failure_type;
          factor_confidence := confidence;
          factor_severity := severity;
          factor_type_weight := type_weight;
          factor_severity_multiplier := severity_mult;
          factor_domain_multiplier := domain_multiplier;
          factor_contribution := Float64.round contribution 4 |} ]).

(** The [if]/[elif] chain choosing [risk_level]. *)
Definition level_of (risk_score : float) : string :=
  if (risk_score <? 0.25)%float then "low"
  else if (risk_score <? 0.5)%float then "medium"
  else if (risk_score <? 0.75)%float then "high"
  else "critical".

Definition risk_scoring_node (settings : Config64.Settings)
    (detected_failures : list Failure) (domain : string) : Update :=
  let failure_weights := Config64.failure_weights settings in
  let domain_multipliers := Config64.domain_multipliers settings in
  let domain_multiplier := Py.dict_get domain_multipliers domain 1.0%float in
  let '(total_risk, contributing_factors) :=
    fold_left (score_step failure_weights domain_multiplier) detected_failures
      (0.0%float, []) in
  let risk_score := Float64.min total_risk 1.0%float in
  let risk_level := level_of risk_score in
  {| out_risk_score := Float64.round risk_score 3;
     out_risk_level := risk_level;
     out_domain_multiplier := domain_multiplier;
     out_contributing_factors := contributing_factors |}.

End RiskScoring64.

(** ** The Ollama client ([core/llm/client.py]) *)

Module Client.

(** Exception classes seen by the client: two of [httpx], any other
    exception, the client's own three, and tenacity's [RetryError]. *)
Inductive exn_class :=
  | HttpxTimeoutException
  | HttpxConnectError
  | OtherException
  | OllamaError
  | OllamaConnectionError
  | OllamaTimeoutError
  | RetryError.

Record exn := { class : exn_class; message : string }.

Inductive result (A : Type) :=
  | Return (value : A)
  | Raise (e : exn).
Arguments Return {A} value.
Arguments Raise {A} e.

Definition class_eqb (a b : exn_class) : bool :=
  match a, b with
  | HttpxTimeoutException, HttpxTimeoutException
  | HttpxConnectError, HttpxConnectError
  | OtherException, OtherException
  | OllamaError, OllamaError
  | OllamaConnectionError, OllamaConnectionError
  | OllamaTimeoutError, OllamaTimeoutError
  | RetryError, RetryError => true
  | _, _ => false
  end.

(** [class OllamaConnectionError(OllamaError)] and
    [class OllamaTimeoutError(OllamaError)]; the other classes are unrelated. *)
Definition subclass (c base : exn_class) : bool :=
  class_eqb c base ||
  match c, base with
  | OllamaConnectionError, OllamaError | OllamaTimeoutError, OllamaError => true
  | _, _ => false
  end.

Definition isinstance (e : exn) (classes : list exn_class) : bool :=
  existsb (subclass (class e)) classes.

(** What the [try] block of [generate] meets on one call: the generated
    text, or an exception of the HTTP layer. *)
Inductive post_outcome :=
  | Response (text : string)
  | PostRaises (e : exn).

(** The body of [generate]: its three [except] clauses, in their order. *)
Definition generate_body (timeout base_url : string) (o : post_outcome)
    : result string :=
  match o with
  | Response text => Return text
  | PostRaises e =>
      if isinstance e [HttpxTimeoutException] then
        Raise {| class := OllamaTimeoutError;
                 message := "Request timed out after " ++ timeout ++ "s" |}
      else if isinstance e [HttpxConnectError] then
        Raise {| class := OllamaConnectionError;
                 message := "Cannot connect to Ollama at " ++ base_url |}
      else
        Raise {| class := OllamaError;
                 message := "Generation failed: " ++ message e |}
  end%string.

(** *** tenacity's [retry] decorator *)

(** [wait_exponential(multiplier, min, max)] after attempt [attempt_number]. *)
Definition wait_exponential (multiplier min max : Z) (attempt_number : nat) : Z :=
  let exp := (2 ^ (Z.of_nat attempt_number - 1))%Z in
  let result := (multiplier * exp)%Z in
  Z.max (Z.max 0 min) (Z.min result max).

(** The outcome of a decorated call, with what an observer of the backend
    sees: how many times the body ran and the pauses between the runs. *)
Record Call (A : Type) := {
  outcome : result A;
  attempts : nat;
  sleeps : list Z
}.
Arguments outcome {A} c.
Arguments attempts {A} c.
Arguments sleeps {A} c.

Section Retrying.
Context {A : Type}.
(** [retry=retry_if_exception_type(classes)] and [wait=...] *)
Variable retry_classes : list exn_class.
Variable wait : nat -> Z.
(** The decorated function, by attempt number. *)
Variable fn : nat -> result A.

(** One turn of tenacity's loop at attempt [attempt_number], with
    [remaining] attempts allowed after this one: a result is returned; an
    exception the [retry] predicate rejects is raised as it is; when
    [stop] holds the last exception is wrapped in [RetryError]; otherwise
    the loop sleeps and calls again. *)
Fixpoint retry_loop (remaining attempt_number : nat) (slept : list Z) : Call A :=
  match fn attempt_number with
  | Return v =>
      {| outcome := Return v; attempts := attempt_number; sleeps := slept |}
  | Raise e =>
      if negb (isinstance e retry_classes) then
        {| outcome := Raise e; attempts := attempt_number; sleeps := slept |}
      else
        match remaining with
        | O =>
            {| outcome := Raise {| class := RetryError; message := message e |};
               attempts := attempt_number; sleeps := slept |}
        | S remaining' =>
            retry_loop remaining' (S attempt_number) (slept ++ [wait attempt_number])
        end
  end.

(** [stop=stop_after_attempt(max_attempt_number)] *)
Definition retrying (max_attempt_number : nat) : Call A :=
  retry_loop (max_attempt_number - 1) 1 [].
End Retrying.

(** [generate] as decorated:
    [@retry(stop=stop_after_attempt(3),
            wait=wait_exponential(multiplier=1, min=2, max=10),
            retry=retry_if_exception_type((httpx.TimeoutException, httpx.ConnectError)))].
    [backend n] is what the n-th POST meets. *)
Definition generate (timeout base_url : string) (backend : nat -> post_outcome)
    : Call string :=
  retrying [HttpxTimeoutException; HttpxConnectError]
           (wait_exponential 1 2 10)
           (fun attempt_number => generate_body timeout base_url (backend attempt_number))
           3.

(** *** Structured output *)

Definition newline : ascii := ascii_of_nat 10.
Definition fence : string := "```".

Fixpoint skip (n : nat) (s : string) : string :=
  match n, s with
  | O, _ => s
  | S n', String _ rest => skip n' rest
  | S _, EmptyString => EmptyString
  end.

(** The text after the first occurrence of [pattern]. *)
Fixpoint after_first (pattern s : string) : option string :=
  if prefix pattern s then Some (skip (String.length pattern) s)
  else match s with
       | EmptyString => None
       | String _ rest => after_first pattern rest
       end.

(** The lazy group [(.*?)] followed by [\n?```]: the shortest text before a
    closing fence, a newline right before the fence left out. *)
Fixpoint until_fence (s : string) : option string :=
  if prefix fence s || prefix (String newline fence) s then Some EmptyString
  else match s with
       | EmptyString => None
       | String c rest => option_map (String c) (until_fence rest)
       end.

(** Group 1 of [re.search(r"```(?:json)?\s*\n?(.*?)\n?```", response, re.DOTALL)]:
    from the first fence, an optional [json] tag and all blanks are passed,
    then the lazy group runs to the nearest closing fence. *)
Definition fence_match (response : string) : option string :=
  match after_first fence response with
  | None => None
  | Some rest =>
      let rest := if prefix "json" rest then skip 4 rest else rest in
      until_fence (Py.lstrip rest)
  end.

(** The suffix that starts at the first occurrence of [c]. *)
Fixpoint from_first (c : ascii) (s : string) : option string :=
  match s with
  | EmptyString => None
  | String a rest => if Ascii.eqb a c then Some s else from_first c rest
  end.

(** The longest prefix that ends with [c]. *)
Fixpoint upto_last (c : ascii) (s : string) : option string :=
  match s with
  | EmptyString => None
  | String a rest =>
      match upto_last c rest with
      | Some p => Some (String a p)
      | None => if Ascii.eqb a c then Some (String a EmptyString) else None
      end
  end.

(** Group 0 of [re.search(r"\{.*\}", response, re.DOTALL)]: the greedy
    [.*] runs from the first opening brace to the last closing brace. *)
Definition json_obj_match (response : string) : option string :=
  match from_first "{" response with
  | Some (String open rest) => option_map (String open) (upto_last "}" rest)
  | _ => None
  end.

(** The dict [generate_structured] returns: the parsed value, or the
    last-resort dict [{"_raw_response": response, "_parse_error": True}]. *)
Inductive Structured (JSON : Type) :=
  | Parsed (value : JSON)
  | ParseError (_raw_response : string).
Arguments Parsed {JSON} value.
Arguments ParseError {JSON} _raw_response.

(** What [json.loads] does with a text: it returns a value, raises
    [json.JSONDecodeError], or raises another exception (as
    [RecursionError] on deep nesting), which no [except] clause of
    [generate_structured] catches. *)
Inductive loads (JSON : Type) :=
  | Loaded (value : JSON)
  | JSONDecodeError
  | LoadsRaises (e : exn).
Arguments Loaded {JSON} value.
Arguments JSONDecodeError {JSON}.
Arguments LoadsRaises {JSON} e.

Section GenerateStructured.
Context {JSON : Type} (json_loads : string -> loads JSON).

(** [if match: try: return json.loads(group) except JSONDecodeError: pass],
    followed by [otherwise]. *)
Definition try_group (group : option string)
    (otherwise : result (Structured JSON)) : result (Structured JSON) :=
  match group with
  | None => otherwise
  | Some text =>
      match json_loads text with
      | Loaded value => Return (Parsed value)
      | JSONDecodeError => otherwise
      | LoadsRaises e => Raise e
      end
  end.

(** The [try]/[except] cascade applied to the generated text. *)
Definition parse_response (response : string) : result (Structured JSON) :=
  match json_loads response with
  | Loaded value => Return (Parsed value)
  | LoadsRaises e => Raise e
  | JSONDecodeError =>
      try_group (fence_match response)
        (try_group (json_obj_match response) (Return (ParseError response)))
  end.

Definition generate_structured (timeout base_url : string)
    (backend : nat -> post_outcome) : result (Structured JSON) :=
  match outcome (generate timeout base_url backend) with
  | Return response => parse_response response
  | Raise e => Raise e
  end.
End GenerateStructured.

End Client.

(** ** What a node gets back from [llm.generate_structured]

    A node reads the returned dict through a fixed set of keys. The model
    gives each node a typed view of that dict, one optional field per key
    ([None]: the key is absent); [LlmRaised] covers every exception raised
    inside the node's [try] block and [LlmParseError] the dict flagged
    [_parse_error]. *)

Module Llm.

Inductive outcome (R : Type) :=
  | LlmRaised (error : string)
  | LlmParseError
  | LlmParsed (result : R).
Arguments LlmRaised {R} error.
Arguments LlmParseError {R}.
Arguments LlmParsed {R} result.

(** [d.get(key, default)] on an optional field. *)
Definition get {V : Type} (field : option V) (default : V) : V :=
  match field with Some v => v | None => default end.

End Llm.

(** ** Hallucination detector ([nodes/detectors/hallucination.py]) *)

Module Hallucination.
Import State Graph Llm.

Record Result := {
  hallucination_detected : option bool;
  result_confidence : option Q;
  result_severity : option string;
  summary : option string;
  result_findings : option (list Finding)
}.

Record Update := {
  out_hallucination_signal : FailureSignal;
  out_errors : option (list (string * string))
}.

Definition _create_default_signal : FailureSignal := {|
  failure_type := "hallucination";
  detected := false;
  confidence := 0;
  severity := "low";
  evidence := [];
  related_claim_ids := [];
  explanation := "Unable to analyze for hallucinations.";
  findings := []
|}.

(** The two loops over [findings]. *)
Definition related_claims_of (findings : list Finding) : list string :=
  flat_map
    (fun finding =>
       if get (is_hallucinated finding) false then
         let claim_id := get (finding_claim_id finding) "" in
         if Py.is_empty claim_id then [] else [claim_id]
       else [])
    findings.

Definition evidence_of (findings : list Finding) : list string :=
  flat_map
    (fun finding =>
       if get (is_hallucinated finding) false then
         let reason := get (State.reason finding) "" in
         if Py.is_empty reason then [] else [reason]
       else [])
    findings.

Definition hallucination_detector (llm : outcome Result) (state : AnalysisState)
    : Update :=
  match llm with
  | LlmParseError =>
      {| out_hallucination_signal := _create_default_signal; out_errors := None |}
  | LlmParsed result =>
      let findings := get (result_findings result) [] in
      {| out_hallucination_signal :=
           {| failure_type := "hallucination";
              detected := get (hallucination_detected result) false;
              confidence := get (result_confidence result) 0;
              severity := get (result_severity result) "medium";
              evidence := evidence_of findings;
              related_claim_ids := related_claims_of findings;
              explanation := get (summary result) "No hallucination issues detected.";
              findings := findings |};
         out_errors := None |}
  | LlmRaised e =>
      {| out_hallucination_signal := _create_default_signal;
         out_errors := Some (errors state ++ [("hallucination_detector", e)]) |}
  end.

End Hallucination.

(** ** Precheck node ([nodes/precheck.py]) *)

Module Precheck.
Import Graph Llm.

Record Result := {
  is_valid : option bool;
  result_answer_type : option string;
  proceed_with_analysis : option bool;
  result_reason : option string
}.

Record Update := {
  out_precheck_passed : bool;
  out_precheck_failure_reason : option string;
  out_answer_type : string;
  out_errors : option (list (string * string))
}.

Definition refusal_patterns : list string :=
  [ "i cannot";
    "i can't";
    "i'm not able to";
    "i am not able to";
    "i don't have access";
    "i'm sorry, but i cannot";
    "as an ai";
    "i'm unable to" ].

Definition error_patterns : list string :=
  [ "error:";
    "exception:";
    "traceback";
    "failed to";
    "unable to process" ].

Definition precheck_node (llm : outcome Result) (state : AnalysisState) : Update :=
  let question := Py.strip (Graph.question state) in
  let answer := Py.strip (Graph.answer state) in
  if Py.is_empty question then
    {| out_precheck_passed := false;
       out_precheck_failure_reason := Some "Question is empty";
       out_answer_type := "invalid";
       out_errors := None |}
  else if Py.is_empty answer then
    {| out_precheck_passed := false;
       out_precheck_failure_reason := Some "Answer is empty";
       out_answer_type := "empty";
       out_errors := None |}
  else
    let answer_lower := Py.lower answer in
    let is_refusal := Py.any_in refusal_patterns answer_lower in
    if is_refusal && (String.length answer <? 200)%nat then
      {| out_precheck_passed := true;
         out_precheck_failure_reason := None;
         out_answer_type := "refusal";
         out_errors := None |}
    else
      let is_error := Py.any_in error_patterns answer_lower in
      if is_error && (String.length answer <? 500)%nat then
        {| out_precheck_passed := false;
           out_precheck_failure_reason := Some "Answer appears to be an error message";
           out_answer_type := "error";
           out_errors := None |}
      else
        match llm with
        | LlmParseError =>
            {| out_precheck_passed := true;
               out_precheck_failure_reason := None;
               out_answer_type := "response";
               out_errors := None |}
        | LlmParsed result =>
            let is_valid := get (is_valid result) true in
            let answer_type := get (result_answer_type result) "response" in
            let proceed := get (proceed_with_analysis result) true in
            {| out_precheck_passed := is_valid && proceed;
               out_precheck_failure_reason :=
                 if negb (is_valid && proceed) then result_reason result else None;
               out_answer_type := answer_type;
               out_errors := None |}
        | LlmRaised e =>
            {| out_precheck_passed := true;
               out_precheck_failure_reason := None;
               out_answer_type := "response";
               out_errors := Some (errors state ++ [("precheck", e)]) |}
        end.

Definition merge (state : AnalysisState) (u : Update) : AnalysisState := {|
  question := question state;
  answer := answer state;
  context := context state;
  domain := domain state;
  precheck_passed := out_precheck_passed u;
  precheck_failure_reason := out_precheck_failure_reason u;
  answer_type := out_answer_type u;
  claims := claims state;
  assumptions := assumptions state;
  reasoning_steps := reasoning_steps state;
  failure_signals := failure_signals state;
  hallucination_signal := hallucination_signal state;
  logical_signal := logical_signal state;
  assumptions_signal := assumptions_signal state;
  overconfidence_signal := overconfidence_signal state;
  scope_signal := scope_signal state;
  underspec_signal := underspec_signal state;
  detected_failures := detected_failures state;
  failure_detected := failure_detected state;
  failure_types := failure_types state;
  risk_score := risk_score state;
  risk_level := risk_level state;
  domain_multiplier := domain_multiplier state;
  contributing_factors := contributing_factors state;
  final_explanation := final_explanation state;
  recommendations := recommendations state;
  errors := Llm.get (out_errors u) (errors state)
|}.

End Precheck.

(** ** Decomposition node ([nodes/decomposition.py]) *)

Module Decomposition.
Import State Graph Llm.

(** One element of the model's ["claims"] list. *)
Record RawClaim := {
  raw_claim_id : option string;
  raw_claim_text : option string;
  raw_claim_type : option string;
  raw_implicit_assumptions : option (list string)
}.

Record Result := {
  result_claims : option (list RawClaim);
  overall_assumptions : option (list string);
  reasoning_chain : option (list string)
}.

Record Update := {
  out_claims : list ClaimData;
  out_assumptions : list string;
  out_reasoning_steps : list string;
  out_errors : option (list (string * string))
}.

(** The class [[.!?]] of the look-behind. *)
Definition is_sentence_end (c : ascii) : bool :=
  Ascii.eqb c "." || Ascii.eqb c "!" || Ascii.eqb c "?".

(** Where the scan of [re.split] stands: inside a piece, knowing whether
    the previous character satisfies the look-behind, or inside a run of
    blanks matched by [\s+]. *)
Inductive scan := InPiece (after_end : bool) | InSeparator.

Definition push (c : ascii) (pieces : list string) : list string :=
  match pieces with
  | [] => [String c EmptyString]
  | piece :: rest => String c piece :: rest
  end.

(** [re.split(r'(?<=[.!?])\s+', text)]: the head of the result is the piece
    being read. A blank right after a sentence end closes the piece, the
    whole run of blanks is dropped, and a text that ends inside the run
    yields a last empty piece. *)
Fixpoint split_from (mode : scan) (text : string) : list string :=
  match text with
  | EmptyString => [EmptyString]
  | String c rest =>
      match mode with
      | InSeparator =>
          if Py.is_space c then split_from InSeparator rest
          else push c (split_from (InPiece (is_sentence_end c)) rest)
      | InPiece after_end =>
          if after_end && Py.is_space c then EmptyString :: split_from InSeparator rest
          else push c (split_from (InPiece (is_sentence_end c)) rest)
      end
  end.

Definition split_sentences (text : string) : list string :=
  split_from (InPiece false) text.

(** The loop over [enumerate(sentences)], from index [i] on. *)
Fixpoint claims_from (i : nat) (sentences : list string) : list ClaimData :=
  match sentences with
  | [] => []
  | sentence :: rest =>
      let sentence := Py.strip sentence in
      if (10 <? String.length sentence)%nat then
        {| claim_id := ("c" ++ Py.str_of_nat (i + 1))%string;
           claim_text := sentence;
           claim_type := "factual";
           implicit_assumptions := [] |} :: claims_from (S i) rest
      else claims_from (S i) rest
  end.

Definition _fallback_claim_extraction (answer : string) : list ClaimData :=
  let sentences := split_sentences (Py.strip answer) in
  firstn 20 (claims_from 0 sentences).

(** The loop over [enumerate(raw_claims)]. *)
Fixpoint claims_of_raw (i : nat) (raw_claims : list RawClaim) : list ClaimData :=
  match raw_claims with
  | [] => []
  | claim :: rest =>
      {| claim_id := get (raw_claim_id claim) ("c" ++ Py.str_of_nat (i + 1))%string;
         claim_text := get (raw_claim_text claim) "";
         claim_type := get (raw_claim_type claim) "factual";
         implicit_assumptions := get (raw_implicit_assumptions claim) [] |}
      :: claims_of_raw (S i) rest
  end.

(** [list(set(assumptions))]: Python fixes no order for the elements of a
    set; the model keeps the one [nodup] gives. *)
Definition dedup (l : list string) : list string := nodup string_dec l.

Definition decomposition_node (llm : outcome Result) (state : AnalysisState)
    : Update :=
  let answer := Graph.answer state in
  match llm with
  | LlmParseError =>
      {| out_claims := _fallback_claim_extraction answer;
         out_assumptions := [];
         out_reasoning_steps := [];
         out_errors :=
           Some (errors state ++
                 [("decomposition", "LLM output parsing failed, using fallback")]) |}
  | LlmParsed result =>
      let raw_claims := get (result_claims result) [] in
      let claims := claims_of_raw 0 raw_claims in
      let claims :=
        match claims with [] => _fallback_claim_extraction answer | _ => claims end in
      let assumptions :=
        get (overall_assumptions result) [] ++ flat_map implicit_assumptions claims in
      {| out_claims := claims;
         out_assumptions := dedup assumptions;
         out_reasoning_steps := get (reasoning_chain result) [];
         out_errors := None |}
  | LlmRaised e =>
      {| out_claims := _fallback_claim_extraction answer;
         out_assumptions := [];
         out_reasoning_steps := [];
         out_errors := Some (errors state ++ [("decomposition", e)]) |}
  end.

Definition merge (state : AnalysisState) (u : Update) : AnalysisState := {|
  question := question state;
  answer := answer state;
  context := context state;
  domain := domain state;
  precheck_passed := precheck_passed state;
  precheck_failure_reason := precheck_failure_reason state;
  answer_type := answer_type state;
  claims := out_claims u;
  assumptions := out_assumptions u;
  reasoning_steps := out_reasoning_steps u;
  failure_signals := Graph.failure_signals state;
  hallucination_signal := Graph.hallucination_signal state;
  logical_signal := Graph.logical_signal state;
  assumptions_signal := Graph.assumptions_signal state;
  overconfidence_signal := Graph.overconfidence_signal state;
  scope_signal := Graph.scope_signal state;
  underspec_signal := Graph.underspec_signal state;
  detected_failures := Graph.detected_failures state;
  failure_detected := Graph.failure_detected state;
  failure_types := Graph.failure_types state;
  risk_score := Graph.risk_score state;
  risk_level := Graph.risk_level state;
  domain_multiplier := Graph.domain_multiplier state;
  contributing_factors := Graph.contributing_factors state;
  final_explanation := final_explanation state;
  recommendations := Graph.recommendations state;
  errors := Llm.get (out_errors u) (Graph.errors state)
|}.

End Decomposition.

(** ** Recommendation node ([nodes/recommendation.py]) *)

Module Recommendation.
Import State Graph Llm.

(** One record of [RECOMMENDATIONS_DB]. *)
Record Entry := {
  entry_title : string;
  entry_description : string;
  entry_implementation_hint : string;
  entry_priority : Z
}.

Definition entry (title description hint : string) (priority : Z) : Entry :=
  {| entry_title := title; entry_description := description;
     entry_implementation_hint := hint; entry_priority := priority |}.

Definition RECOMMENDATIONS_DB : list (string * list Entry) :=
  [ ("hallucination",
     [ entry "Implement RAG with verified sources"
             "Add retrieval-augmented generation to ground responses in verified documents."
             "Use vector databases like ChromaDB/Pinecone with curated knowledge bases."
             1;
       entry "Add source citations requirement"
             "Require the LLM to cite sources for factual claims."
             "Include citation requirements in the system prompt."
             2;
       entry "Implement fact-checking pipeline"
             "Add a post-processing step to verify factual claims."
             "Use a separate verification model or knowledge graph queries."
             2 ]);
    ("logical_inconsistency",
     [ entry "Add chain-of-thought prompting"
             "Require the model to show reasoning steps explicitly."
             "Use 'Let's think step by step' or similar CoT triggers."
             1;
       entry "Implement self-consistency checking"
             "Generate multiple responses and check for consistency."
             "Sample 3-5 responses and look for agreement."
             2;
       entry "Add logical validation layer"
             "Use a separate model to validate logical consistency."
             "Implement a critic model that checks reasoning chains."
             3 ]);
    ("missing_assumptions",
     [ entry "Require explicit assumption listing"
             "Prompt the model to list all assumptions before answering."
             "Add 'First, list your assumptions:' to the prompt structure."
             1;
       entry "Implement clarification requests"
             "Allow the model to ask clarifying questions when information is missing."
             "Add logic to detect and handle clarification requests."
             2;
       entry "Provide comprehensive context"
             "Ensure all necessary context is included in the prompt."
             "Create context templates that capture required information."
             2 ]);
    ("overconfidence",
     [ entry "Request confidence qualifiers"
             "Ask the model to express uncertainty when appropriate."
             "Add 'Express your confidence level' to prompts."
             1;
       entry "Implement calibration training"
             "Fine-tune or prompt-engineer for better calibrated confidence."
             "Use examples that demonstrate appropriate hedging."
             2;
       entry "Post-process absolute statements"
             "Add filters to catch and flag absolute language."
             "Use regex or NLP to detect 'always', 'never', etc."
             3 ]);
    ("scope_violation",
     [ entry "Add scope constraints to prompts"
             "Explicitly define the scope of acceptable responses."
             "Include 'Only answer the specific question asked' in system prompt."
             1;
       entry "Implement response filtering"
             "Filter out tangential information from responses."
             "Use a summarization step focused on the original question."
             2 ]);
    ("underspecification",
     [ entry "Implement ambiguity detection"
             "Detect ambiguous queries before processing."
             "Use a classifier to identify underspecified questions."
             1;
       entry "Add clarification workflow"
             "Implement a multi-turn clarification process."
             "Create a dialogue system for gathering missing information."
             2;
       entry "Provide default assumptions"
             "Define and communicate standard assumptions when info is missing."
             "Create domain-specific default assumption sets."
             3 ]) ].

Definition severity_order : list (string * nat) :=
  [ ("critical", 0%nat); ("high", 1%nat); ("medium", 2%nat); ("low", 3%nat) ].

(** The sort key [severity_order.get(x.get("severity", "medium"), 2)]. *)
Definition severity_rank (failure : FailureSignal) : nat :=
  Py.dict_get severity_order (severity failure) 2%nat.

Definition sorted_failures (detected_failures : list FailureSignal)
    : list FailureSignal :=
  Py.sort_by severity_rank Nat.leb detected_failures.

(** The running variables of the main loop. *)
Record Loop := {
  acc_recommendations : list RecommendationData;
  rec_id_counter : nat;
  seen_types : list string
}.

(** The inner loop over [type_recs[:2]]. *)
Fixpoint add_entries (failure_type : string) (entries : list Entry)
    (recommendations : list RecommendationData) (rec_id_counter : nat)
    : list RecommendationData * nat :=
  match entries with
  | [] => (recommendations, rec_id_counter)
  | rec :: rest =>
      add_entries failure_type rest
        (recommendations ++
           [ {| recommendation_id := ("r" ++ Py.str_of_nat rec_id_counter)%string;
                priority := entry_priority rec;
                rec_failure_type := failure_type;
                title := entry_title rec;
                description := entry_description rec;
                implementation_hint := Some (entry_implementation_hint rec) |} ])
        (rec_id_counter + 1)
  end.

(** One turn of the loop over [sorted_failures]. *)
Definition loop_step (acc : Loop) (failure : FailureSignal) : Loop :=
  let failure_type := State.failure_type failure in
  if existsb (String.eqb failure_type) (seen_types acc) then acc
  else
    let type_recs := Py.dict_get RECOMMENDATIONS_DB failure_type [] in
    let '(recommendations, counter) :=
      add_entries failure_type (firstn 2 type_recs)
                  (acc_recommendations acc) (rec_id_counter acc) in
    {| acc_recommendations := recommendations;
       rec_id_counter := counter;
       seen_types := failure_type :: seen_types acc |}.

(** The predefined recommendations, in the order the loop creates them. *)
Definition predefined (detected_failures : list FailureSignal)
    : list RecommendationData :=
  acc_recommendations
    (fold_left loop_step (sorted_failures detected_failures)
       {| acc_recommendations := []; rec_id_counter := 1; seen_types := [] |}).

(** One element of the model's ["recommendations"] list. *)
Record RawRec := {
  raw_recommendation_id : option string;
  raw_priority : option Z;
  raw_failure_type : option string;
  raw_title : option string;
  raw_description : option string;
  raw_implementation_hint : option string
}.

Record Result := { result_recommendations : option (list RawRec) }.

(** [_generate_domain_recommendations]: [None] when the call raises. *)
Definition _generate_domain_recommendations (llm : outcome Result)
    : option (list RecommendationData) :=
  match llm with
  | LlmRaised _ => None
  | LlmParseError => Some []
  | LlmParsed result =>
      let raw_recs := get (result_recommendations result) [] in
      Some (map
              (fun rec =>
                 {| recommendation_id := get (raw_recommendation_id rec) "rd1";
                    priority := get (raw_priority rec) 3%Z;
                    rec_failure_type := get (raw_failure_type rec) "general";
                    title := get (raw_title rec) "Domain-specific recommendation";
                    description := get (raw_description rec) "";
                    implementation_hint := raw_implementation_hint rec |})
              (firstn 3 raw_recs))
  end.

(** The value of the returned key ["recommendations"]. *)
Definition recommendation_node (llm : outcome Result) (state : AnalysisState)
    : list RecommendationData :=
  let detected_failures := Graph.detected_failures state in
  let domain := Graph.domain state in
  match detected_failures with
  | [] => []
  | _ =>
      let recommendations := Py.sort_by priority Z.leb (predefined detected_failures) in
      let recommendations :=
        if negb (String.eqb domain "general") then
          match _generate_domain_recommendations llm with
          | Some domain_recs => recommendations ++ domain_recs
          | None => recommendations
          end
        else recommendations in
      firstn 10 recommendations
  end.

Definition merge (state : AnalysisState) (recommendations : list RecommendationData) : AnalysisState := {|
  question := question state;
  answer := answer state;
  context := context state;
  domain := domain state;
  precheck_passed := precheck_passed state;
  precheck_failure_reason := precheck_failure_reason state;
  answer_type := answer_type state;
  claims := Graph.claims state;
  assumptions := Graph.assumptions state;
  reasoning_steps := Graph.reasoning_steps state;
  failure_signals := Graph.failure_signals state;
  hallucination_signal := Graph.hallucination_signal state;
  logical_signal := Graph.logical_signal state;
  assumptions_signal := Graph.assumptions_signal state;
  overconfidence_signal := Graph.overconfidence_signal state;
  scope_signal := Graph.scope_signal state;
  underspec_signal := Graph.underspec_signal state;
  detected_failures := Graph.detected_failures state;
  failure_detected := Graph.failure_detected state;
  failure_types := Graph.failure_types state;
  risk_score := Graph.risk_score state;
  risk_level := Graph.risk_level state;
  domain_multiplier := Graph.domain_multiplier state;
  contributing_factors := Graph.contributing_factors state;
  final_explanation := final_explanation state;
  recommendations := recommendations;
  errors := Graph.errors state
|}.

End Recommendation.

(** ** The orchestrator ([graph/orchestrator.py]) *)

Module Orchestrator.
Import State Graph Llm.

Inductive node :=
  | precheck
  | early_exit
  | decomposition
  | parallel_detectors
  | aggregation
  | risk_scoring
  | explanation
  | recommendation
  | finalize.

Definition should_continue_after_precheck (state : AnalysisState) : node :=
  if precheck_passed state then decomposition else early_exit.

(** [str(x)] inside the f-string of [early_exit_node]. *)
Definition str_of_reason (reason : option string) : string :=
  match reason with Some text => text | None => "None" end.

(** [early_exit_node], its returned keys written over the state. *)
Definition early_exit_node (state : AnalysisState) : AnalysisState := {|
  question := question state;
  answer := answer state;
  context := context state;
  domain := domain state;
  precheck_passed := precheck_passed state;
  precheck_failure_reason := precheck_failure_reason state;
  answer_type := answer_type state;
  claims := Graph.claims state;
  assumptions := Graph.assumptions state;
  reasoning_steps := Graph.reasoning_steps state;
  failure_signals := Graph.failure_signals state;
  hallucination_signal := Graph.hallucination_signal state;
  logical_signal := Graph.logical_signal state;
  assumptions_signal := Graph.assumptions_signal state;
  overconfidence_signal := Graph.overconfidence_signal state;
  scope_signal := Graph.scope_signal state;
  underspec_signal := Graph.underspec_signal state;
  detected_failures := [];
  failure_detected := false;
  failure_types := [];
  risk_score := 0;
  risk_level := "low";
  domain_multiplier := Graph.domain_multiplier state;
  contributing_factors := Graph.contributing_factors state;
  final_explanation := ("Analysis skipped: " ++ str_of_reason (precheck_failure_reason state))%string;
  recommendations := [];
  errors := Graph.errors state
|}.

(** What the run takes from outside: the outcome of each model call, the
    signals of the five detectors that are not modelled, the text the
    explanation node composes and the exception it caught, if any. *)
Record Oracle := {
  precheck_llm : outcome Precheck.Result;
  decomposition_llm : outcome Decomposition.Result;
  hallucination_llm : outcome Hallucination.Result;
  logical_detector : FailureSignal;
  assumptions_detector : FailureSignal;
  overconfidence_detector : FailureSignal;
  scope_detector : FailureSignal;
  underspec_detector : FailureSignal;
  explanation_text : string;
  explanation_error : option string;
  recommendation_llm : outcome Recommendation.Result
}.

(** [parallel_detectors_node] when each of the six detectors returns its
    dict: the signals are merged and [errors] is set back to the list read
    from the state. The loop over results that may be exceptions is given
    in module [Detectors]. *)
Definition parallel_detectors_node (state : AnalysisState) (o : Oracle) : AnalysisState := {|
  question := question state;
  answer := answer state;
  context := context state;
  domain := domain state;
  precheck_passed := precheck_passed state;
  precheck_failure_reason := precheck_failure_reason state;
  answer_type := answer_type state;
  claims := Graph.claims state;
  assumptions := Graph.assumptions state;
  reasoning_steps := Graph.reasoning_steps state;
  failure_signals := Graph.failure_signals state;
  hallucination_signal := Some (Hallucination.out_hallucination_signal
      (Hallucination.hallucination_detector (hallucination_llm o) state));
  logical_signal := Some (logical_detector o);
  assumptions_signal := Some (assumptions_detector o);
  overconfidence_signal := Some (overconfidence_detector o);
  scope_signal := Some (scope_detector o);
  underspec_signal := Some (underspec_detector o);
  detected_failures := Graph.detected_failures state;
  failure_detected := Graph.failure_detected state;
  failure_types := Graph.failure_types state;
  risk_score := Graph.risk_score state;
  risk_level := Graph.risk_level state;
  domain_multiplier := Graph.domain_multiplier state;
  contributing_factors := Graph.contributing_factors state;
  final_explanation := final_explanation state;
  recommendations := Graph.recommendations state;
  errors := Graph.errors state
|}.

(** The explanation node writes narrative keys, and [errors] when its
    [try] block raised. *)
Definition explanation_node (state : AnalysisState) (o : Oracle) : AnalysisState := {|
  question := question state;
  answer := answer state;
  context := context state;
  domain := domain state;
  precheck_passed := precheck_passed state;
  precheck_failure_reason := precheck_failure_reason state;
  answer_type := answer_type state;
  claims := Graph.claims state;
  assumptions := Graph.assumptions state;
  reasoning_steps := Graph.reasoning_steps state;
  failure_signals := Graph.failure_signals state;
  hallucination_signal := Graph.hallucination_signal state;
  logical_signal := Graph.logical_signal state;
  assumptions_signal := Graph.assumptions_signal state;
  overconfidence_signal := Graph.overconfidence_signal state;
  scope_signal := Graph.scope_signal state;
  underspec_signal := Graph.underspec_signal state;
  detected_failures := Graph.detected_failures state;
  failure_detected := Graph.failure_detected state;
  failure_types := Graph.failure_types state;
  risk_score := Graph.risk_score state;
  risk_level := Graph.risk_level state;
  domain_multiplier := Graph.domain_multiplier state;
  contributing_factors := Graph.contributing_factors state;
  final_explanation := explanation_text o;
  recommendations := Graph.recommendations state;
  errors :=
    match explanation_error o with
    | Some e => Graph.errors state ++ [("explanation", e)]
    | None => Graph.errors state
    end
|}.

(** The function each node of [create_analysis_graph] runs, with its
    returned keys written over the state. *)
Definition run_node (settings : Config.Settings) (o : Oracle) (n : node)
    (state : AnalysisState) : AnalysisState :=
  match n with
  | precheck => Precheck.merge state (Precheck.precheck_node (precheck_llm o) state)
  | early_exit => early_exit_node state
  | decomposition =>
      Decomposition.merge state
        (Decomposition.decomposition_node (decomposition_llm o) state)
  | parallel_detectors => parallel_detectors_node state o
  | aggregation => Aggregation.merge state (Aggregation.aggregation_node settings state)
  | risk_scoring => RiskScoring.merge state (RiskScoring.risk_scoring_node settings state)
  | explanation => explanation_node state o
  | recommendation =>
      Recommendation.merge state
        (Recommendation.recommendation_node (recommendation_llm o) state)
  | finalize => state
  end.

(** The edges: [None] is [END]. *)
Definition successor (n : node) (state : AnalysisState) : option node :=
  match n with
  | precheck => Some (should_continue_after_precheck state)
  | decomposition => Some parallel_detectors
  | parallel_detectors => Some aggregation
  | aggregation => Some risk_scoring
  | risk_scoring => Some explanation
  | explanation => Some recommendation
  | recommendation => Some finalize
  | early_exit => None
  | finalize => None
  end.

(** The outcome of [graph.ainvoke]: the final state and the nodes run. *)
Record Run := {
  final_state : AnalysisState;
  trace : list node
}.

(** Runs node [n], then follows the edge; [None] when [fuel] nodes were not
    enough to reach [END]. *)
Fixpoint invoke (settings : Config.Settings) (o : Oracle) (fuel : nat)
    (n : node) (state : AnalysisState) (visited : list node) : option Run :=
  match fuel with
  | O => None
  | S fuel' =>
      let state' := run_node settings o n state in
      match successor n state' with
      | None => Some {| final_state := state'; trace := visited ++ [n] |}
      | Some next => invoke settings o fuel' next state' (visited ++ [n])
      end
  end.

(** The graph has nine nodes and no cycle. *)
Definition graph_size : nat := 9.

Definition run_analysis (settings : Config.Settings) (o : Oracle)
    (question answer : string) (context : option string) (domain : string)
    : option Run :=
  let initial_state := create_initial_state question answer context domain in
  invoke settings o graph_size precheck initial_state [].

End Orchestrator.

(** ** The merge of the detectors ([parallel_detectors_node]) *)

Module Detectors.
Import State Graph.

(** One element of [results]: [gather(..., return_exceptions=True)] hands
    back the exception that escaped a detector, or the dict the detector
    returned, which holds its signal under its key and ["errors"] when its
    [except] clause ran. *)
Inductive gathered :=
  | Raised (e : string)
  | Returned (signal : FailureSignal) (errors : option (list (string * string))).

(** [merged], without [node_times]: the signals by key, the last written
    first, and ["errors"] when a merged dict carried it. *)
Record Merged := {
  signals : list (string * FailureSignal);
  merged_errors : option (list (string * string))
}.

(** [key in d] and [d[key]] *)
Fixpoint lookup (d : list (string * FailureSignal)) (key : string)
    : option FailureSignal :=
  match d with
  | [] => None
  | (k, v) :: rest => if String.eqb k key then Some v else lookup rest key
  end.

(** One turn of the loop over [results], on [(merged, errors)]; a result
    comes with the key its detector writes. *)
Definition merge_step (acc : Merged * list (string * string))
    (result : string * gathered) : Merged * list (string * string) :=
  let '(merged, errors) := acc in
  match snd result with
  | Raised e => (merged, errors ++ [("parallel_detectors", e)])
  | Returned signal result_errors =>
      ({| signals := (fst result, signal) :: signals merged;
          merged_errors :=
            match result_errors with
            | Some l => Some l
            | None => merged_errors merged
            end |},
       errors)
  end.

(** The dict the node returns: after the loop [merged["errors"]] is set to
    [errors]. *)
Definition merge_results (state : AnalysisState) (results : list (string * gathered))
    : Merged :=
  let '(merged, errors) :=
    fold_left merge_step results
      ({| signals := []; merged_errors := None |}, Graph.errors state) in
  {| signals := signals merged; merged_errors := Some errors |}.

(** A key of the state after the returned dict is written over it. *)
Definition written (merged : Merged) (key : string) (old : option FailureSignal)
    : option FailureSignal :=
  match lookup (signals merged) key with
  | Some signal => Some signal
  | None => old
  end.

Definition parallel_detectors_node (state : AnalysisState)
    (results : list (string * gathered)) : AnalysisState :=
  let merged := merge_results state results in
  {| question := question state;
     answer := answer state;
     context := context state;
     domain := domain state;
     precheck_passed := precheck_passed state;
     precheck_failure_reason := precheck_failure_reason state;
     answer_type := answer_type state;
     claims := Graph.claims state;
     assumptions := Graph.assumptions state;
     reasoning_steps := Graph.reasoning_steps state;
     failure_signals := Graph.failure_signals state;
     hallucination_signal :=
       written merged "hallucination_signal" (Graph.hallucination_signal state);
     logical_signal := written merged "logical_signal" (Graph.logical_signal state);
     assumptions_signal :=
       written merged "assumptions_signal" (Graph.assumptions_signal state);
     overconfidence_signal :=
       written merged "overconfidence_signal" (Graph.overconfidence_signal state);
     scope_signal := written merged "scope_signal" (Graph.scope_signal state);
     underspec_signal :=
       written merged "underspec_signal" (Graph.underspec_signal state);
     detected_failures := Graph.detected_failures state;
     failure_detected := Graph.failure_detected state;
     failure_types := Graph.failure_types state;
     risk_score := Graph.risk_score state;
     risk_level := Graph.risk_level state;
     domain_multiplier := Graph.domain_multiplier state;
     contributing_factors := Graph.contributing_factors state;
     final_explanation := final_explanation state;
     recommendations := Graph.recommendations state;
     errors :=
       match merged_errors merged with
       | Some errors => errors
       | None => Graph.errors state
       end |}.

End Detectors.

(** ** Text methods used by the explanation texts *)

Module PyText.

Definition is_lower_char (c : ascii) : bool :=
  let n := nat_of_ascii c in ((97 <=? n) && (n <=? 122))%nat.

Definition is_upper_char (c : ascii) : bool :=
  let n := nat_of_ascii c in ((65 <=? n) && (n <=? 90))%nat.

Definition upper_char (c : ascii) : ascii :=
  if is_lower_char c then ascii_of_nat (nat_of_ascii c - 32) else c.

(** [str.upper] *)
Fixpoint upper (s : string) : string :=
  match s with
  | EmptyString => EmptyString
  | String c rest => String (upper_char c) (upper rest)
  end.

(** [str.title]: a letter that follows a letter is lowered, any other
    letter is raised. *)
Fixpoint title_from (previous_is_cased : bool) (s : string) : string :=
  match s with
  | EmptyString => EmptyString
  | String c rest =>
      String (if previous_is_cased then Py.lower_char c else upper_char c)
             (title_from (is_lower_char c || is_upper_char c) rest)
  end.

Definition title (s : string) : string := title_from false s.

(** [str.replace(old, new)] for one-character [old] and [new]. *)
Fixpoint replace_char (old new : ascii) (s : string) : string :=
  match s with
  | EmptyString => EmptyString
  | String c rest =>
      String (if Ascii.eqb c old then new else c) (replace_char old new rest)
  end.

End PyText.

(** ** Explanation node ([nodes/explanation.py]) *)

Module Explanation.
Import State Graph Llm.

(** The keys read from the parsed output. *)
Record Result := {
  summary : option string;
  key_findings : option (list string);
  detailed_explanation : option string;
  impact_assessment : option string
}.

Record Update := {
  out_explanation_summary : string;
  out_key_findings : list string;
  out_detailed_explanation : string;
  out_impact_assessment : string;
  out_explanation : string;
  out_errors : option (list (string * string))
}.

Definition blank_line : string :=
  String Client.newline (String Client.newline EmptyString).

Section Texts.
(** The text of a float under the format [.2f]; it depends on the binary
    value of the float and is taken as given. *)
Variable format_2f : Q -> string.

Definition _generate_no_failure_explanation (risk_score : Q) (risk_level : string)
    : string :=
  ("The analysis found no significant reliability issues with this LLM output. "
   ++ "Risk score: " ++ format_2f risk_score ++ " (" ++ risk_level ++ "). "
   ++ "The response appears to be appropriate for the given question and context. "
   ++ "Standard deployment practices are recommended.")%string.

Definition _generate_fallback_explanation (detected_failures : list FailureSignal)
    (risk_score : Q) (risk_level : string) : string :=
  let failure_types :=
    map (fun f => PyText.title (PyText.replace_char "_" " " (failure_type f)))
        detected_failures in
  let failure_list := String.concat ", " failure_types in
  ("Analysis detected " ++ Py.str_of_nat (List.length detected_failures)
   ++ " potential issue(s): " ++ failure_list ++ ". "
   ++ "Overall risk score: " ++ format_2f risk_score
   ++ " (" ++ PyText.upper risk_level ++ "). "
   ++ "Review the detailed findings and evidence for each failure type. "
   ++ "Consider the recommendations provided to mitigate these issues.")%string.

(** [llm] is the outcome of the [try] block: the prompt is built and the
    model is called only when a failure was retained. The state is read at
    the types its TypedDict declares. The two texts that the node formats
    before the [try] block ([failures_text] and [claims_text]) only feed
    the prompt and are left out; on a confidence that is not a number, or
    an evidence that is not a list of strings, that formatting raises, and
    the node with it. *)
Definition explanation_node (llm : outcome Result) (state : AnalysisState) : Update :=
  let detected_failures := Graph.detected_failures state in
  let risk_score := Graph.risk_score state in
  let risk_level := Graph.risk_level state in
  match detected_failures with
  | [] =>
      let explanation := _generate_no_failure_explanation risk_score risk_level in
      {| out_explanation_summary := explanation;
         out_key_findings := ["No significant issues detected"];
         out_detailed_explanation := explanation;
         out_impact_assessment := "Low impact - output appears reliable.";
         out_explanation := explanation;
         out_errors := None |}
  | _ =>
      match llm with
      | LlmParseError =>
          let explanation :=
            _generate_fallback_explanation detected_failures risk_score risk_level in
          {| out_explanation_summary := explanation;
             out_key_findings := map failure_type detected_failures;
             out_detailed_explanation := explanation;
             out_impact_assessment := ("Risk level: " ++ risk_level)%string;
             out_explanation := explanation;
             out_errors := None |}
      | LlmParsed result =>
          let summary := get (summary result) "Analysis complete." in
          let key_findings := get (key_findings result) [] in
          let detailed := get (detailed_explanation result) summary in
          let impact := get (impact_assessment result) "" in
          let final_explanation := (summary ++ blank_line ++ detailed)%string in
          let final_explanation :=
            if Py.is_empty impact then final_explanation
            else (final_explanation ++ blank_line ++ "Impact: " ++ impact)%string in
          {| out_explanation_summary := summary;
             out_key_findings := key_findings;
             out_detailed_explanation := detailed;
             out_impact_assessment := impact;
             out_explanation := final_explanation;
             out_errors := None |}
      | LlmRaised e =>
          let explanation :=
            _generate_fallback_explanation detected_failures risk_score risk_level in
          {| out_explanation_summary := explanation;
             out_key_findings := map failure_type detected_failures;
             out_detailed_explanation := explanation;
             out_impact_assessment := ("Risk level: " ++ risk_level)%string;
             out_explanation := explanation;
             out_errors := Some (errors state ++ [("explanation", e)]) |}
      end
  end.
End Texts.

(** The keys of the update that the state of this development holds. *)
Definition merge (state : AnalysisState) (u : Update) : AnalysisState := {|
  question := question state;
  answer := answer state;
  context := context state;
  domain := domain state;
  precheck_passed := precheck_passed state;
  precheck_failure_reason := precheck_failure_reason state;
  answer_type := answer_type state;
  claims := Graph.claims state;
  assumptions := Graph.assumptions state;
  reasoning_steps := Graph.reasoning_steps state;
  failure_signals := Graph.failure_signals state;
  hallucination_signal := Graph.hallucination_signal state;
  logical_signal := Graph.logical_signal state;
  assumptions_signal := Graph.assumptions_signal state;
  overconfidence_signal := Graph.overconfidence_signal state;
  scope_signal := Graph.scope_signal state;
  underspec_signal := Graph.underspec_signal state;
  detected_failures := Graph.detected_failures state;
  failure_detected := Graph.failure_detected state;
  failure_types := Graph.failure_types state;
  risk_score := Graph.risk_score state;
  risk_level := Graph.risk_level state;
  domain_multiplier := Graph.domain_multiplier state;
  contributing_factors := Graph.contributing_factors state;
  final_explanation := out_explanation u;
  recommendations := Graph.recommendations state;
  errors := Llm.get (out_errors u) (Graph.errors state)
|}.

End Explanation.

(** ** Request schema ([app/api/schemas/requests.py]) *)

Module Requests.

Inductive Domain := GENERAL | FINANCE | MEDICAL | LEGAL | CODE.

(** [Domain.value] *)
Definition value (d : Domain) : string :=
  match d with
  | GENERAL => "general"
  | FINANCE => "finance"
  | MEDICAL => "medical"
  | LEGAL => "legal"
  | CODE => "code"
  end.

(** What the validation reports for a field it refuses: a broken length
    constraint, or the message of the [ValueError] a validator raised. *)
Inductive FieldError :=
  | string_too_short
  | string_too_long
  | value_error (message : string).

(** A [str] field declared with [min_length] and [max_length]: the
    constraints of [Field] are checked on the value received, before the
    validators of the class run. *)
Definition constrained_str (min_length max_length : N) (v : string)
    : string + FieldError :=
  if (N.of_nat (String.length v) <? min_length)%N then inr string_too_short
  else if (max_length <? N.of_nat (String.length v))%N then inr string_too_long
  else inl v.

Definition strip_whitespace (v : string) : string := Py.strip v.

Definition validate_question_not_empty (v : string) : string + FieldError :=
  if Py.is_empty (Py.strip v)
  then inr (value_error "Question cannot be empty or whitespace only")
  else inl v.

Definition validate_answer_not_empty (v : string) : string + FieldError :=
  if Py.is_empty (Py.strip v)
  then inr (value_error "LLM answer cannot be empty or whitespace only")
  else inl v.

(** The field [question]: its constraints, then its validators in the
    order of the class. *)
Definition question_field (v : string) : string + FieldError :=
  match constrained_str 1%N 10000%N v with
  | inl v => validate_question_not_empty (strip_whitespace v)
  | inr e => inr e
  end.

Definition llm_answer_field (v : string) : string + FieldError :=
  match constrained_str 1%N 50000%N v with
  | inl v => validate_answer_not_empty (strip_whitespace v)
  | inr e => inr e
  end.

(** A validated request. [model_metadata] is left out: no node reads it. *)
Record AnalysisRequest := {
  question : string;
  llm_answer : string;
  context : option string;
  domain : Domain
}.

End Requests.

(** ** Response schema ([app/api/schemas/responses.py]) *)

Module Responses.

Inductive FailureType :=
  | HALLUCINATION
  | LOGICAL_INCONSISTENCY
  | MISSING_ASSUMPTIONS
  | OVERCONFIDENCE
  | SCOPE_VIOLATION
  | UNDERSPECIFICATION.

Inductive Severity := SEVERITY_LOW | SEVERITY_MEDIUM | SEVERITY_HIGH | SEVERITY_CRITICAL.

Inductive RiskLevel := LOW | MEDIUM | HIGH | CRITICAL.

Definition failure_type_members : list (string * FailureType) :=
  [ ("hallucination", HALLUCINATION);
    ("logical_inconsistency", LOGICAL_INCONSISTENCY);
    ("missing_assumptions", MISSING_ASSUMPTIONS);
    ("overconfidence", OVERCONFIDENCE);
    ("scope_violation", SCOPE_VIOLATION);
    ("underspecification", UNDERSPECIFICATION) ].

Definition severity_members : list (string * Severity) :=
  [ ("low", SEVERITY_LOW); ("medium", SEVERITY_MEDIUM);
    ("high", SEVERITY_HIGH); ("critical", SEVERITY_CRITICAL) ].

Definition risk_level_members : list (string * RiskLevel) :=
  [ ("low", LOW); ("medium", MEDIUM); ("high", HIGH); ("critical", CRITICAL) ].

(** [Enum(text)]: the member of that value; [None] is the [ValueError]. *)
Definition member {E : Type} (members : list (string * E)) (text : string) : option E :=
  Py.dict_get (map (fun m => (fst m, Some (snd m))) members) text None.

(** [FailureType.value] *)
Definition failure_type_value (t : FailureType) : string :=
  match t with
  | HALLUCINATION => "hallucination"
  | LOGICAL_INCONSISTENCY => "logical_inconsistency"
  | MISSING_ASSUMPTIONS => "missing_assumptions"
  | OVERCONFIDENCE => "overconfidence"
  | SCOPE_VIOLATION => "scope_violation"
  | UNDERSPECIFICATION => "underspecification"
  end.

Record ClaimAnalysis := {
  claim_id : string;
  claim_text : string;
  is_verifiable : bool;
  is_supported : bool;
  claim_confidence : Q;
  issues : list string
}.

Record FailureDetail := {
  failure_type : FailureType;
  detected : bool;
  confidence : Q;
  severity : Severity;
  evidence : list string;
  related_claim_ids : list string;
  explanation : string
}.

Record Recommendation := {
  recommendation_id : string;
  priority : Z;
  rec_failure_type : FailureType;
  title : string;
  description : string;
  implementation_hint : option string
}.

(** [RiskAssessment], without the text of [explanation]. *)
Record RiskAssessment := {
  risk_score : Q;
  risk_level : RiskLevel;
  domain : string;
  domain_multiplier : Q;
  contributing_factors : list Scoring.Factor
}.

(** [AnalysisResponse], without [metadata]. *)
Record AnalysisResponse := {
  failure_detected : bool;
  failure_types : list FailureType;
  failures : list FailureDetail;
  claims : list ClaimAnalysis;
  risk_assessment : RiskAssessment;
  recommendations : list Recommendation;
  response_explanation : string
}.

(** What building a response can raise: the [ValidationError] of a model
    whose field breaks its constraint, or the [ValueError] of an enum. *)
Inductive Error :=
  | ValidationError (model field : string)
  | ValueError (text : string).

(** The constructors of the models whose fields carry [ge] and [le]. *)
Definition new_FailureDetail (failure_type : FailureType) (detected : bool)
    (confidence : Q) (severity : Severity) (evidence related_claim_ids : list string)
    (explanation : string) : FailureDetail + Error :=
  if Qle_bool 0 confidence && Qle_bool confidence 1 then
    inl {| failure_type := failure_type; detected := detected;
           confidence := confidence; severity := severity; evidence := evidence;
           related_claim_ids := related_claim_ids; explanation := explanation |}
  else inr (ValidationError "FailureDetail" "confidence").

Definition new_RiskAssessment (risk_score : Q) (risk_level : RiskLevel)
    (domain : string) (domain_multiplier : Q)
    (contributing_factors : list Scoring.Factor) : RiskAssessment + Error :=
  if Qle_bool 0 risk_score && Qle_bool risk_score 1 then
    inl {| risk_score := risk_score; risk_level := risk_level; domain := domain;
           domain_multiplier := domain_multiplier;
           contributing_factors := contributing_factors |}
  else inr (ValidationError "RiskAssessment" "risk_score").

Definition new_Recommendation (recommendation_id : string) (priority : Z)
    (failure_type : FailureType) (title description : string)
    (implementation_hint : option string) : Recommendation + Error :=
  if ((1 <=? priority) && (priority <=? 5))%Z then
    inl {| recommendation_id := recommendation_id; priority := priority;
           rec_failure_type := failure_type; title := title;
           description := description;
           implementation_hint := implementation_hint |}
  else inr (ValidationError "Recommendation" "priority").

End Responses.

(** ** Analysis service ([app/services/analysis_service.py]) *)

Module Service.
Import Responses.

(** The loop that builds [failures]; it stops at the first failure whose
    model is refused. *)
Definition failure_detail (f : State.FailureSignal) : FailureDetail + Error :=
  let failure_type :=
    match member failure_type_members (State.failure_type f) with
    | Some t => t
    | None => HALLUCINATION
    end in
  let severity :=
    match member severity_members (State.severity f) with
    | Some s => s
    | None => SEVERITY_MEDIUM
    end in
  new_FailureDetail failure_type (State.detected f) (State.confidence f) severity
    (State.evidence f) (State.related_claim_ids f) (State.explanation f).

Fixpoint build_failures (detected_failures : list State.FailureSignal)
    (failures : list FailureDetail) : list FailureDetail + Error :=
  match detected_failures with
  | [] => inl failures
  | f :: rest =>
      match failure_detail f with
      | inl detail => build_failures rest (failures ++ [detail])
      | inr e => inr e
      end
  end.

(** The claims as first built; 0.8 satisfies the constraint of the field. *)
Definition claim_analysis (c : State.ClaimData) : ClaimAnalysis :=
  {| claim_id := State.claim_id c;
     claim_text := State.claim_text c;
     is_verifiable := true;
     is_supported := true;
     claim_confidence := 8 # 10;
     issues := [] |}.

(** The innermost loop of the marking: every claim of that id. *)
Definition mark_claims (issue claim_id : string) (claims : list ClaimAnalysis)
    : list ClaimAnalysis :=
  map (fun claim =>
         if String.eqb (Responses.claim_id claim) claim_id then
           {| claim_id := Responses.claim_id claim;
              claim_text := claim_text claim;
              is_verifiable := is_verifiable claim;
              is_supported := false;
              claim_confidence := claim_confidence claim;
              issues := issues claim ++ [issue] |}
         else claim)
      claims.

Definition mark_failure (claims : list ClaimAnalysis) (f : FailureDetail)
    : list ClaimAnalysis :=
  fold_left (fun claims claim_id =>
               mark_claims (failure_type_value (failure_type f)) claim_id claims)
            (related_claim_ids f) claims.

Definition recommendation (r : State.RecommendationData) : Recommendation + Error :=
  let failure_type :=
    match member failure_type_members (State.rec_failure_type r) with
    | Some t => t
    | None => HALLUCINATION
    end in
  new_Recommendation (State.recommendation_id r) (State.priority r) failure_type
    (State.title r) (State.description r) (State.implementation_hint r).

Fixpoint build_recommendations (l : list State.RecommendationData)
    (recommendations : list Recommendation) : list Recommendation + Error :=
  match l with
  | [] => inl recommendations
  | r :: rest =>
      match recommendation r with
      | inl built => build_recommendations rest (recommendations ++ [built])
      | inr e => inr e
      end
  end.

(** [[FailureType(ft) for ft in failure_types]] *)
Fixpoint build_failure_types (l : list string) : list FailureType + Error :=
  match l with
  | [] => inl []
  | ft :: rest =>
      match member failure_type_members ft with
      | None => inr (ValueError ft)
      | Some t =>
          match build_failure_types rest with
          | inl types => inl (t :: types)
          | inr e => inr e
          end
      end
  end.

Definition _build_response (result : Graph.AnalysisState) : AnalysisResponse + Error :=
  match build_failures (Graph.detected_failures result) [] with
  | inr e => inr e
  | inl failures =>
      let claims := map claim_analysis (Graph.claims result) in
      let claims := fold_left mark_failure failures claims in
      let risk_level :=
        match member risk_level_members (Graph.risk_level result) with
        | Some level => level
        | None => LOW
        end in
      match new_RiskAssessment (Graph.risk_score result) risk_level
              (Graph.domain result) (Graph.domain_multiplier result)
              (Graph.contributing_factors result) with
      | inr e => inr e
      | inl risk_assessment =>
          match build_recommendations (Graph.recommendations result) [] with
          | inr e => inr e
          | inl recommendations =>
              match build_failure_types (Graph.failure_types result) with
              | inr e => inr e
              | inl failure_types =>
                  inl {| failure_detected := Graph.failure_detected result;
                         failure_types := failure_types;
                         failures := failures;
                         claims := claims;
                         risk_assessment := risk_assessment;
                         recommendations := recommendations;
                         response_explanation := Graph.final_explanation result |}
              end
          end
      end
  end.

(** [AnalysisService.analyze], without the persistence: the run on the
    fields of the request, then the response built from its final state. *)
Definition analyze (settings : Config.Settings) (o : Orchestrator.Oracle)
    (request : Requests.AnalysisRequest) : option (AnalysisResponse + Error) :=
  match Orchestrator.run_analysis settings o
          (Requests.question request) (Requests.llm_answer request)
          (Requests.context request) (Requests.value (Requests.domain request)) with
  | Some run => Some (_build_response (Orchestrator.final_state run))
  | None => None
  end.

End Service.

(** ** States used as examples *)

Module Examples.
Import State Graph.

Definition signal (failure_type : string) (detected : bool) (confidence : Q)
    (severity : string) : FailureSignal :=
  {| failure_type := failure_type; detected := detected; confidence := confidence;
     severity := severity; evidence := []; related_claim_ids := [];
     explanation := ""; findings := [] |}.

(** A state as the aggregation node leaves it when [failures] are retained. *)
Definition state_with (domain : string) (failures : list FailureSignal)
    : AnalysisState :=
  Aggregation.merge
    (create_initial_state "What is the dose?" "Take two tablets." None domain)
    {| Aggregation.out_failure_signals := failures;
       Aggregation.out_detected_failures := failures;
       Aggregation.out_failure_detected := (0 <? List.length failures)%nat;
       Aggregation.out_failure_types := map failure_type failures |}.


(** Three critical signals in domain medical: 0.7 + 0.5 + 0.1 = 1.3. *)
Definition medical_overflow : AnalysisState :=
  state_with "medical"
    [ signal "hallucination" true 1 "critical";
      signal "logical_inconsistency" true 1 "critical";
      signal "missing_assumptions" true (25 # 100) "critical" ].

(** 0.714 x 0.35 = 0.2499, just under the first threshold. *)
Definition general_just_under : AnalysisState :=
  state_with "general" [signal "hallucination" true (714 # 1000) "critical"].

(** 1.0 x 0.25 = 0.25, on the first threshold. *)
Definition general_on_threshold : AnalysisState :=
  state_with "general" [signal "logical_inconsistency" true 1 "critical"].

(** A backend whose every reply fails to parse, with detectors that find
    nothing. *)
Definition unparsable_oracle : Orchestrator.Oracle := {|
  Orchestrator.precheck_llm := Llm.LlmParseError;
  Orchestrator.decomposition_llm := Llm.LlmParseError;
  Orchestrator.hallucination_llm := Llm.LlmParseError;
  Orchestrator.logical_detector := signal "logical_inconsistency" false 0 "low";
  Orchestrator.assumptions_detector := signal "missing_assumptions" false 0 "low";
  Orchestrator.overconfidence_detector := signal "overconfidence" false 0 "low";
  Orchestrator.scope_detector := signal "scope_violation" false 0 "low";
  Orchestrator.underspec_detector := signal "underspecification" false 0 "low";
  Orchestrator.explanation_text := "No significant failures were detected.";
  Orchestrator.explanation_error := None;
  Orchestrator.recommendation_llm := Llm.LlmParseError
|}.

(** A short reply that both refuses and reports an error. *)
Definition refusal_with_error : string :=
  "I cannot answer that. Error: failed to load the document.".

End Examples.

(** ** Vocabulary of the statements

    Definitions used to state the properties: the formulas the nodes are
    compared with, and the readings of the claims that the code does not
    follow. *)

Section AggregationTerms.
Import State Graph Aggregation.

(** The signals the filtering loop keeps. *)
Definition retained (threshold : Q) (s : FailureSignal) : bool :=
  detected s && Qle_bool threshold (confidence s).

End AggregationTerms.

Section RiskScoringTerms.
Import State Graph Scoring RiskScoring.

Definition Qsum (l : list Q) : Q := fold_right Qplus 0 l.

(** The formula of one contribution, with the tables read as the node
    reads them. *)
Definition contribution (settings : Config.Settings) (domain : string)
    (f : FailureSignal) : Q :=
  confidence f
  * Py.dict_get (Config.failure_weights settings) (failure_type f) (1 # 10)
  * Py.dict_get severity_multipliers (severity f) (5 # 10)
  * Py.dict_get (Config.domain_multipliers settings) domain 1.


(** What the risk formula needs from the configured values: a threshold,
    weights and multipliers that are not negative. *)
Definition settings_nonneg (settings : Config.Settings) : Prop :=
  0 <= Config.failure_confidence_threshold settings /\
  Forall (fun kv => 0 <= snd kv) (Config.failure_weights settings) /\
  Forall (fun kv => 0 <= snd kv) (Config.domain_multipliers settings).

End RiskScoringTerms.

Section RiskScoring64Terms.
Import Floats RiskScoring64.

(** The product of one contribution, taken from left to right as the node
    takes it, with the tables read as the node reads them. *)
Definition contribution64 (settings : Config64.Settings) (domain : string)
    (f : Failure) : float :=
  (confidence f
   * Py.dict_get (Config64.failure_weights settings) (failure_type f) 0.1
   * Py.dict_get severity_multipliers (severity f) 0.5
   * Py.dict_get (Config64.domain_multipliers settings) domain 1.0)%float.

(** [total_risk] when the loop ends: the contributions added one after the
    other to 0.0, in the order of [detected_failures]. *)
Definition total64 (settings : Config64.Settings) (domain : string)
    (failures : list Failure) : float :=
  fold_left (fun total f => (total + contribution64 settings domain f)%float)
    failures 0.0%float.

(** The entry of [contributing_factors] written for one failure. *)
Definition factor64 (settings : Config64.Settings) (domain : string)
    (f : Failure) : Factor := {|
  factor_failure_type := failure_type f;
  factor_confidence := confidence f;
  factor_severity := severity f;
  factor_type_weight :=
    Py.dict_get (Config64.failure_weights settings) (failure_type f) 0.1%float;
  factor_severity_multiplier :=
    Py.dict_get severity_multipliers (severity f) 0.5%float;
  factor_domain_multiplier :=
    Py.dict_get (Config64.domain_multipliers settings) domain 1.0%float;
  factor_contribution := Float64.round (contribution64 settings domain f) 4
|}.

Definition failure64 (failure_type : string) (confidence : float) (severity : string)
    : Failure :=
  {| failure_type := failure_type; confidence := confidence; severity := severity |}.

End RiskScoring64Terms.

Section RunTerms.
Import State Graph Orchestrator.

(** The two paths of the graph, unrolled. *)
Definition scored (settings : Config.Settings) (o : Oracle) (state : AnalysisState)
    : AnalysisState :=
  let s1 := run_node settings o decomposition state in
  let s2 := run_node settings o parallel_detectors s1 in
  let s3 := run_node settings o aggregation s2 in
  run_node settings o risk_scoring s3.

Definition full_path (settings : Config.Settings) (o : Oracle) (state : AnalysisState)
    : AnalysisState :=
  let s4 := scored settings o state in
  let s5 := run_node settings o explanation s4 in
  let s6 := run_node settings o recommendation s5 in
  run_node settings o finalize s6.

End RunTerms.

Section ClientTerms.
Import Client.
Local Open Scope string_scope.

(** A backend that refuses the first connection and answers from the
    second on. *)
Definition flaky_backend (attempt_number : nat) : post_outcome :=
  match attempt_number with
  | 1%nat => PostRaises {| class := HttpxConnectError; message := "connection refused" |}
  | _ => Response "{}"
  end.

(** The loop the claim describes: the decorator's, with the predicate
    applied to the exception of the HTTP layer. *)
Definition generate_as_claimed (timeout base_url : string)
    (backend : nat -> post_outcome) : Call string :=
  retrying [HttpxTimeoutException; HttpxConnectError]
           (wait_exponential 1 2 10)
           (fun attempt_number =>
              match backend attempt_number with
              | Response text => Return text
              | PostRaises e => Raise e
              end)
           3.

Fixpoint occurs (c : ascii) (s : string) : bool :=
  match s with
  | EmptyString => false
  | String a rest => Ascii.eqb a c || occurs c rest
  end.

Fixpoint all_space (s : string) : bool :=
  match s with
  | EmptyString => true
  | String a rest => Py.is_space a && all_space rest
  end.

(** The reading of step (c) in the claim: the first balanced brace span.
    [balanced depth s] is the shortest prefix of [s] that closes [depth]
    open braces. *)
Fixpoint balanced (depth : nat) (s : string) : option string :=
  match s with
  | EmptyString => None
  | String a rest =>
      if Ascii.eqb a "{" then option_map (String a) (balanced (S depth) rest)
      else if Ascii.eqb a "}" then
        match depth with
        | O => None
        | 1%nat => Some (String a EmptyString)
        | S depth' => option_map (String a) (balanced depth' rest)
        end
      else option_map (String a) (balanced depth rest)
  end.

Definition first_balanced_span (response : string) : option string :=
  match from_first "{" response with
  | Some span => balanced 0 span
  | None => None
  end.

Definition parse_response_as_claimed {JSON : Type}
    (json_loads : string -> loads JSON) (response : string)
    : result (Structured JSON) :=
  match json_loads response with
  | Loaded value => Return (Parsed value)
  | LoadsRaises e => Raise e
  | JSONDecodeError =>
      try_group json_loads (fence_match response)
        (try_group json_loads (first_balanced_span response)
           (Return (ParseError response)))
  end.

(** A step of the cascade gives nothing: no group was found, or the group
    is not valid JSON. *)
Definition undecodable {JSON : Type} (json_loads : string -> loads JSON)
    (group : option string) : Prop :=
  match group with
  | Some text => json_loads text = JSONDecodeError
  | None => True
  end.

(** A parser that accepts the empty object only. *)
Definition loads_empty_object (text : string) : loads unit :=
  if String.eqb text "{}" then Loaded tt else JSONDecodeError.

(** A parser that accepts the empty array only. *)
Definition loads_empty_array (text : string) : loads unit :=
  if String.eqb text "[]" then Loaded tt else JSONDecodeError.

End ClientTerms.

Section DecompositionTerms.
Import State Graph Llm Decomposition.
Local Open Scope string_scope.

(** [ends_after b s]: the last character of [s] is a sentence end, or [s]
    is empty and [b] holds. *)
Fixpoint ends_after (b : bool) (s : string) : bool :=
  match s with
  | EmptyString => b
  | String c rest => ends_after (is_sentence_end c) rest
  end.

(** [joined b pieces text]: [text] is the pieces with a run of blanks, not
    empty, between neighbours, and every piece but the last ends with a
    sentence end ([b] tells whether one was read right before [text]). *)
Inductive joined : bool -> list string -> string -> Prop :=
  | joined_last (b : bool) (piece : string) : joined b [piece] piece
  | joined_cons (b : bool) (piece blanks : string) (pieces : list string) (text : string) :
      ends_after b piece = true ->
      blanks <> "" ->
      all_space blanks = true ->
      joined false pieces text ->
      joined b (piece :: pieces) (piece ++ blanks ++ text).

(** [unbroken after_end piece]: inside [piece] no blank stands right after
    a sentence end ([after_end] tells whether a sentence end was read right
    before the piece). *)
Fixpoint unbroken (after_end : bool) (piece : string) : bool :=
  match piece with
  | EmptyString => true
  | String c rest =>
      negb (after_end && Py.is_space c) && unbroken (is_sentence_end c) rest
  end.

Definition starts_with_space (text : string) : bool :=
  match text with
  | EmptyString => false
  | String c _ => Py.is_space c
  end.

(** [split_at_ends b pieces text]: [pieces] cut [text] at every run of
    blanks that follows a sentence end, and nowhere else. A piece but the
    last ends with a sentence end and is followed by the whole run of
    blanks, which is not empty, and no piece holds a blank right after a
    sentence end. *)
Inductive split_at_ends : bool -> list string -> string -> Prop :=
  | split_last (b : bool) (piece : string) :
      unbroken b piece = true -> split_at_ends b [piece] piece
  | split_cons (b : bool) (piece blanks : string) (pieces : list string) (text : string) :
      unbroken b piece = true ->
      ends_after b piece = true ->
      blanks <> "" ->
      all_space blanks = true ->
      starts_with_space text = false ->
      split_at_ends false pieces text ->
      split_at_ends b (piece :: pieces) (piece ++ blanks ++ text).

(** An answer of three sentences, the last one short. *)
Definition seine_state : AnalysisState :=
  create_initial_state "What is the capital of France?"
    "Paris is the capital of France.  It lies on the Seine! Yes." None "general".

Fixpoint has_sentence_end (s : string) : bool :=
  match s with
  | EmptyString => false
  | String c rest => is_sentence_end c || has_sentence_end rest
  end.

(** What a claim of the fallback looks like. *)
Definition fallback_claim (sentences : list string) (c : ClaimData) : Prop :=
  claim_type c = "factual" /\ implicit_assumptions c = [] /\
  (10 < String.length (claim_text c))%nat /\
  exists sentence, In sentence sentences /\ claim_text c = Py.strip sentence.

End DecompositionTerms.

Section RecommendationTerms.
Import State Graph Llm Recommendation.

(** First occurrences, in order, of the elements not in [seen]. *)
Fixpoint unique_from (seen l : list string) : list string :=
  match l with
  | [] => []
  | t :: rest =>
      if existsb (String.eqb t) seen then unique_from seen rest
      else t :: unique_from (t :: seen) rest
  end.

(** The failure types of the retained failures, most severe first, each
    once. *)
Definition types_in_order (detected_failures : list FailureSignal) : list string :=
  unique_from [] (map failure_type (sorted_failures detected_failures)).

(** The entries of the table used for one type: its first two. *)
Definition block (failure_type : string) : list (string * Entry) :=
  map (pair failure_type) (firstn 2 (Py.dict_get RECOMMENDATIONS_DB failure_type [])).

Definition make (k : nat) (failure_type : string) (e : Entry) : RecommendationData :=
  {| recommendation_id := ("r" ++ Py.str_of_nat k)%string;
     priority := entry_priority e;
     rec_failure_type := failure_type;
     title := entry_title e;
     description := entry_description e;
     implementation_hint := Some (entry_implementation_hint e) |}.

(** Records made from the entries, with ids counted from [k]. *)
Fixpoint numbered (k : nat) (l : list (string * Entry)) : list RecommendationData :=
  match l with
  | [] => []
  | (t, e) :: rest => make k t e :: numbered (S k) rest
  end.

Definition by_priority (a b : RecommendationData) : Prop :=
  (priority a <= priority b)%Z.

(** What the domain step adds. *)
Definition domain_part (llm : outcome Result) (domain : string)
    : list RecommendationData :=
  if negb (String.eqb domain "general") then
    match _generate_domain_recommendations llm with
    | Some domain_recs => domain_recs
    | None => []
    end
  else [].


End RecommendationTerms.

Section PrecheckTerms.
Local Open Scope string_scope.

(** A reply of more than 200 characters that refuses and reports an
    error. *)
Definition long_refusal_with_error : string :=
  "I cannot answer that question because the document could not be read. "
  ++ "Error: failed to load the document from the storage backend after "
  ++ "several attempts, so there is nothing I can summarise for you at this time.".

End PrecheckTerms.

Section WholeRunTerms.
Import State Graph Orchestrator.

(** The state handed to the aggregation node, on the path of a request
    that passed precheck. *)
Definition detected_state (settings : Config.Settings) (o : Oracle)
    (s0 : AnalysisState) : AnalysisState :=
  run_node settings o parallel_detectors (run_node settings o decomposition s0).

End WholeRunTerms.

Section DetectorsTerms.
Import State Graph Detectors.

(** The results of [gather], each with the key its detector writes, in the
    order of the call. *)
Definition gathered_results (h l a o s u : gathered) : list (string * gathered) :=
  [ ("hallucination_signal", h); ("logical_signal", l); ("assumptions_signal", a);
    ("overconfidence_signal", o); ("scope_signal", s); ("underspec_signal", u) ]%string.

(** The entries appended for the exceptions that escaped. *)
Definition escaped (results : list (string * gathered)) : list (string * string) :=
  flat_map
    (fun result =>
       match snd result with
       | Raised e => [("parallel_detectors"%string, e)]
       | Returned _ _ => []
       end)
    results.

(** What a key of the state holds after the node. *)
Definition slot_after (result : gathered) (old : option FailureSignal)
    : option FailureSignal :=
  match result with
  | Raised _ => old
  | Returned signal _ => Some signal
  end.

End DetectorsTerms.

Section ServiceTerms.
Import State Graph.


(** One domain-specific recommendation, as the model may give it. *)
Definition one_domain_recommendation : Llm.outcome Recommendation.Result :=
  Llm.LlmParsed
    {| Recommendation.result_recommendations :=
         Some [ {| Recommendation.raw_recommendation_id := Some "rd1";
                   Recommendation.raw_priority := Some 1%Z;
                   Recommendation.raw_failure_type := None;
                   Recommendation.raw_title := Some "Check the dosage tables";
                   Recommendation.raw_description := None;
                   Recommendation.raw_implementation_hint := None |} ] |}.

(** The multiplier the settings hold for a domain of the API. *)
Definition multiplier_of (settings : Config.Settings) (d : Requests.Domain) : Q :=
  match d with
  | Requests.GENERAL => Config.domain_multiplier_general settings
  | Requests.FINANCE => Config.domain_multiplier_finance settings
  | Requests.MEDICAL => Config.domain_multiplier_medical settings
  | Requests.LEGAL => Config.domain_multiplier_legal settings
  | Requests.CODE => Config.domain_multiplier_code settings
  end.

End ServiceTerms.

Section ResponseTerms.
Import State Graph.

(** The constraints of the response models, read on the final state. *)
Definition confidence_ok (f : FailureSignal) : Prop := 0 <= confidence f <= 1.

Definition priority_ok (r : RecommendationData) : Prop := (1 <= priority r <= 5)%Z.

Definition known_type (t : string) : Prop :=
  In t (map fst Responses.failure_type_members).

(** A claim to which the marking gave the issues [extra]. *)
Definition with_issues (c : Responses.ClaimAnalysis) (extra : list string)
    : Responses.ClaimAnalysis :=
  match extra with
  | [] => c
  | _ => {| Responses.claim_id := Responses.claim_id c;
            Responses.claim_text := Responses.claim_text c;
            Responses.is_verifiable := Responses.is_verifiable c;
            Responses.is_supported := false;
            Responses.claim_confidence := Responses.claim_confidence c;
            Responses.issues := Responses.issues c ++ extra |}
  end.

(** The issues of the claims of id [claim_id]: the type of each failure,
    once for each of its related ids that is [claim_id]. *)
Definition issues_for (failures : list Responses.FailureDetail) (claim_id : string)
    : list string :=
  flat_map
    (fun d =>
       flat_map
         (fun id =>
            if String.eqb claim_id id
            then [Responses.failure_type_value (Responses.failure_type d)]
            else [])
         (Responses.related_claim_ids d))
    failures.

(** A model that flags the second claim with a confidence of 0.9 and one
    that gives a domain recommendation without a failure type. *)
Definition flagging_oracle : Orchestrator.Oracle := {|
  Orchestrator.precheck_llm := Llm.LlmParseError;
  Orchestrator.decomposition_llm := Llm.LlmParseError;
  Orchestrator.hallucination_llm :=
    Llm.LlmParsed
      {| Hallucination.hallucination_detected := Some true;
         Hallucination.result_confidence := Some (9 # 10);
         Hallucination.result_severity := Some "high"%string;
         Hallucination.summary := Some "The stated dose is not supported."%string;
         Hallucination.result_findings :=
           Some [ {| is_hallucinated := Some true;
                     finding_claim_id := Some "c2"%string;
                     reason := Some "No source gives this dose."%string |} ] |};
  Orchestrator.logical_detector := Examples.signal "logical_inconsistency" false 0 "low";
  Orchestrator.assumptions_detector := Examples.signal "missing_assumptions" false 0 "low";
  Orchestrator.overconfidence_detector := Examples.signal "overconfidence" false 0 "low";
  Orchestrator.scope_detector := Examples.signal "scope_violation" false 0 "low";
  Orchestrator.underspec_detector := Examples.signal "underspecification" false 0 "low";
  Orchestrator.explanation_text := "One claim is not supported.";
  Orchestrator.explanation_error := None;
  Orchestrator.recommendation_llm := one_domain_recommendation
|}.

Definition dose_request : Requests.AnalysisRequest := {|
  Requests.question := "What is the dose?";
  Requests.llm_answer := "The drug is given by mouth. Take twenty tablets a day.";
  Requests.context := None;
  Requests.domain := Requests.MEDICAL
|}.

(** The same model, reporting a confidence of 1.5. *)
Definition overconfident_oracle : Orchestrator.Oracle := {|
  Orchestrator.precheck_llm := Llm.LlmParseError;
  Orchestrator.decomposition_llm := Llm.LlmParseError;
  Orchestrator.hallucination_llm :=
    Llm.LlmParsed
      {| Hallucination.hallucination_detected := Some true;
         Hallucination.result_confidence := Some (15 # 10);
         Hallucination.result_severity := Some "high"%string;
         Hallucination.summary := None;
         Hallucination.result_findings := None |};
  Orchestrator.logical_detector := Examples.signal "logical_inconsistency" false 0 "low";
  Orchestrator.assumptions_detector := Examples.signal "missing_assumptions" false 0 "low";
  Orchestrator.overconfidence_detector := Examples.signal "overconfidence" false 0 "low";
  Orchestrator.scope_detector := Examples.signal "scope_violation" false 0 "low";
  Orchestrator.underspec_detector := Examples.signal "underspecification" false 0 "low";
  Orchestrator.explanation_text := "";
  Orchestrator.explanation_error := None;
  Orchestrator.recommendation_llm := Llm.LlmParseError
|}.

(** The final state of the run on [dose_request] with [flagging_oracle]. *)
Definition dose_state : AnalysisState :=
  full_path Config.default_settings flagging_oracle
    (Orchestrator.run_node Config.default_settings flagging_oracle Orchestrator.precheck
       (create_initial_state (Requests.question dose_request)
          (Requests.llm_answer dose_request) (Requests.context dose_request)
          (Requests.value (Requests.domain dose_request)))).

End ResponseTerms.

(** * Properties *)

(** ** Facts about the built-ins *)

Section SortFacts.
Context {A K : Type} (key : A -> K) (leb : K -> K -> bool).

Lemma insert_by_perm (x : A) (l : list A) :
  Permutation (Py.insert_by key leb x l) (x :: l).
Proof.
  induction l as [|y rest IH]; simpl.
  - apply Permutation_refl.
  - destruct (leb (key x) (key y)).
    + apply Permutation_refl.
    + eapply perm_trans; [apply perm_skip, IH | apply perm_swap].
Qed.

Lemma sort_by_perm (l : list A) : Permutation (Py.sort_by key leb l) l.
Proof.
  induction l as [|x rest IH]; simpl.
  - apply perm_nil.
  - eapply perm_trans; [apply insert_by_perm | apply perm_skip, IH].
Qed.

Lemma sort_by_In (l : list A) (x : A) : In x (Py.sort_by key leb l) <-> In x l.
Proof.
  split; apply Permutation_in;
    [apply sort_by_perm | apply Permutation_sym, sort_by_perm].
Qed.

Lemma sort_by_length (l : list A) : List.length (Py.sort_by key leb l) = List.length l.
Proof. apply Permutation_length, sort_by_perm. Qed.

(** With a total order on the keys neighbours of the result are in order. *)
Hypothesis leb_total : forall a b, leb a b = true \/ leb b a = true.

Lemma insert_by_sorted (x : A) (l : list A) :
  Sorted (Py.key_le key leb) l -> Sorted (Py.key_le key leb) (Py.insert_by key leb x l).
Proof.
  induction 1 as [|y rest Hs IH Hhd]; simpl.
  - repeat constructor.
  - destruct (leb (key x) (key y)) eqn:E.
    + constructor; [constructor; assumption | constructor; exact E].
    + constructor; [exact IH|].
      assert (Hyx : leb (key y) (key x) = true)
        by (destruct (leb_total (key x) (key y)); congruence).
      destruct rest as [|z rest']; simpl.
      * constructor; exact Hyx.
      * destruct (leb (key x) (key z)); constructor;
          [exact Hyx | inversion Hhd; assumption].
Qed.

Lemma sort_by_sorted (l : list A) : Sorted (Py.key_le key leb) (Py.sort_by key leb l).
Proof.
  induction l as [|x rest IH]; simpl; [constructor | apply insert_by_sorted, IH].
Qed.
End SortFacts.

(** ** Stability of the sort *)

Section SortStability.
Context {A K : Type} (key : A -> K) (leb : K -> K -> bool).
(** A class of keys whose members may stand before one another. *)
Variable same : K -> bool.
Hypothesis same_leb : forall a b, same a = true -> same b = true -> leb a b = true.

Lemma insert_by_filter_same (x : A) (l : list A) :
  filter (fun a => same (key a)) (Py.insert_by key leb x l)
  = filter (fun a => same (key a)) (x :: l).
Proof.
  induction l as [|y rest IH]; [reflexivity|].
  cbn [Py.insert_by]. destruct (leb (key x) (key y)) eqn:E; [reflexivity|].
  cbn [filter] in *. rewrite IH.
  destruct (same (key x)) eqn:Hx; [|reflexivity].
  destruct (same (key y)) eqn:Hy; [|reflexivity].
  rewrite (same_leb _ _ Hx Hy) in E. discriminate.
Qed.

Lemma sort_by_filter_same (l : list A) :
  filter (fun a => same (key a)) (Py.sort_by key leb l)
  = filter (fun a => same (key a)) l.
Proof.
  induction l as [|x rest IH]; [reflexivity|].
  cbn [Py.sort_by fold_right]. fold (Py.sort_by key leb rest).
  rewrite insert_by_filter_same. cbn [filter]. now rewrite IH.
Qed.
End SortStability.

(** ** Aggregation *)

Section AggregationFacts.
Import State Graph Aggregation.

Lemma collect_signals_acc (slots : list (option FailureSignal)) (acc : list FailureSignal) :
  fold_left
    (fun signals slot =>
       match slot with Some signal => signals ++ [signal] | None => signals end)
    slots acc
  = acc ++ flat_map (fun slot => match slot with Some s => [s] | None => [] end) slots.
Proof.
  revert acc; induction slots as [|slot rest IH]; intros acc; simpl.
  - now rewrite app_nil_r.
  - rewrite IH. destruct slot; simpl; [now rewrite <- app_assoc | reflexivity].
Qed.

Lemma collect_signals_In (slots : list (option FailureSignal)) (s : FailureSignal) :
  In s (collect_signals slots) <-> In (Some s) slots.
Proof.
  unfold collect_signals. rewrite collect_signals_acc. simpl.
  rewrite in_flat_map. split.
  - intros [[s'|] [Hin Hs]]; simpl in Hs; [|contradiction].
    destruct Hs as [->|[]]. exact Hin.
  - intros Hin. exists (Some s). split; [exact Hin | now left].
Qed.

Lemma collect_signals_length (slots : list (option FailureSignal)) :
  (List.length (collect_signals slots) <= List.length slots)%nat.
Proof.
  unfold collect_signals. rewrite collect_signals_acc. simpl.
  induction slots as [|[s|] rest IH]; simpl; lia.
Qed.

Lemma filter_loop_fst (threshold : Q) (signals : list FailureSignal)
    (acc : list FailureSignal * list string) :
  fst (fold_left (filter_step threshold) signals acc)
  = fst acc ++ filter (retained threshold) signals.
Proof.
  revert acc; induction signals as [|s rest IH]; intros [kept types]; simpl.
  - now rewrite app_nil_r.
  - rewrite IH. unfold retained at 2.
    destruct (detected s); simpl; [|reflexivity].
    destruct (Qle_bool threshold (confidence s)); simpl; [|reflexivity].
    now rewrite <- app_assoc.
Qed.

Lemma detected_failures_eq (settings : Config.Settings) (state : AnalysisState) :
  out_detected_failures (aggregation_node settings state)
  = Py.sort_by confidence ge_conf
      (filter (retained (Config.failure_confidence_threshold settings))
              (collect_signals (signal_slots state))).
Proof.
  unfold aggregation_node.
  pose proof (filter_loop_fst (Config.failure_confidence_threshold settings)
                (collect_signals (signal_slots state)) ([], [])) as H.
  destruct (fold_left _ _ _) as [kept types]. simpl in *. now rewrite H.
Qed.

Lemma failure_signals_eq (settings : Config.Settings) (state : AnalysisState) :
  out_failure_signals (aggregation_node settings state)
  = collect_signals (signal_slots state).
Proof.
  unfold aggregation_node. destruct (fold_left _ _ _). reflexivity.
Qed.

Lemma failure_detected_eq (settings : Config.Settings) (state : AnalysisState) :
  out_failure_detected (aggregation_node settings state)
  = (0 <? List.length (out_detected_failures (aggregation_node settings state)))%nat.
Proof.
  unfold aggregation_node. destruct (fold_left _ _ _). reflexivity.
Qed.
End AggregationFacts.

(** C2. A signal is in [detected_failures] exactly when it is held by one
    of the six state keys [hallucination_signal], [logical_signal],
    [assumptions_signal], [overconfidence_signal], [scope_signal] and
    [underspec_signal], its [detected] flag is set and its confidence is at
    least the configured threshold. [failure_signals] holds the signals of
    those six keys, in that order, the keys without a signal left out; the
    retained list is included in it, and it holds at most six signals.
    [failure_detected] is true exactly when the retained list is not empty,
    and the default threshold is 0.5. *)
Theorem aggregation_retains_iff_detected_and_confident
    (settings : Config.Settings) (state : Graph.AnalysisState) :
  let r := Aggregation.aggregation_node settings state in
  let held (s : State.FailureSignal) :=
    Graph.hallucination_signal state = Some s \/
    Graph.logical_signal state = Some s \/
    Graph.assumptions_signal state = Some s \/
    Graph.overconfidence_signal state = Some s \/
    Graph.scope_signal state = Some s \/
    Graph.underspec_signal state = Some s in
  (forall s : State.FailureSignal,
      In s (Aggregation.out_detected_failures r) <->
      held s /\
      State.detected s = true /\
      Config.failure_confidence_threshold settings <= State.confidence s) /\
  Aggregation.out_failure_signals r
  = flat_map (fun slot => match slot with Some s => [s] | None => [] end)
      [ Graph.hallucination_signal state; Graph.logical_signal state;
        Graph.assumptions_signal state; Graph.overconfidence_signal state;
        Graph.scope_signal state; Graph.underspec_signal state ] /\
  (forall s : State.FailureSignal,
      In s (Aggregation.out_failure_signals r) <-> held s) /\
  incl (Aggregation.out_detected_failures r) (Aggregation.out_failure_signals r) /\
  (List.length (Aggregation.out_failure_signals r) <= 6)%nat /\
  (Aggregation.out_failure_detected r = true <->
   Aggregation.out_detected_failures r <> []) /\
  Config.failure_confidence_threshold Config.default_settings == 1 # 2.
Proof.
  intros r held. subst r.
  assert (Hheld : forall s, In (Some s) (Aggregation.signal_slots state) <-> held s).
  { intros s. unfold held, Aggregation.signal_slots. cbn [In].
    split; intros H; repeat (destruct H as [H|H]; [tauto|]); tauto. }
  assert (Hall : forall s,
    In s (Aggregation.out_failure_signals (Aggregation.aggregation_node settings state))
    <-> held s).
  { intros s. rewrite failure_signals_eq, collect_signals_In. apply Hheld. }
  assert (Hiff : forall s,
    In s (Aggregation.out_detected_failures (Aggregation.aggregation_node settings state)) <->
    held s /\
    State.detected s = true /\
    Config.failure_confidence_threshold settings <= State.confidence s).
  { intros s. rewrite <- Hall.
    rewrite detected_failures_eq, failure_signals_eq, sort_by_In, filter_In.
    unfold retained. rewrite andb_true_iff, Qle_bool_iff. tauto. }
  split; [exact Hiff|].
  split.
  { rewrite failure_signals_eq. unfold Aggregation.collect_signals.
    now rewrite collect_signals_acc. }
  split; [exact Hall|].
  split; [intros s Hs; apply Hall; apply Hiff in Hs; tauto|].
  split.
  { rewrite failure_signals_eq.
    etransitivity; [apply collect_signals_length | simpl; lia]. }
  split; [|reflexivity].
  rewrite failure_detected_eq, Nat.ltb_lt.
  destruct (Aggregation.out_detected_failures _); simpl;
    split; intros H; [lia | congruence | discriminate | lia].
Qed.

(** ** Rounding *)

Section RoundFacts.

Lemma round_half_even_bounds (q : Q) :
  (Qfloor q <= Py.round_half_even q <= Qfloor q + 1)%Z.
Proof.
  unfold Py.round_half_even.
  destruct (Qcompare _ _); [destruct (Z.even _)| |]; lia.
Qed.

Lemma round_half_even_comp (x y : Q) :
  x == y -> Py.round_half_even x = Py.round_half_even y.
Proof.
  intros E. unfold Py.round_half_even.
  assert (F : Qfloor x = Qfloor y) by (now rewrite E).
  rewrite F.
  assert (C : Qcompare (x - inject_Z (Qfloor y)) (1 # 2)
            = Qcompare (y - inject_Z (Qfloor y)) (1 # 2)) by (now rewrite E).
  now rewrite C.
Qed.

Lemma round_half_even_mono (x y : Q) :
  x <= y -> (Py.round_half_even x <= Py.round_half_even y)%Z.
Proof.
  intros Hxy.
  pose proof (Qfloor_resp_le _ _ Hxy) as Hf.
  pose proof (round_half_even_bounds x) as Bx.
  pose proof (round_half_even_bounds y) as By.
  destruct (Z.eq_dec (Qfloor x) (Qfloor y)) as [E|NE]; [|lia].
  unfold Py.round_half_even. rewrite E.
  assert (Hr : x - inject_Z (Qfloor y) <= y - inject_Z (Qfloor y)).
  { apply Qplus_le_l with (z := inject_Z (Qfloor y)). ring_simplify. exact Hxy. }
  destruct (Qcompare (x - inject_Z (Qfloor y)) (1 # 2)) eqn:Cx;
    destruct (Qcompare (y - inject_Z (Qfloor y)) (1 # 2)) eqn:Cy;
    try (destruct (Z.even (Qfloor y))); try lia; exfalso;
    repeat match goal with
           | H : Qcompare _ _ = Eq |- _ => apply Qeq_alt in H
           | H : Qcompare _ _ = Lt |- _ => apply Qlt_alt in H
           | H : Qcompare _ _ = Gt |- _ => apply Qgt_alt in H
           end; lra.
Qed.

Lemma pow10_pos (n : nat) : 0 < Py.pow10 n.
Proof.
  unfold Py.pow10. change 0 with (inject_Z 0). rewrite <- Zlt_Qlt.
  apply Z.pow_pos_nonneg; lia.
Qed.

Lemma round_comp (x y : Q) (n : nat) : x == y -> Py.round x n = Py.round y n.
Proof.
  intros E. unfold Py.round.
  rewrite (round_half_even_comp (x * Py.pow10 n) (y * Py.pow10 n)); [reflexivity|].
  now rewrite E.
Qed.

Lemma round_mono (x y : Q) (n : nat) : x <= y -> Py.round x n <= Py.round y n.
Proof.
  intros Hxy. unfold Py.round, Qdiv.
  apply Qmult_le_compat_r.
  - rewrite <- Zle_Qle. apply round_half_even_mono.
    apply Qmult_le_compat_r; [exact Hxy | apply Qlt_le_weak, pow10_pos].
  - apply Qlt_le_weak, Qinv_lt_0_compat, pow10_pos.
Qed.

(** A strictly larger rounded value comes from a strictly larger value. *)
Lemma round_lt_inv (x y : Q) (n : nat) : Py.round x n < Py.round y n -> x < y.
Proof.
  intros H. apply Qnot_le_lt. intros Hyx.
  exact (Qlt_not_le _ _ H (round_mono _ _ n Hyx)).
Qed.

Lemma min_le_r (a b : Q) : Py.min a b <= b.
Proof.
  unfold Py.min. destruct (Qlt_le_dec b a); [apply Qle_refl | assumption].
Qed.

Lemma min_le_l (a b : Q) : Py.min a b <= a.
Proof.
  unfold Py.min. destruct (Qlt_le_dec b a); [now apply Qlt_le_weak | apply Qle_refl].
Qed.

Lemma min_glb (a b c : Q) : c <= a -> c <= b -> c <= Py.min a b.
Proof. intros. unfold Py.min. destruct (Qlt_le_dec b a); assumption. Qed.

Lemma min_mono_l (a a' b : Q) : a <= a' -> Py.min a b <= Py.min a' b.
Proof.
  intros H. apply min_glb.
  - eapply Qle_trans; [apply min_le_l | exact H].
  - apply min_le_r.
Qed.

Lemma min_capped (a b : Q) : b <= a -> Py.min a b == b.
Proof.
  intros H. apply Qle_antisym; [apply min_le_r | apply min_glb; [exact H | apply Qle_refl]].
Qed.
End RoundFacts.

(** ** Risk scoring *)

Section RiskScoringFacts.
Import State Graph Scoring RiskScoring.

Lemma score_loop_total (settings : Config.Settings) (domain : string)
    (failures : list FailureSignal) (acc : Q * list Factor) :
  fst (fold_left
         (score_step (Config.failure_weights settings)
            (Py.dict_get (Config.domain_multipliers settings) domain 1))
         failures acc)
  == fst acc + Qsum (map (contribution settings domain) failures).
Proof.
  revert acc; induction failures as [|f rest IH]; intros [total factors].
  - simpl. ring.
  - cbn [fold_left map Qsum fold_right]. rewrite IH.
    unfold score_step at 1. cbn [fst].
    fold (contribution settings domain f). unfold Qsum. ring.
Qed.

Lemma total_risk_sum (settings : Config.Settings) (state : AnalysisState) :
  total_risk settings state
  == Qsum (map (contribution settings (domain state)) (detected_failures state)).
Proof.
  unfold total_risk. rewrite score_loop_total. simpl. ring.
Qed.

Lemma risk_score_eq (settings : Config.Settings) (state : AnalysisState) :
  out_risk_score (risk_scoring_node settings state)
  = Py.round (Py.min (total_risk settings state) 1) 3.
Proof.
  unfold risk_scoring_node, total_risk. destruct (fold_left _ _ _). reflexivity.
Qed.

Lemma risk_level_eq (settings : Config.Settings) (state : AnalysisState) :
  out_risk_level (risk_scoring_node settings state)
  = level_of (Py.min (total_risk settings state) 1).
Proof.
  unfold risk_scoring_node, total_risk. destruct (fold_left _ _ _). reflexivity.
Qed.

Lemma min_comp (a a' b : Q) : a == a' -> Py.min a b == Py.min a' b.
Proof.
  intros E. apply Qle_antisym; apply min_mono_l; rewrite E; apply Qle_refl.
Qed.


Lemma Qsum_nonneg (l : list Q) : Forall (fun q => 0 <= q) l -> 0 <= Qsum l.
Proof.
  induction 1 as [|q rest Hq _ IH]; simpl; [apply Qle_refl|].
  change 0 with (0 + 0). now apply Qplus_le_compat.
Qed.
End RiskScoringFacts.

(** ** Risk scoring on doubles *)

Section Float64Facts.
Import Floats.



(** Doubles of different representations are different. *)
Lemma float_neq (x y : float) : Prim2SF x <> Prim2SF y -> x <> y.
Proof. intros H E. apply H. now rewrite E. Qed.
End Float64Facts.

Section RiskScoring64Facts.
Import Floats RiskScoring64.

Lemma score_loop64 (settings : Config64.Settings) (domain : string)
    (failures : list Failure) (acc : float * list Factor) :
  fold_left
    (score_step (Config64.failure_weights settings)
       (Py.dict_get (Config64.domain_multipliers settings) domain 1.0%float))
    failures acc
  = (fold_left (fun total f => (total + contribution64 settings domain f)%float)
       failures (fst acc),
     snd acc ++ map (factor64 settings domain) failures).
Proof.
  revert acc; induction failures as [|f rest IH]; intros [total factors].
  - cbn. now rewrite app_nil_r.
  - cbn [fold_left map]. rewrite IH. cbn [score_step fst snd].
    rewrite <- app_assoc. reflexivity.
Qed.

Lemma risk_scoring_node64_eq (settings : Config64.Settings)
    (failures : list Failure) (domain : string) :
  risk_scoring_node settings failures domain
  = {| out_risk_score :=
         Float64.round (Float64.min (total64 settings domain failures) 1.0%float) 3;
       out_risk_level :=
         level_of (Float64.min (total64 settings domain failures) 1.0%float);
       out_domain_multiplier :=
         Py.dict_get (Config64.domain_multipliers settings) domain 1.0%float;
       out_contributing_factors := map (factor64 settings domain) failures |}.
Proof.
  unfold risk_scoring_node. rewrite score_loop64. reflexivity.
Qed.

End RiskScoring64Facts.

(** C1 (amended). Each retained failure contributes
    confidence x type weight x severity multiplier x domain multiplier, with
    severity multipliers low 0.25, medium 0.5, high 0.75, critical 1.0. The
    products are products of doubles taken from left to right, and the
    contributions are added as doubles to 0.0 in the order of
    [detected_failures]; that sum is capped at 1.0 (no renormalization) and
    the returned risk score is the capped sum rounded to 3 decimals. A sum
    above 1.0 gives 1.0: three critical failures that sum to 1.3 do. One
    hallucination of confidence 0.85 and severity high in domain medical
    contributes 0.44625 and gives 0.446. In domain general, a hallucination
    of confidence 0.9 and a logical inconsistency of confidence 0.7, both
    of severity high, give 0.367: the double of their sum lies below
    0.3675. *)
Theorem risk_score_is_capped_sum_rounded
    (settings : Config64.Settings) (detected_failures : list RiskScoring64.Failure)
    (domain : string) :
  let r := RiskScoring64.risk_scoring_node settings detected_failures domain in
  let total :=
    fold_left
      (fun total f =>
         (total
          + RiskScoring64.confidence f
            * Py.dict_get (Config64.failure_weights settings)
                (RiskScoring64.failure_type f) 0.1
            * Py.dict_get RiskScoring64.severity_multipliers
                (RiskScoring64.severity f) 0.5
            * Py.dict_get (Config64.domain_multipliers settings) domain 1.0)%float)
      detected_failures 0.0%float in
  RiskScoring64.out_risk_score r = Float64.round (Float64.min total 1.0%float) 3 /\
  ((1.0 <? total)%float = true -> RiskScoring64.out_risk_score r = 1.0%float) /\
  ((1.0 <? total)%float = false ->
   RiskScoring64.out_risk_score r = Float64.round total 3) /\
  map (fun severity =>
         Py.dict_get RiskScoring64.severity_multipliers severity 0.5%float)
      ["low"; "medium"; "high"; "critical"]%string
  = [0.25; 0.5; 0.75; 1.0]%float /\
  contribution64 Config64.default_settings "medical"
    (failure64 "hallucination" 0.85 "high") = 0.44625%float /\
  RiskScoring64.out_risk_score
    (RiskScoring64.risk_scoring_node Config64.default_settings
       [failure64 "hallucination" 0.85 "high"] "medical") = 0.446%float /\
  total64 Config64.default_settings "medical"
    [ failure64 "hallucination" 1.0 "critical";
      failure64 "logical_inconsistency" 1.0 "critical";
      failure64 "missing_assumptions" 0.25 "critical" ] = 1.3%float /\
  RiskScoring64.out_risk_score
    (RiskScoring64.risk_scoring_node Config64.default_settings
       [ failure64 "hallucination" 1.0 "critical";
         failure64 "logical_inconsistency" 1.0 "critical";
         failure64 "missing_assumptions" 0.25 "critical" ] "medical") = 1.0%float /\
  RiskScoring64.out_risk_score
    (RiskScoring64.risk_scoring_node Config64.default_settings
       [ failure64 "hallucination" 0.9 "high";
         failure64 "logical_inconsistency" 0.7 "high" ] "general") = 0.367%float.
Proof.
  intros r total. subst r.
  change total with (total64 settings domain detected_failures). clear total.
  rewrite risk_scoring_node64_eq. cbn [RiskScoring64.out_risk_score].
  split; [reflexivity|].
  split.
  { intros H. unfold Float64.min. rewrite H. vm_compute. reflexivity. }
  split.
  { intros H. unfold Float64.min. rewrite H. reflexivity. }
  repeat split; vm_compute; reflexivity.
Qed.

(** Three critical failures in domain medical: their sum is above 1.0 and
    the score is 1.0. *)
Lemma risk_score_overflow_witness :
  (1.0 <? total64 Config64.default_settings "medical"
            [ failure64 "hallucination" 1.0 "critical";
              failure64 "logical_inconsistency" 1.0 "critical";
              failure64 "missing_assumptions" 0.25 "critical" ])%float = true /\
  RiskScoring64.out_risk_score
    (RiskScoring64.risk_scoring_node Config64.default_settings
       [ failure64 "hallucination" 1.0 "critical";
         failure64 "logical_inconsistency" 1.0 "critical";
         failure64 "missing_assumptions" 0.25 "critical" ] "medical") = 1.0%float.
Proof.
  split; [vm_compute; reflexivity|].
  apply (proj1 (proj2
           (risk_score_is_capped_sum_rounded Config64.default_settings
              [ failure64 "hallucination" 1.0 "critical";
                failure64 "logical_inconsistency" 1.0 "critical";
                failure64 "missing_assumptions" 0.25 "critical" ] "medical"))).
  vm_compute. reflexivity.
Defined.

(** C1, as stated, fails: for the hallucination of confidence 0.85 in
    domain medical the returned risk score is 0.446, while the capped sum of
    the contributions is 0.44625. *)
Lemma returned_risk_score_differs_from_capped_sum :
  RiskScoring64.out_risk_score
    (RiskScoring64.risk_scoring_node Config64.default_settings
       [failure64 "hallucination" 0.85 "high"] "medical") = 0.446%float /\
  Float64.min
    (total64 Config64.default_settings "medical"
       [failure64 "hallucination" 0.85 "high"]) 1.0%float = 0.44625%float /\
  RiskScoring64.out_risk_score
    (RiskScoring64.risk_scoring_node Config64.default_settings
       [failure64 "hallucination" 0.85 "high"] "medical")
  <> Float64.min
       (total64 Config64.default_settings "medical"
          [failure64 "hallucination" 0.85 "high"]) 1.0%float.
Proof.
  split; [vm_compute; reflexivity|]. split; [vm_compute; reflexivity|].
  apply float_neq. vm_compute. discriminate.
Qed.




(** ** The range of the risk score over a whole run *)

Section RunFacts.
Import State Graph Orchestrator.

Lemma dict_get_nonneg (d : list (string * Q)) (key : string) (default : Q) :
  Forall (fun kv => 0 <= snd kv) d -> 0 <= default -> 0 <= Py.dict_get d key default.
Proof.
  intros Hd Hdef. induction Hd as [|[k v] rest Hv _ IH]; simpl; [exact Hdef|].
  destruct (String.eqb k key); [exact Hv | exact IH].
Qed.

Lemma contribution_nonneg (settings : Config.Settings) (domain : string)
    (f : FailureSignal) :
  settings_nonneg settings -> 0 <= confidence f -> 0 <= contribution settings domain f.
Proof.
  intros (_ & Hw & Hm) Hc. unfold contribution.
  repeat apply Qmult_le_0_compat; try exact Hc.
  - apply dict_get_nonneg; [exact Hw | discriminate].
  - apply dict_get_nonneg; [|discriminate].
    unfold RiskScoring.severity_multipliers.
    repeat constructor; simpl; discriminate.
  - apply dict_get_nonneg; [exact Hm | discriminate].
Qed.

Lemma risk_score_in_unit_interval (settings : Config.Settings) (state : AnalysisState) :
  settings_nonneg settings ->
  Forall (fun f => 0 <= confidence f) (detected_failures state) ->
  0 <= RiskScoring.out_risk_score (RiskScoring.risk_scoring_node settings state) <= 1.
Proof.
  intros Hs Hc. rewrite risk_score_eq.
  assert (H0 : 0 <= RiskScoring.total_risk settings state).
  { rewrite total_risk_sum. apply Qsum_nonneg.
    apply Forall_map. eapply Forall_impl; [|exact Hc].
    intros f Hf. now apply contribution_nonneg. }
  split.
  - apply Qle_trans with (Py.round 0 3); [vm_compute; discriminate|].
    apply round_mono, min_glb; [exact H0 | discriminate].
  - apply Qle_trans with (Py.round 1 3); [|vm_compute; discriminate].
    apply round_mono, min_le_r.
Qed.

Lemma aggregation_confidences_nonneg (settings : Config.Settings) (state : AnalysisState) :
  0 <= Config.failure_confidence_threshold settings ->
  Forall (fun f => 0 <= confidence f)
    (Aggregation.out_detected_failures (Aggregation.aggregation_node settings state)).
Proof.
  intros Ht. apply Forall_forall. intros f Hf.
  rewrite detected_failures_eq, sort_by_In, filter_In in Hf.
  destruct Hf as [_ Hf]. unfold retained in Hf.
  apply andb_true_iff in Hf. destruct Hf as [_ Hf]. apply Qle_bool_iff in Hf.
  eapply Qle_trans; eassumption.
Qed.

Lemma run_analysis_paths (settings : Config.Settings) (o : Oracle)
    (question answer : string) (context : option string) (domain : string) :
  let s0 := run_node settings o precheck
              (create_initial_state question answer context domain) in
  run_analysis settings o question answer context domain
  = if precheck_passed s0
    then Some {| final_state := full_path settings o s0;
                 trace := [precheck; decomposition; parallel_detectors; aggregation;
                           risk_scoring; explanation; recommendation; finalize] |}
    else Some {| final_state := early_exit_node s0;
                 trace := [precheck; early_exit] |}.
Proof.
  intros s0. unfold run_analysis, graph_size.
  cbn [invoke successor app]. fold s0.
  unfold should_continue_after_precheck.
  destruct (precheck_passed s0); cbn [successor app]; reflexivity.
Qed.
End RunFacts.

(** ** The confidence a detector stores *)

Section StoredConfidence.
Import State Graph Orchestrator.

(** On the path of a request that passed precheck, the signal built from
    the parsed output of the hallucination detector is the one the final
    state holds. *)
Lemma hallucination_signal_stored (settings : Config.Settings) (o : Oracle)
    (s0 : AnalysisState) (h : Hallucination.Result) :
  hallucination_llm o = Llm.LlmParsed h ->
  exists s,
    hallucination_signal (full_path settings o s0) = Some s /\
    In s (failure_signals (full_path settings o s0)) /\
    failure_type s = "hallucination"%string /\
    detected s = Llm.get (Hallucination.hallucination_detected h) false /\
    confidence s = Llm.get (Hallucination.result_confidence h) 0 /\
    (detected s = true ->
     Config.failure_confidence_threshold settings <= confidence s ->
     In s (detected_failures (full_path settings o s0))).
Proof.
  intros Hl.
  assert (Hslot : hallucination_signal (detected_state settings o s0)
                  = Some (Hallucination.out_hallucination_signal
                            (Hallucination.hallucination_detector (Llm.LlmParsed h)
                               (run_node settings o decomposition s0)))).
  { cbn [detected_state run_node parallel_detectors_node hallucination_signal].
    rewrite Hl. reflexivity. }
  assert (Hall : In (Hallucination.out_hallucination_signal
                       (Hallucination.hallucination_detector (Llm.LlmParsed h)
                          (run_node settings o decomposition s0)))
                    (Aggregation.collect_signals
                       (Aggregation.signal_slots (detected_state settings o s0)))).
  { apply collect_signals_In. unfold Aggregation.signal_slots.
    rewrite Hslot. now left. }
  eexists. split; [exact Hslot|].
  split.
  { change (failure_signals (full_path settings o s0))
      with (Aggregation.out_failure_signals
              (Aggregation.aggregation_node settings (detected_state settings o s0))).
    rewrite failure_signals_eq. exact Hall. }
  split; [reflexivity|]. split; [reflexivity|]. split; [reflexivity|].
  intros Hd Hc.
  change (detected_failures (full_path settings o s0))
    with (Aggregation.out_detected_failures
            (Aggregation.aggregation_node settings (detected_state settings o s0))).
  rewrite detected_failures_eq. apply sort_by_In, filter_In.
  split; [exact Hall|].
  unfold retained. rewrite Hd. cbn [andb]. now apply Qle_bool_iff.
Qed.
End StoredConfidence.

(** C3 (the code departs from the claim). No node normalises a confidence:
    in a run that passes precheck, the confidence that the parsed output of
    the hallucination detector reports is stored as it is in
    [hallucination_signal] and in [failure_signals] of the final state,
    and, when the output reports a detection and the confidence is at
    least the threshold, in [detected_failures] too. A reported confidence
    above 1, or below 0, is therefore a stored confidence outside
    [0, 1]. *)
Theorem reported_confidence_is_stored_unclamped
    (settings : Config.Settings) (o : Orchestrator.Oracle)
    (question answer : string) (context : option string) (domain : string)
    (h : Hallucination.Result) (run : Orchestrator.Run) :
  Orchestrator.run_analysis settings o question answer context domain = Some run ->
  Graph.precheck_passed (Orchestrator.final_state run) = true ->
  Orchestrator.hallucination_llm o = Llm.LlmParsed h ->
  exists s : State.FailureSignal,
    Graph.hallucination_signal (Orchestrator.final_state run) = Some s /\
    In s (Graph.failure_signals (Orchestrator.final_state run)) /\
    State.failure_type s = "hallucination"%string /\
    State.confidence s = Llm.get (Hallucination.result_confidence h) 0 /\
    (Llm.get (Hallucination.hallucination_detected h) false = true ->
     Config.failure_confidence_threshold settings
     <= Llm.get (Hallucination.result_confidence h) 0 ->
     In s (Graph.detected_failures (Orchestrator.final_state run))) /\
    (1 < Llm.get (Hallucination.result_confidence h) 0 \/
     Llm.get (Hallucination.result_confidence h) 0 < 0 ->
     ~ (0 <= State.confidence s <= 1)).
Proof.
  intros Hrun Hpass Hl.
  pose proof (run_analysis_paths settings o question answer context domain) as Hp.
  cbv zeta in Hp. rewrite Hp in Hrun. clear Hp.
  destruct (Graph.precheck_passed
              (Orchestrator.run_node settings o Orchestrator.precheck
                 (Graph.create_initial_state question answer context domain))) eqn:E0;
    injection Hrun as <-; cbn [Orchestrator.final_state] in *.
  - destruct (hallucination_signal_stored settings o
                (Orchestrator.run_node settings o Orchestrator.precheck
                   (Graph.create_initial_state question answer context domain))
                h Hl) as (s & Hslot & Hall & Hty & Hd & Hc & Hkept).
    exists s. split; [exact Hslot|]. split; [exact Hall|].
    split; [exact Hty|]. split; [exact Hc|]. split.
    + intros Hdet Hthr. apply Hkept; [now rewrite Hd | now rewrite Hc].
    + rewrite Hc. intros [H|H] [H0 H1].
      * exact (Qlt_not_le _ _ H H1).
      * exact (Qlt_not_le _ _ H H0).
  - change (Graph.precheck_passed
              (Orchestrator.run_node settings o Orchestrator.precheck
                 (Graph.create_initial_state question answer context domain)) = true)
      in Hpass.
    rewrite E0 in Hpass. discriminate Hpass.
Qed.

(** The dose request with a model that reports a detection of confidence
    1.5: the final state retains a hallucination signal of confidence 1.5,
    which is not in [0, 1]. *)
Lemma reported_confidence_witness :
  exists (run : Orchestrator.Run) (s : State.FailureSignal),
    Orchestrator.run_analysis Config.default_settings overconfident_oracle
      "What is the dose?" "The drug is given by mouth. Take twenty tablets a day."
      None "medical" = Some run /\
    In s (Graph.detected_failures (Orchestrator.final_state run)) /\
    State.failure_type s = "hallucination"%string /\
    State.confidence s = 15 # 10 /\
    ~ (0 <= State.confidence s <= 1).
Proof.
  destruct (Orchestrator.run_analysis Config.default_settings overconfident_oracle
              "What is the dose?" "The drug is given by mouth. Take twenty tablets a day."
              None "medical") as [run|] eqn:Hrun; [|vm_compute in Hrun; discriminate Hrun].
  assert (Hpass : Graph.precheck_passed (Orchestrator.final_state run) = true).
  { vm_compute in Hrun. injection Hrun as <-. reflexivity. }
  destruct (reported_confidence_is_stored_unclamped
              Config.default_settings overconfident_oracle
              "What is the dose?" "The drug is given by mouth. Take twenty tablets a day."
              None "medical"
              {| Hallucination.hallucination_detected := Some true;
                 Hallucination.result_confidence := Some (15 # 10);
                 Hallucination.result_severity := Some "high"%string;
                 Hallucination.summary := None;
                 Hallucination.result_findings := None |}
              run Hrun Hpass eq_refl)
    as (s & _ & _ & Hty & Hc & Hkept & Hout).
  exists run, s. split; [reflexivity|].
  split; [apply Hkept; [reflexivity | vm_compute; discriminate]|].
  split; [exact Hty|]. split; [exact Hc|].
  apply Hout. left. vm_compute. reflexivity.
Defined.

(** ** Retrying in the client *)

Section ClientFacts.
Import Client.

(** Whatever the HTTP layer raises, the body of [generate] raises one of
    the client's own classes. *)
Lemma generate_body_raises_ollama (timeout base_url : string) (o : post_outcome) (e : exn) :
  generate_body timeout base_url o = Raise e ->
  class e = OllamaTimeoutError \/ class e = OllamaConnectionError \/ class e = OllamaError.
Proof.
  unfold generate_body. destruct o as [text|e0]; [discriminate|].
  destruct (isinstance e0 [HttpxTimeoutException]);
    [|destruct (isinstance e0 [HttpxConnectError])];
    intros H; injection H as <-; simpl; auto.
Qed.

(** None of them is an instance of the two classes the decorator retries. *)
Lemma ollama_classes_not_retried (e : exn) :
  class e = OllamaTimeoutError \/ class e = OllamaConnectionError \/ class e = OllamaError ->
  isinstance e [HttpxTimeoutException; HttpxConnectError] = false.
Proof.
  unfold isinstance. intros [H|[H|H]]; rewrite H; reflexivity.
Qed.
End ClientFacts.

(** C5 (the code departs from the claim). [generate] calls the backend
    exactly once and never sleeps, whatever the backend does: the body turns
    a timeout or a connection error into the client's own exception before
    the decorator sees it, and the decorator retries none of those. With a
    backend that refuses the first connection and would answer the second
    call, [generate] raises [OllamaConnectionError] after one attempt,
    where the retry loop of the claim returns the answer on the second. *)
Theorem generate_never_retries
    (timeout base_url : string) (backend : nat -> Client.post_outcome) :
  Client.attempts (Client.generate timeout base_url backend) = 1%nat /\
  Client.sleeps (Client.generate timeout base_url backend) = [] /\
  Client.outcome (Client.generate timeout base_url backend)
  = Client.generate_body timeout base_url (backend 1%nat) /\
  Client.outcome (Client.generate timeout base_url flaky_backend)
  = Client.Raise {| Client.class := Client.OllamaConnectionError;
                    Client.message := ("Cannot connect to Ollama at " ++ base_url)%string |} /\
  Client.outcome (generate_as_claimed timeout base_url flaky_backend)
  = Client.Return "{}"%string /\
  Client.attempts (generate_as_claimed timeout base_url flaky_backend) = 2%nat /\
  Client.sleeps (generate_as_claimed timeout base_url flaky_backend) = [2%Z].
Proof.
  assert (H : Client.generate timeout base_url backend
              = {| Client.outcome := Client.generate_body timeout base_url (backend 1%nat);
                   Client.attempts := 1; Client.sleeps := [] |}).
  { unfold Client.generate, Client.retrying. cbn [Nat.sub Client.retry_loop].
    destruct (Client.generate_body timeout base_url (backend 1%nat)) as [v|e] eqn:E;
      [reflexivity|].
    rewrite (ollama_classes_not_retried e (generate_body_raises_ollama _ _ _ _ E)).
    reflexivity. }
  rewrite H. cbn [Client.attempts Client.sleeps Client.outcome].
  repeat split; reflexivity.
Qed.

(** ** The layered parse of [generate_structured] *)

Section ParseFacts.
Import Client.
Local Open Scope string_scope.

Lemma append_assoc (a b c : string) : (a ++ b) ++ c = a ++ (b ++ c).
Proof. induction a as [|x a IH]; simpl; [reflexivity | now rewrite IH]. Qed.

Lemma prefix_skip (p s : string) :
  prefix p s = true -> s = p ++ skip (String.length p) s.
Proof.
  revert s; induction p as [|a p IH]; intros s H.
  - destruct s; reflexivity.
  - destruct s as [|b s]; simpl in H; [discriminate|].
    destruct (ascii_dec a b) as [->|]; [|discriminate].
    simpl. f_equal. apply IH, H.
Qed.

Lemma after_first_sound (pattern s t : string) :
  after_first pattern s = Some t -> exists pre, s = pre ++ pattern ++ t.
Proof.
  induction s as [|a s IH]; cbn [after_first].
  - destruct (prefix pattern "") eqn:E; [|discriminate].
    intros H; injection H as <-. exists "". apply (prefix_skip _ _ E).
  - destruct (prefix pattern (String a s)) eqn:E.
    + intros H; injection H as <-. exists "". apply (prefix_skip _ _ E).
    + intros H. destruct (IH H) as [pre ->]. now exists (String a pre).
Qed.

Lemma lstrip_sound (s : string) :
  exists blanks, s = blanks ++ Py.lstrip s /\ all_space blanks = true.
Proof.
  induction s as [|a s (blanks & E & Hb)]; simpl.
  - now exists "".
  - destruct (Py.is_space a) eqn:Ha.
    + exists (String a blanks). simpl. rewrite Ha, Hb. now rewrite <- E.
    + now exists "".
Qed.

Lemma until_fence_sound (s g : string) :
  until_fence s = Some g ->
  exists rest, s = g ++ rest /\
               (prefix fence rest || prefix (String newline fence) rest) = true.
Proof.
  revert g; induction s as [|a s IH]; intros g; cbn [until_fence].
  - destruct (prefix fence "" || prefix (String newline fence) "") eqn:E;
      [|discriminate].
    intros H; injection H as <-. now exists "".
  - destruct (prefix fence (String a s) || prefix (String newline fence) (String a s))
      eqn:E.
    + intros H; injection H as <-. now exists (String a s).
    + destruct (until_fence s) as [g'|]; [|discriminate].
      intros H; injection H as <-.
      destruct (IH g' eq_refl) as (rest & -> & Hr). now exists rest.
Qed.

(** What the fenced group is: the text between an opening fence, with its
    optional tag and the blanks after it, and a closing fence that may be
    preceded by one newline. *)
Lemma fence_match_sound (response g : string) :
  fence_match response = Some g ->
  exists pre tag blanks rest,
    response = pre ++ fence ++ tag ++ blanks ++ g ++ rest /\
    (tag = "json" \/ tag = "") /\
    all_space blanks = true /\
    (prefix fence rest || prefix (String newline fence) rest) = true.
Proof.
  unfold fence_match.
  destruct (after_first fence response) as [t|] eqn:Ea; [|discriminate].
  destruct (after_first_sound _ _ _ Ea) as [pre ->].
  intros H.
  destruct (until_fence_sound _ _ H) as (rest & Eg & Hr).
  destruct (prefix "json" t) eqn:Ej.
  - destruct (lstrip_sound (skip 4 t)) as (blanks & Eb & Hb).
    exists pre, "json", blanks, rest. repeat split; auto.
    rewrite <- Eg, <- Eb. f_equal. f_equal. apply (prefix_skip _ _ Ej).
  - destruct (lstrip_sound t) as (blanks & Eb & Hb).
    exists pre, "", blanks, rest. repeat split; auto.
    rewrite <- Eg, <- Eb. reflexivity.
Qed.

Lemma from_first_spec (c : ascii) (s t : string) :
  from_first c s = Some t <->
  exists pre rest, s = pre ++ String c rest /\ t = String c rest /\ occurs c pre = false.
Proof.
  split.
  - revert t; induction s as [|a s IH]; intros t; simpl; [discriminate|].
    destruct (Ascii.eqb a c) eqn:E.
    + apply Ascii.eqb_eq in E; subst a. intros H; injection H as <-.
      now exists "", s.
    + intros H. destruct (IH t H) as (pre & rest & -> & -> & Hp).
      exists (String a pre), rest. simpl. now rewrite E, Hp.
  - intros (pre & rest & -> & -> & Hp).
    induction pre as [|a pre IH]; simpl in *.
    + now rewrite Ascii.eqb_refl.
    + apply orb_false_iff in Hp. destruct Hp as [-> Hp]. now apply IH.
Qed.

Lemma upto_last_none (c : ascii) (s : string) :
  upto_last c s = None <-> occurs c s = false.
Proof.
  induction s as [|a s IH]; simpl; [tauto|].
  destruct (upto_last c s); destruct (Ascii.eqb a c); simpl; split;
    try discriminate; try tauto; intros H.
  - apply IH in H. discriminate.
Qed.

Lemma upto_last_spec (c : ascii) (s p : string) :
  upto_last c s = Some p <->
  exists body post,
    s = body ++ String c post /\ p = body ++ String c "" /\ occurs c post = false.
Proof.
  split.
  - revert p; induction s as [|a s IH]; intros p; simpl; [discriminate|].
    destruct (upto_last c s) as [p'|] eqn:E.
    + intros H; injection H as <-.
      destruct (IH p' eq_refl) as (body & post & -> & -> & Hp).
      now exists (String a body), post.
    + destruct (Ascii.eqb a c) eqn:Ea; [|discriminate].
      apply Ascii.eqb_eq in Ea; subst a. intros H; injection H as <-.
      exists "", s. repeat split. now apply upto_last_none.
  - intros (body & post & -> & -> & Hp).
    induction body as [|a body IH]; simpl.
    + apply upto_last_none in Hp. now rewrite Hp, Ascii.eqb_refl.
    + now rewrite IH.
Qed.

(** The brace group runs from the first opening brace of the text to its
    last closing brace. *)
Lemma json_obj_match_spec (response g : string) :
  json_obj_match response = Some g <->
  exists pre body post,
    response = pre ++ "{" ++ body ++ "}" ++ post /\
    g = "{" ++ body ++ "}" /\
    occurs "{" pre = false /\ occurs "}" post = false.
Proof.
  unfold json_obj_match. split.
  - destruct (from_first "{" response) as [[|open t]|] eqn:E; try discriminate.
    apply from_first_spec in E.
    destruct E as (pre & rest & -> & Et & Hpre). injection Et as -> ->.
    destruct (upto_last "}" rest) as [p|] eqn:Eu; [|discriminate].
    apply upto_last_spec in Eu. destruct Eu as (body & post & -> & -> & Hpost).
    intros H; injection H as <-. now exists pre, body, post.
  - intros (pre & body & post & -> & -> & Hpre & Hpost).
    assert (E : from_first "{" (pre ++ "{" ++ body ++ "}" ++ post)
                = Some (String "{" (body ++ "}" ++ post)))
      by (apply from_first_spec; now exists pre, (body ++ "}" ++ post)).
    rewrite E.
    assert (Eu : upto_last "}" (body ++ "}" ++ post) = Some (body ++ "}"))
      by (apply upto_last_spec; now exists body, post).
    now rewrite Eu.
Qed.
Lemma length_append (a b : string) :
  String.length (a ++ b) = (String.length a + String.length b)%nat.
Proof. induction a as [|c a IH]; cbn; [reflexivity | now rewrite IH]. Qed.

Lemma prefix_append (p a b : string) : prefix p a = true -> prefix p (a ++ b) = true.
Proof.
  revert a; induction p as [|x p IH]; intros a H;
    [destruct a; [destruct b|]; reflexivity|].
  destruct a as [|y a]; cbn in *; [discriminate|].
  destruct (ascii_dec x y); [now apply IH | discriminate].
Qed.

Lemma until_fence_nearest (s g : string) :
  until_fence s = Some g -> Py.contains fence g = false.
Proof.
  revert g; induction s as [|a s IH]; intros g; cbn [until_fence].
  - destruct (_ || _); [|discriminate]. intros H; injection H as <-. reflexivity.
  - destruct (prefix fence (String a s) || prefix (String newline fence) (String a s))
      eqn:E.
    + intros H; injection H as <-. reflexivity.
    + destruct (until_fence s) as [g'|] eqn:Eg; [|discriminate].
      intros H; injection H as <-.
      apply orb_false_iff in E. destruct E as [E _].
      cbn [Py.contains]. rewrite (IH g' eq_refl).
      destruct (prefix fence (String a g')) eqn:Ep; [|reflexivity].
      destruct (until_fence_sound _ _ Eg) as (rest & -> & _).
      change (String a (g' ++ rest)) with (String a g' ++ rest) in E.
      now rewrite (prefix_append _ _ rest Ep) in E.
Qed.

(** The occurrence [after_first] stops at is the first one. *)
Lemma after_first_first (s t : string) :
  after_first fence s = Some t ->
  exists pre, s = pre ++ fence ++ t /\ Py.contains fence pre = false.
Proof.
  induction s as [|a s IH]; cbn [after_first].
  - discriminate.
  - destruct (prefix fence (String a s)) eqn:E.
    + intros H; injection H as <-. exists "". split; [|reflexivity].
      apply (prefix_skip _ _ E).
    + intros H. destruct (IH H) as (pre & -> & Hpre).
      exists (String a pre). split; [reflexivity|].
      cbn [Py.contains]. rewrite Hpre.
      destruct (prefix fence (String a pre)) eqn:Ep; [|reflexivity].
      change (String a (pre ++ fence ++ t)) with (String a pre ++ fence ++ t) in E.
      now rewrite (prefix_append _ _ _ Ep) in E.
Qed.

Lemma skip_append (n : nat) (a b : string) :
  (n <= String.length a)%nat -> skip n (a ++ b) = skip n a ++ b.
Proof.
  revert a; induction n as [|n IH]; intros a H; [reflexivity|].
  destruct a as [|x a]; cbn in *; [lia|]. apply IH. lia.
Qed.

(** The text after the first fence still holds every fence written after
    a fence of the text. *)
Lemma after_first_keeps (pre tail : string) :
  exists u, after_first fence (pre ++ fence ++ tail) = Some (u ++ tail).
Proof.
  induction pre as [|a pre (u & IH)].
  - exists "". unfold fence. cbn [append]. destruct tail; cbn; reflexivity.
  - change (String a pre ++ fence ++ tail) with (String a (pre ++ fence ++ tail)).
    cbn [after_first].
    destruct (prefix fence (String a (pre ++ fence ++ tail))) eqn:E.
    + exists (skip 3 (String a pre ++ fence)).
      change (String a (pre ++ fence ++ tail)) with (String a pre ++ fence ++ tail).
      rewrite <- append_assoc. change (String.length fence) with 3%nat.
      rewrite skip_append; [reflexivity|].
      cbn. rewrite length_append. cbn. lia.
    + exists u. exact IH.
Qed.

Lemma json_tag_keeps (w post : string) :
  exists w',
    (if prefix "json" (w ++ fence ++ post) then skip 4 (w ++ fence ++ post)
     else w ++ fence ++ post) = w' ++ fence ++ post.
Proof.
  destruct (prefix "json" (w ++ fence ++ post)) eqn:E; [|now exists w].
  destruct w as [|a [|b [|c [|d w]]]];
    try (exfalso; unfold fence in E; cbn [append prefix] in E;
         repeat match type of E with
                | context [ascii_dec ?x ?y] => destruct (ascii_dec x y); try congruence
                end; congruence).
  exists w. reflexivity.
Qed.

Lemma lstrip_keeps (w post : string) :
  exists w', Py.lstrip (w ++ fence ++ post) = w' ++ fence ++ post.
Proof.
  induction w as [|a w (w' & IH)]; [now exists ""|].
  cbn [append Py.lstrip]. destruct (Py.is_space a); [now exists w'|].
  now exists (String a w).
Qed.

Lemma until_fence_found (w post : string) :
  exists g, until_fence (w ++ fence ++ post) = Some g.
Proof.
  induction w as [|a w (g & IH)];
    [exists ""; unfold fence; cbn [append]; destruct post; cbn; reflexivity|].
  cbn [append until_fence]. destruct (_ || _); [now exists ""|].
  rewrite IH. now exists (String a g).
Qed.

(** A text with two fences, one after the other, has a fenced group. *)
Lemma fence_match_found (pre mid post : string) :
  exists g, fence_match (pre ++ fence ++ mid ++ fence ++ post) = Some g.
Proof.
  unfold fence_match.
  destruct (after_first_keeps pre (mid ++ fence ++ post)) as (u & ->).
  rewrite <- (append_assoc u mid (fence ++ post)).
  destruct (json_tag_keeps (u ++ mid) post) as (w & ->).
  destruct (lstrip_keeps w post) as (w' & ->).
  apply until_fence_found.
Qed.

(** What the fenced group is: the text between the first fence, with its
    optional tag and the blanks after it, and the nearest closing fence,
    which may be preceded by one newline. *)
Lemma fence_match_first (response g : string) :
  fence_match response = Some g ->
  exists pre tag blanks rest,
    response = pre ++ fence ++ tag ++ blanks ++ g ++ rest /\
    Py.contains fence pre = false /\
    (tag = "json" \/ tag = "") /\
    all_space blanks = true /\
    (prefix fence rest || prefix (String newline fence) rest) = true /\
    Py.contains fence g = false.
Proof.
  unfold fence_match.
  destruct (after_first fence response) as [t|] eqn:Ea; [|discriminate].
  destruct (after_first_first _ _ Ea) as (pre & -> & Hpre).
  intros H.
  pose proof (until_fence_nearest _ _ H) as Hg.
  destruct (until_fence_sound _ _ H) as (rest & Eg & Hr).
  destruct (prefix "json" t) eqn:Ej.
  - destruct (lstrip_sound (skip 4 t)) as (blanks & Eb & Hb).
    exists pre, "json", blanks, rest. repeat split; auto.
    rewrite <- Eg, <- Eb. f_equal. f_equal. apply (prefix_skip _ _ Ej).
  - destruct (lstrip_sound t) as (blanks & Eb & Hb).
    exists pre, "", blanks, rest. repeat split; auto.
    rewrite <- Eg, <- Eb. reflexivity.
Qed.
End ParseFacts.

(** C6 (amended). [generate_structured] parses the generated text in
    layers: (a) the whole text; (b) when that is not valid JSON, the
    contents of the first fenced code block, which is found whenever the
    text holds two fences one after the other: the text after the first
    fence, its optional [json] tag and the blanks after it left out, up to
    the nearest closing fence; (c) when that gives nothing, the span from
    the first opening brace of the text to its last closing brace; (d)
    when every layer gives nothing, the last-resort result, flagged as a
    parse error, with the raw text under its sentinel key. It raises
    exactly when one of the calls of [json.loads] it reaches raises an
    exception other than [JSONDecodeError], and then that exception. *)
Theorem parse_response_is_layered
    (JSON : Type) (json_loads : string -> Client.loads JSON) (response : string) :
  let parse := Client.parse_response json_loads response in
  (forall v, json_loads response = Client.Loaded v ->
             parse = Client.Return (Client.Parsed v)) /\
  (forall g v, json_loads response = Client.JSONDecodeError ->
               Client.fence_match response = Some g ->
               json_loads g = Client.Loaded v ->
               parse = Client.Return (Client.Parsed v)) /\
  (forall g v, json_loads response = Client.JSONDecodeError ->
               undecodable json_loads (Client.fence_match response) ->
               Client.json_obj_match response = Some g ->
               json_loads g = Client.Loaded v ->
               parse = Client.Return (Client.Parsed v)) /\
  (json_loads response = Client.JSONDecodeError ->
   undecodable json_loads (Client.fence_match response) ->
   undecodable json_loads (Client.json_obj_match response) ->
   parse = Client.Return (Client.ParseError response)) /\
  (forall e, parse = Client.Raise e <->
     json_loads response = Client.LoadsRaises e \/
     (json_loads response = Client.JSONDecodeError /\
      exists g, Client.fence_match response = Some g /\
                json_loads g = Client.LoadsRaises e) \/
     (json_loads response = Client.JSONDecodeError /\
      undecodable json_loads (Client.fence_match response) /\
      exists g, Client.json_obj_match response = Some g /\
                json_loads g = Client.LoadsRaises e)) /\
  (forall g, Client.fence_match response = Some g ->
     exists pre tag blanks rest,
       response = (pre ++ Client.fence ++ tag ++ blanks ++ g ++ rest)%string /\
       Py.contains Client.fence pre = false /\
       (tag = "json" \/ tag = "")%string /\
       all_space blanks = true /\
       (prefix Client.fence rest
        || prefix (String Client.newline Client.fence) rest) = true /\
       Py.contains Client.fence g = false) /\
  (forall pre mid post,
     response = (pre ++ "```" ++ mid ++ "```" ++ post)%string ->
     exists g, Client.fence_match response = Some g) /\
  (forall g, Client.json_obj_match response = Some g <->
     exists pre body post,
       response = (pre ++ "{" ++ body ++ "}" ++ post)%string /\
       g = ("{" ++ body ++ "}")%string /\
       occurs "{" pre = false /\ occurs "}" post = false) /\
  (forall (timeout base_url : string) (backend : nat -> Client.post_outcome),
      Client.outcome (Client.generate timeout base_url backend) = Client.Return response ->
      Client.generate_structured json_loads timeout base_url backend = parse).
Proof.
  intros parse. subst parse.
  split; [intros v H; unfold Client.parse_response; now rewrite H|].
  split.
  { intros g v Hw Hf Hg. unfold Client.parse_response, Client.try_group.
    now rewrite Hw, Hf, Hg. }
  split.
  { intros g v Hw Hf Ho Hg. unfold Client.parse_response, Client.try_group.
    rewrite Hw, Ho, Hg. unfold undecodable in Hf.
    destruct (Client.fence_match response); [now rewrite Hf | reflexivity]. }
  split.
  { intros Hw Hf Ho. unfold Client.parse_response, Client.try_group.
    rewrite Hw. unfold undecodable in Hf, Ho.
    destruct (Client.fence_match response); [rewrite Hf|];
      (destruct (Client.json_obj_match response); [now rewrite Ho | reflexivity]). }
  split.
  { intros e. unfold Client.parse_response, Client.try_group, undecodable.
    destruct (json_loads response) as [v| |e0] eqn:Hw.
    - split; [discriminate|].
      intros [H|[[H _]|[H _]]]; discriminate.
    - destruct (Client.fence_match response) as [g|] eqn:Hf.
      + destruct (json_loads g) as [v| |e1] eqn:Hg.
        * split; [discriminate|].
          intros [H|[(_ & g' & [= <-] & H)|(_ & H & _)]]; congruence.
        * destruct (Client.json_obj_match response) as [b|] eqn:Ho.
          -- destruct (json_loads b) as [v| |e2] eqn:Hb.
             ++ split; [discriminate|].
                intros [H|[(_ & g' & [= <-] & H)|(_ & _ & b' & [= <-] & H)]]; congruence.
             ++ split; [discriminate|].
                intros [H|[(_ & g' & [= <-] & H)|(_ & _ & b' & [= <-] & H)]]; congruence.
             ++ split.
                ** intros [= <-]. right; right. split; [reflexivity|].
                   split; [reflexivity|]. now exists b.
                ** intros [H|[(_ & g' & [= <-] & H)|(_ & _ & b' & [= <-] & H)]];
                     congruence.
          -- split; [discriminate|].
             intros [H|[(_ & g' & [= <-] & H)|(_ & _ & b' & H & _)]]; congruence.
        * split.
          -- intros [= <-]. right; left. split; [reflexivity|]. now exists g.
          -- intros [H|[(_ & g' & [= <-] & H)|(_ & H & _)]]; congruence.
      + destruct (Client.json_obj_match response) as [b|] eqn:Ho.
        * destruct (json_loads b) as [v| |e2] eqn:Hb.
          -- split; [discriminate|].
             intros [H|[(_ & g' & H & _)|(_ & _ & b' & [= <-] & H)]]; congruence.
          -- split; [discriminate|].
             intros [H|[(_ & g' & H & _)|(_ & _ & b' & [= <-] & H)]]; congruence.
          -- split.
             ++ intros [= <-]. right; right. split; [reflexivity|].
                split; [exact I|]. now exists b.
             ++ intros [H|[(_ & g' & H & _)|(_ & _ & b' & [= <-] & H)]]; congruence.
        * split; [discriminate|].
          intros [H|[(_ & g' & H & _)|(_ & _ & b' & H & _)]]; congruence.
    - split; [intros [= <-]; now left|].
      intros [H|[[H _]|[H _]]]; congruence. }
  split; [intros g; apply fence_match_first|].
  split; [intros pre mid post ->; apply fence_match_found|].
  split; [intros g; apply json_obj_match_spec|].
  intros timeout base_url backend H. unfold Client.generate_structured. now rewrite H.
Qed.

(** A reply that wraps the empty array in prose and in a fence: the whole
    text does not parse, it holds no brace, and the fenced group parses. *)
Lemma parse_response_fenced_witness :
  Client.fence_match ("Here it is:" ++ String Client.newline "```json [] ``` and ```{}```")
  = Some "[] "%string /\
  Client.fence_match "Here it is: ```json[]``` as asked." = Some "[]"%string /\
  Client.parse_response loads_empty_array "Here it is: ```json[]``` as asked."
  = Client.Return (Client.Parsed tt).
Proof.
  split; [reflexivity|]. split; [reflexivity|].
  refine (proj1 (proj2 (parse_response_is_layered unit loads_empty_array
                          "Here it is: ```json[]``` as asked."))
                "[]"%string tt _ _ _); reflexivity.
Defined.

(** C6, as stated, fails at step (c): in a text with two objects the code
    hands the parser the span from the first opening brace to the last
    closing brace, not the first balanced span. For every parser that
    rejects the former and accepts the latter, as [json.loads] does, the
    code returns the parse-error result where the claim's cascade returns
    the parsed object. *)
Lemma brace_span_is_not_the_first_balanced_span :
  Client.json_obj_match "{} {}" = Some "{} {}"%string /\
  first_balanced_span "{} {}" = Some "{}"%string /\
  Client.fence_match "{} {}" = None /\
  (forall (JSON : Type) (json_loads : string -> Client.loads JSON) (v : JSON),
      json_loads "{} {}"%string = Client.JSONDecodeError ->
      json_loads "{}"%string = Client.Loaded v ->
      Client.parse_response json_loads "{} {}"
      = Client.Return (Client.ParseError "{} {}") /\
      parse_response_as_claimed json_loads "{} {}"
      = Client.Return (Client.Parsed v)).
Proof.
  split; [reflexivity|]. split; [reflexivity|]. split; [reflexivity|].
  intros JSON json_loads v Hwhole Hobject. split.
  - unfold Client.parse_response. rewrite Hwhole. cbn. now rewrite Hwhole.
  - unfold parse_response_as_claimed. rewrite Hwhole. cbn. now rewrite Hobject.
Qed.

(** ** The sentence-split fallback *)

Section DecompositionFacts.
Import State Graph Llm Decomposition.
Local Open Scope string_scope.

Lemma push_joined (b : bool) (c : ascii) (pieces : list string) (text : string) :
  joined (is_sentence_end c) pieces text -> joined b (push c pieces) (String c text).
Proof.
  intros H. inversion H as [b' piece | b' piece blanks rest t He Hn Hs Hj]; subst; simpl.
  - constructor.
  - change (String c (piece ++ blanks ++ t)) with (String c piece ++ blanks ++ t).
    constructor; assumption.
Qed.

Lemma split_from_joined (text : string) :
  (forall b, joined b (split_from (InPiece b) text) text) /\
  (exists blanks rest,
      text = blanks ++ rest /\ all_space blanks = true /\
      joined false (split_from InSeparator text) rest).
Proof.
  induction text as [|c text [IHpiece (blanks & rest & E & Hs & Hj)]].
  - split; [intros b; constructor|].
    exists "", "". repeat split. constructor.
  - split.
    + intros b. cbn [split_from].
      destruct (b && Py.is_space c) eqn:Hb.
      * apply andb_true_iff in Hb. destruct Hb as [-> Hc].
        rewrite E at 2.
        change (String c (blanks ++ rest)) with ("" ++ String c blanks ++ rest).
        constructor; [reflexivity | discriminate | simpl; now rewrite Hc, Hs | exact Hj].
      * apply push_joined, IHpiece.
    + cbn [split_from]. destruct (Py.is_space c) eqn:Hc.
      * exists (String c blanks), rest. simpl. rewrite Hc, Hs, <- E. now repeat split.
      * exists "", (String c text). repeat split. apply push_joined, IHpiece.
Qed.

Lemma split_sentences_joined (text : string) :
  joined false (split_sentences text) text.
Proof. apply (proj1 (split_from_joined text)). Qed.

Lemma push_split (b : bool) (c : ascii) (pieces : list string) (text : string) :
  b && Py.is_space c = false ->
  split_at_ends (is_sentence_end c) pieces text ->
  split_at_ends b (push c pieces) (String c text).
Proof.
  intros Hb H.
  inversion H as [b' piece Hu | b' piece blanks rest t Hu He Hn Hs Ht Hj]; subst; simpl.
  - constructor. cbn [unbroken]. now rewrite Hb, Hu.
  - change (String c (piece ++ blanks ++ t)) with (String c piece ++ blanks ++ t).
    constructor; try assumption. cbn [unbroken]. now rewrite Hb, Hu.
Qed.

Lemma split_from_split (text : string) :
  (forall b, split_at_ends b (split_from (InPiece b) text) text) /\
  (exists blanks rest,
      text = blanks ++ rest /\ all_space blanks = true /\
      starts_with_space rest = false /\
      split_at_ends false (split_from InSeparator text) rest).
Proof.
  induction text as [|c text [IHpiece (blanks & rest & E & Hs & Hr & Hj)]].
  - split; [intros b; now constructor|].
    exists "", "". repeat split. now constructor.
  - split.
    + intros b. cbn [split_from].
      destruct (b && Py.is_space c) eqn:Hb.
      * apply andb_true_iff in Hb. destruct Hb as [-> Hc].
        rewrite E at 2.
        change (String c (blanks ++ rest)) with ("" ++ String c blanks ++ rest).
        constructor;
          [reflexivity | reflexivity | discriminate | simpl; now rewrite Hc, Hs
          | exact Hr | exact Hj].
      * apply push_split; [exact Hb | apply IHpiece].
    + cbn [split_from]. destruct (Py.is_space c) eqn:Hc.
      * exists (String c blanks), rest. simpl. rewrite Hc, Hs, <- E. now repeat split.
      * exists "", (String c text). repeat split; [exact Hc|].
        apply push_split; [reflexivity | apply IHpiece].
Qed.

Lemma split_unbroken (piece : string) (b : bool) :
  unbroken b piece = true -> split_from (InPiece b) piece = [piece].
Proof.
  revert b; induction piece as [|c piece IH]; intros b H; [reflexivity|].
  cbn [unbroken] in H. apply andb_true_iff in H. destruct H as [Hb Hu].
  apply negb_true_iff in Hb. cbn [split_from]. rewrite Hb, (IH _ Hu). reflexivity.
Qed.

Lemma split_skip (blanks text : string) :
  all_space blanks = true ->
  split_from InSeparator (blanks ++ text) = split_from InSeparator text.
Proof.
  induction blanks as [|c blanks IH]; intros H; [reflexivity|].
  cbn [all_space] in H. apply andb_true_iff in H. destruct H as [Hc Hs].
  cbn [append split_from]. rewrite Hc. now apply IH.
Qed.

Lemma split_separator_start (text : string) :
  starts_with_space text = false ->
  split_from InSeparator text = split_from (InPiece false) text.
Proof.
  destruct text as [|c text]; [reflexivity|]. cbn [starts_with_space split_from andb].
  now intros ->.
Qed.

Lemma split_piece (piece blanks text : string) (b : bool) :
  unbroken b piece = true ->
  ends_after b piece = true ->
  blanks <> "" ->
  all_space blanks = true ->
  starts_with_space text = false ->
  split_from (InPiece b) (piece ++ blanks ++ text)
  = piece :: split_from (InPiece false) text.
Proof.
  revert b; induction piece as [|c piece IH]; intros b Hu He Hn Hs Ht.
  - cbn [ends_after] in He. subst b.
    destruct blanks as [|a blanks]; [congruence|].
    cbn [all_space] in Hs. apply andb_true_iff in Hs. destruct Hs as [Ha Hs].
    cbn [append split_from]. rewrite Ha. cbn [andb].
    rewrite (split_skip _ _ Hs), (split_separator_start _ Ht). reflexivity.
  - cbn [unbroken] in Hu. apply andb_true_iff in Hu. destruct Hu as [Hb Hu].
    apply negb_true_iff in Hb. cbn [ends_after] in He.
    cbn [append split_from]. rewrite Hb, (IH _ Hu He Hn Hs Ht). reflexivity.
Qed.

(** The relation has one solution, the list [re.split] returns. *)
Lemma split_at_ends_iff (b : bool) (pieces : list string) (text : string) :
  split_at_ends b pieces text <-> pieces = split_from (InPiece b) text.
Proof.
  split.
  - induction 1 as [b piece Hu | b piece blanks pieces text Hu He Hn Hs Ht Hj IH].
    + symmetry. now apply split_unbroken.
    + rewrite split_piece by assumption. now rewrite IH.
  - intros ->. apply (proj1 (split_from_split text)).
Qed.

Lemma claims_from_fallback (i : nat) (sentences : list string) :
  Forall (fallback_claim sentences) (claims_from i sentences).
Proof.
  revert i; induction sentences as [|s rest IH]; intros i; simpl; [constructor|].
  assert (Hrest : Forall (fallback_claim (s :: rest)) (claims_from (S i) rest)).
  { eapply Forall_impl; [|apply IH].
    intros c (Ht & Ha & Hl & s' & Hin & Hs'). repeat split; auto.
    exists s'. split; [now right | exact Hs']. }
  destruct (10 <? String.length (Py.strip s))%nat eqn:E; [|exact Hrest].
  constructor; [|exact Hrest].
  repeat split; simpl; [now apply Nat.ltb_lt|].
  exists s. split; [now left | reflexivity].
Qed.

Lemma claims_from_nonempty (i : nat) (sentences : list string) :
  claims_from i sentences <> [] <->
  exists sentence, In sentence sentences /\ (10 < String.length (Py.strip sentence))%nat.
Proof.
  revert i; induction sentences as [|s rest IH]; intros i; simpl.
  - split; [congruence | intros (s & [] & _)].
  - destruct (10 <? String.length (Py.strip s))%nat eqn:E.
    + split; [|discriminate]. intros _. exists s. split; [now left|].
      now apply Nat.ltb_lt.
    + rewrite IH. apply Nat.ltb_ge in E.
      split; intros (s' & Hin & Hl).
      * exists s'. split; [now right | exact Hl].
      * destruct Hin as [<-|Hin]; [lia|]. now exists s'.
Qed.

Lemma firstn_nonempty {A : Type} (n : nat) (l : list A) :
  firstn (S n) l <> [] <-> l <> [].
Proof. destruct l; simpl; split; congruence. Qed.

Lemma Forall_firstn' {A : Type} (P : A -> Prop) (n : nat) (l : list A) :
  Forall P l -> Forall P (firstn n l).
Proof.
  intros H. rewrite <- (firstn_skipn n l) in H. now apply Forall_app in H.
Qed.
End DecompositionFacts.

(** C7 (amended). When the model call fails or its output cannot be
    parsed, the decomposer falls back to the sentence split of the
    stripped answer: the answer is cut at every run of blanks that follows
    '.', '!' or '?', the run is dropped, and it is cut nowhere else. The
    claims are at most 20, each of type "factual" with no assumptions, made
    of the stripped sentences longer than 10 characters, with no overall
    assumptions and no reasoning steps. The fallback returns at least one
    claim exactly when some sentence of the split is longer than 10
    characters once stripped. *)
Theorem fallback_claims_are_bounded_and_factual
    (llm : Llm.outcome Decomposition.Result) (state : Graph.AnalysisState) :
  llm = Llm.LlmParseError \/ (exists e, llm = Llm.LlmRaised e) ->
  let u := Decomposition.decomposition_node llm state in
  let sentences := Decomposition.split_sentences (Py.strip (Graph.answer state)) in
  Decomposition.out_claims u
  = Decomposition._fallback_claim_extraction (Graph.answer state) /\
  Decomposition.out_assumptions u = [] /\
  Decomposition.out_reasoning_steps u = [] /\
  (List.length (Decomposition.out_claims u) <= 20)%nat /\
  Forall (fallback_claim sentences) (Decomposition.out_claims u) /\
  (forall pieces : list string,
      split_at_ends false pieces (Py.strip (Graph.answer state)) <->
      pieces = sentences) /\
  ((1 <= List.length (Decomposition.out_claims u))%nat <->
   exists sentence,
     In sentence sentences /\ (10 < String.length (Py.strip sentence))%nat).
Proof.
  intros Hllm u sentences.
  assert (Hu : Decomposition.out_claims u
               = Decomposition._fallback_claim_extraction (Graph.answer state) /\
               Decomposition.out_assumptions u = [] /\
               Decomposition.out_reasoning_steps u = []).
  { subst u. destruct Hllm as [->|[e ->]]; repeat split. }
  destruct Hu as (Hc & Ha & Hr).
  split; [exact Hc|]. split; [exact Ha|]. split; [exact Hr|].
  rewrite Hc. unfold Decomposition._fallback_claim_extraction. fold sentences.
  split; [apply firstn_le_length|].
  split; [apply Forall_firstn', claims_from_fallback|].
  split; [intros pieces; apply split_at_ends_iff|].
  rewrite <- claims_from_nonempty with (i := 0%nat).
  rewrite <- (firstn_nonempty 19).
  destruct (firstn 20 _); simpl; split; intros H; [lia | congruence | discriminate | lia].
Qed.

(** An answer of three sentences under a parse failure: the split has
    three pieces, the last one is too short to be kept, and the fallback
    yields the two claims c1 and c2. *)
Lemma fallback_claims_witness :
  (1 <= List.length
          (Decomposition.out_claims
             (Decomposition.decomposition_node Llm.LlmParseError seine_state)))%nat /\
  split_at_ends false
    ["Paris is the capital of France."; "It lies on the Seine!"; "Yes."]%string
    (Py.strip (Graph.answer seine_state)) /\
  Decomposition.out_claims
    (Decomposition.decomposition_node Llm.LlmParseError seine_state)
  = [ {| State.claim_id := "c1"; State.claim_text := "Paris is the capital of France.";
         State.claim_type := "factual"; State.implicit_assumptions := [] |};
      {| State.claim_id := "c2"; State.claim_text := "It lies on the Seine!";
         State.claim_type := "factual"; State.implicit_assumptions := [] |} ].
Proof.
  pose proof (fallback_claims_are_bounded_and_factual Llm.LlmParseError seine_state
                (or_introl eq_refl)) as H.
  cbv zeta in H. destruct H as (_ & _ & _ & _ & _ & Hsplit & Hone).
  split.
  { apply Hone. exists "Paris is the capital of France."%string.
    split; [vm_compute; now left | vm_compute; lia]. }
  split; [apply Hsplit; vm_compute; reflexivity|].
  vm_compute. reflexivity.
Defined.

(** C7, as stated, fails in its last part: the answer "Yes." holds a
    sentence-ending mark and the fallback returns no claim, because
    fragments of 10 characters or fewer are skipped. *)
Lemma short_answer_with_punctuation_yields_no_claim :
  ~ (forall state : Graph.AnalysisState,
        has_sentence_end (Graph.answer state) = true ->
        (1 <= List.length
                (Decomposition.out_claims
                   (Decomposition.decomposition_node Llm.LlmParseError state)))%nat).
Proof.
  intros H.
  specialize (H (Graph.create_initial_state "Is Paris in France?" "Yes." None "general")
                eq_refl).
  vm_compute in H. lia.
Qed.

(** ** Precheck and the early exit *)

Section PrecheckFacts.
Import Graph Precheck.

Lemma precheck_empty_answer (llm : Llm.outcome Result) (state : AnalysisState) :
  Py.is_empty (Py.strip (question state)) = false ->
  Py.is_empty (Py.strip (answer state)) = true ->
  precheck_node llm state
  = {| out_precheck_passed := false;
       out_precheck_failure_reason := Some "Answer is empty"%string;
       out_answer_type := "empty";
       out_errors := None |}.
Proof. intros Hq Ha. unfold precheck_node. now rewrite Hq, Ha. Qed.

Lemma precheck_short_refusal (llm : Llm.outcome Result) (state : AnalysisState) :
  Py.is_empty (Py.strip (question state)) = false ->
  Py.any_in refusal_patterns (Py.lower (Py.strip (answer state))) = true ->
  (String.length (Py.strip (answer state)) < 200)%nat ->
  precheck_node llm state
  = {| out_precheck_passed := true;
       out_precheck_failure_reason := None;
       out_answer_type := "refusal";
       out_errors := None |}.
Proof.
  intros Hq Hr Hl. unfold precheck_node. rewrite Hq.
  destruct (Py.is_empty (Py.strip (answer state))) eqn:Ha.
  - destruct (Py.strip (answer state)); [discriminate Hr | discriminate Ha].
  - apply Nat.ltb_lt in Hl. now rewrite Hr, Hl.
Qed.
End PrecheckFacts.

(** C8 (amended). When the question is not empty and the answer is empty
    (both after stripping blanks), precheck rejects the request with reason
    "Answer is empty" and the run takes the early exit: it ends after the
    nodes precheck and early_exit, with failure_detected false, risk score
    0.0, category "low", no recommendation, and the explanation
    "Analysis skipped: Answer is empty". *)
Theorem empty_answer_takes_early_exit
    (settings : Config.Settings) (o : Orchestrator.Oracle)
    (question answer : string) (context : option string) (domain : string) :
  Py.is_empty (Py.strip question) = false ->
  Py.is_empty (Py.strip answer) = true ->
  exists run : Orchestrator.Run,
    Orchestrator.run_analysis settings o question answer context domain = Some run /\
    Orchestrator.trace run = [Orchestrator.precheck; Orchestrator.early_exit] /\
    Graph.precheck_passed (Orchestrator.final_state run) = false /\
    Graph.precheck_failure_reason (Orchestrator.final_state run)
    = Some "Answer is empty"%string /\
    Graph.failure_detected (Orchestrator.final_state run) = false /\
    Graph.detected_failures (Orchestrator.final_state run) = [] /\
    Graph.risk_score (Orchestrator.final_state run) = 0 /\
    Graph.risk_level (Orchestrator.final_state run) = "low"%string /\
    Graph.recommendations (Orchestrator.final_state run) = [] /\
    Graph.final_explanation (Orchestrator.final_state run)
    = "Analysis skipped: Answer is empty"%string /\
    Py.contains "Answer is empty"
      (Graph.final_explanation (Orchestrator.final_state run)) = true.
Proof.
  intros Hq Ha.
  pose proof (run_analysis_paths settings o question answer context domain) as Hrun.
  cbv zeta in Hrun. rewrite Hrun. clear Hrun.
  cbn [Orchestrator.run_node].
  rewrite (precheck_empty_answer (Orchestrator.precheck_llm o)
             (Graph.create_initial_state question answer context domain) Hq Ha).
  cbn [Precheck.merge Graph.precheck_passed Precheck.out_precheck_passed].
  eexists. split; [reflexivity|].
  repeat split.
Qed.

(** The early exit on a question with a blank answer. *)
Lemma empty_answer_witness :
  exists run : Orchestrator.Run,
    Orchestrator.run_analysis Config.default_settings Examples.unparsable_oracle
      "What is 2+2?" "   " None "general" = Some run /\
    Orchestrator.trace run = [Orchestrator.precheck; Orchestrator.early_exit] /\
    Graph.final_explanation (Orchestrator.final_state run)
    = "Analysis skipped: Answer is empty"%string.
Proof.
  destruct (empty_answer_takes_early_exit Config.default_settings
              Examples.unparsable_oracle "What is 2+2?" "   " None "general"
              eq_refl eq_refl)
    as (run & Hrun & Htrace & _ & _ & _ & _ & _ & _ & _ & Hexp & _).
  exists run. auto.
Defined.

(** C8, as stated, fails: when the question is empty too, precheck rejects
    the request with reason "Question is empty", and the explanation of the
    early exit does not hold "Answer is empty". *)
Lemma empty_question_is_reported_before_empty_answer :
  ~ (forall (settings : Config.Settings) (o : Orchestrator.Oracle)
            (question answer : string) (context : option string) (domain : string),
        Py.is_empty (Py.strip answer) = true ->
        exists run : Orchestrator.Run,
          Orchestrator.run_analysis settings o question answer context domain
          = Some run /\
          Py.contains "Answer is empty"
            (Graph.final_explanation (Orchestrator.final_state run)) = true).
Proof.
  intros H.
  destruct (H Config.default_settings Examples.unparsable_oracle
              ""%string ""%string None "general"%string eq_refl)
    as (run & Hrun & Hcontains).
  vm_compute in Hrun. injection Hrun as <-.
  vm_compute in Hcontains. discriminate Hcontains.
Qed.

(** C10 (amended). When the question is not empty after stripping, a
    stripped answer under 200 characters whose lowercased text holds a
    refusal pattern passes precheck as a "refusal", without a model call
    and whether or not it also holds an error pattern: the refusal check
    comes first. Precheck never gives the reason
    "Answer appears to be an error message" to an answer that matches the
    short-refusal check. *)
Theorem refusal_check_precedes_error_check
    (llm : Llm.outcome Precheck.Result) (state : Graph.AnalysisState) :
  let answer := Py.strip (Graph.answer state) in
  let short_refusal :=
    Py.any_in Precheck.refusal_patterns (Py.lower answer)
    && (String.length answer <? 200)%nat in
  (Py.is_empty (Py.strip (Graph.question state)) = false ->
   Py.any_in Precheck.refusal_patterns (Py.lower answer) = true ->
   Py.any_in Precheck.error_patterns (Py.lower answer) = true ->
   (String.length answer < 200)%nat ->
   Precheck.precheck_node llm state
   = {| Precheck.out_precheck_passed := true;
        Precheck.out_precheck_failure_reason := None;
        Precheck.out_answer_type := "refusal";
        Precheck.out_errors := None |}) /\
  (short_refusal = true ->
   Precheck.out_precheck_failure_reason (Precheck.precheck_node llm state)
   <> Some "Answer appears to be an error message"%string).
Proof.
  intros answer short_refusal. split.
  - intros Hq Hr _ Hl. now apply precheck_short_refusal.
  - subst short_refusal answer. intros Hs.
    unfold Precheck.precheck_node.
    destruct (Py.is_empty (Py.strip (Graph.question state))); [discriminate|].
    destruct (Py.is_empty (Py.strip (Graph.answer state))); [discriminate|].
    rewrite Hs. discriminate.
Qed.

(** A short reply that refuses and reports an error passes as a refusal. *)
Lemma refusal_precedence_witness :
  Precheck.precheck_node Llm.LlmParseError
    (Graph.create_initial_state "Summarise the document." Examples.refusal_with_error
       None "general")
  = {| Precheck.out_precheck_passed := true;
       Precheck.out_precheck_failure_reason := None;
       Precheck.out_answer_type := "refusal";
       Precheck.out_errors := None |}.
Proof.
  apply (proj1 (refusal_check_precedes_error_check Llm.LlmParseError
                  (Graph.create_initial_state "Summarise the document."
                     Examples.refusal_with_error None "general")));
    [reflexivity | reflexivity | reflexivity | vm_compute; lia].
Defined.

(** C10, as stated, fails: with a blank question the same reply does not
    pass precheck; the request is rejected because the question is empty. *)
Lemma blank_question_is_rejected_before_refusal_check :
  ~ (forall (llm : Llm.outcome Precheck.Result) (state : Graph.AnalysisState),
        let answer := Py.strip (Graph.answer state) in
        Py.any_in Precheck.refusal_patterns (Py.lower answer) = true ->
        Py.any_in Precheck.error_patterns (Py.lower answer) = true ->
        (String.length answer < 200)%nat ->
        Precheck.out_precheck_passed (Precheck.precheck_node llm state) = true /\
        Precheck.out_answer_type (Precheck.precheck_node llm state) = "refusal"%string).
Proof.
  intros H.
  assert (Hl : (String.length (Py.strip Examples.refusal_with_error) < 200)%nat)
    by (vm_compute; lia).
  destruct (H Llm.LlmParseError
              (Graph.create_initial_state "   " Examples.refusal_with_error None "general")
              eq_refl eq_refl Hl) as [Hpassed _].
  vm_compute in Hpassed. discriminate Hpassed.
Qed.

(** ** Recommendations *)

Section RecommendationFacts.
Import State Graph Llm Recommendation.

Lemma numbered_app (k : nat) (l1 l2 : list (string * Entry)) :
  numbered k (l1 ++ l2) = numbered k l1 ++ numbered (k + List.length l1) l2.
Proof.
  revert k; induction l1 as [|[t e] l1 IH]; intros k; simpl.
  - now rewrite Nat.add_0_r.
  - rewrite IH. now rewrite Nat.add_succ_comm.
Qed.

Lemma numbered_length (k : nat) (l : list (string * Entry)) :
  List.length (numbered k l) = List.length l.
Proof. revert k; induction l as [|[t e] l IH]; intros k; simpl; auto. Qed.

Lemma numbered_ids (k : nat) (l : list (string * Entry)) :
  map recommendation_id (numbered k l)
  = map (fun i => ("r" ++ Py.str_of_nat i)%string) (seq k (List.length l)).
Proof.
  revert k; induction l as [|[t e] l IH]; intros k; simpl; [reflexivity|].
  now rewrite IH.
Qed.

Lemma add_entries_eq (t : string) (es : list Entry)
    (recs : list RecommendationData) (k : nat) :
  add_entries t es recs k
  = (recs ++ numbered k (map (pair t) es), (k + List.length es)%nat).
Proof.
  revert recs k; induction es as [|e es IH]; intros recs k; simpl.
  - now rewrite app_nil_r, Nat.add_0_r.
  - rewrite IH, <- app_assoc. simpl.
    rewrite Nat.add_1_r. f_equal. lia.
Qed.

Lemma loop_eq (failures : list FailureSignal) (acc : Loop) :
  acc_recommendations (fold_left loop_step failures acc)
  = acc_recommendations acc
    ++ numbered (rec_id_counter acc)
         (flat_map block (unique_from (seen_types acc) (map failure_type failures))).
Proof.
  revert acc; induction failures as [|f rest IH]; intros acc; simpl.
  - now rewrite app_nil_r.
  - rewrite IH. unfold loop_step.
    destruct (existsb (String.eqb (failure_type f)) (seen_types acc)); [reflexivity|].
    rewrite add_entries_eq. cbn [acc_recommendations rec_id_counter seen_types].
    rewrite <- app_assoc. f_equal.
    simpl flat_map. rewrite numbered_app. unfold block at 3.
    now rewrite length_map.
Qed.

Lemma predefined_eq (detected_failures : list FailureSignal) :
  predefined detected_failures
  = numbered 1 (flat_map block (types_in_order detected_failures)).
Proof. unfold predefined. now rewrite loop_eq. Qed.

Lemma unique_from_spec (seen l : list string) :
  NoDup (unique_from seen l) /\
  (forall t, In t (unique_from seen l) <-> In t l /\ ~ In t seen).
Proof.
  revert seen; induction l as [|x l IH]; intros seen; simpl.
  - split; [constructor | intros t; tauto].
  - destruct (existsb (String.eqb x) seen) eqn:E.
    + destruct (IH seen) as [Hn Hi]. split; [exact Hn|].
      intros t. rewrite Hi. apply existsb_exists in E.
      destruct E as (y & Hy & Exy). apply String.eqb_eq in Exy; subst y.
      split; [tauto|]. intros [[<-|Hin] Hs]; tauto.
    + destruct (IH (x :: seen)) as [Hn Hi].
      assert (Hx : ~ In x seen).
      { intros Hin. assert (existsb (String.eqb x) seen = true); [|congruence].
        apply existsb_exists. exists x. split; [exact Hin | apply String.eqb_refl]. }
      split.
      * constructor; [|exact Hn]. rewrite Hi. simpl. tauto.
      * intros t. simpl. rewrite Hi. simpl.
        destruct (string_dec x t) as [->|Hne]; tauto.
Qed.



Lemma Sorted_impl {A : Type} (R R' : A -> A -> Prop) (l : list A) :
  (forall a b, R a b -> R' a b) -> Sorted R l -> Sorted R' l.
Proof.
  intros HR. induction 1 as [|a l Hs IH Hh]; constructor; [exact IH|].
  destruct Hh; constructor; auto.
Qed.


Lemma sorted_predefined (detected_failures : list FailureSignal) :
  Sorted by_priority (Py.sort_by priority Z.leb (predefined detected_failures)).
Proof.
  apply Sorted_impl with (R := Py.key_le priority Z.leb).
  - intros a b H. apply Z.leb_le, H.
  - apply sort_by_sorted.
    intros a b. destruct (Z.le_ge_cases a b); [left | right]; now apply Z.leb_le.
Qed.



Lemma recommendation_node_eq (llm : outcome Result) (state : AnalysisState) :
  detected_failures state <> [] ->
  recommendation_node llm state
  = firstn 10 (Py.sort_by priority Z.leb (predefined (detected_failures state))
               ++ domain_part llm (domain state)).
Proof.
  intros Hne. unfold recommendation_node, domain_part.
  destruct (detected_failures state) as [|f rest]; [congruence|].
  destruct (negb (String.eqb (domain state) "general"));
    [destruct (_generate_domain_recommendations llm)|];
    now rewrite ?app_nil_r.
Qed.
End RecommendationFacts.





(** * Further properties of the nodes *)

(** ** Order of the aggregated lists *)

Section AggregationOrder.
Import State Graph Aggregation.

(** [unique_from] reads its list of seen types as a set. *)
Lemma unique_from_ext (l seen seen' : list string) :
  (forall t, existsb (String.eqb t) seen = existsb (String.eqb t) seen') ->
  unique_from seen l = unique_from seen' l.
Proof.
  revert seen seen'; induction l as [|x l IH]; intros seen seen' H;
    cbn [unique_from]; [reflexivity|].
  rewrite <- H. destruct (existsb (String.eqb x) seen); [now apply IH|].
  f_equal. apply IH. intros t. cbn [existsb]. now rewrite H.
Qed.

Lemma filter_loop_snd (threshold : Q) (signals : list FailureSignal)
    (acc : list FailureSignal * list string) :
  snd (fold_left (filter_step threshold) signals acc)
  = snd acc ++ unique_from (snd acc)
                 (map failure_type (filter (retained threshold) signals)).
Proof.
  revert acc; induction signals as [|s rest IH]; intros [kept types].
  - cbn. now rewrite app_nil_r.
  - cbn [fold_left filter]. rewrite IH. clear IH.
    assert (R : retained threshold s
                = detected s && Qle_bool threshold (confidence s)) by reflexivity.
    rewrite R. unfold filter_step at 1 2.
    destruct (detected s); cbn [andb]; [|reflexivity].
    destruct (Qle_bool threshold (confidence s)); [|reflexivity].
    cbn [snd map unique_from].
    destruct (existsb (String.eqb (failure_type s)) types) eqn:E; [reflexivity|].
    rewrite <- app_assoc. cbn [app]. f_equal. f_equal.
    apply unique_from_ext. intros t.
    rewrite existsb_app. cbn [existsb]. rewrite orb_false_r. apply orb_comm.
Qed.

Lemma failure_types_eq (settings : Config.Settings) (state : AnalysisState) :
  out_failure_types (aggregation_node settings state)
  = unique_from []
      (map failure_type
           (filter (retained (Config.failure_confidence_threshold settings))
                   (collect_signals (signal_slots state)))).
Proof.
  unfold aggregation_node.
  pose proof (filter_loop_snd (Config.failure_confidence_threshold settings)
                (collect_signals (signal_slots state)) ([], [])) as H.
  destruct (fold_left _ _ _) as [kept types]. cbn in *. exact H.
Qed.
End AggregationOrder.

(** X1. The retained signals come out by descending confidence: every
    signal has a confidence at least that of every signal after it. The
    list is a rearrangement of the signals that pass the filter among those
    of the six state keys [hallucination_signal], [logical_signal],
    [assumptions_signal], [overconfidence_signal], [scope_signal] and
    [underspec_signal], and signals of equal confidence keep the order of
    these keys. *)
Theorem detected_failures_descend_and_ties_keep_slot_order
    (settings : Config.Settings) (state : Graph.AnalysisState) :
  let r := Aggregation.aggregation_node settings state in
  let kept :=
    filter
      (fun s => State.detected s
                && Qle_bool (Config.failure_confidence_threshold settings)
                            (State.confidence s))
      (flat_map (fun slot => match slot with Some s => [s] | None => [] end)
         [ Graph.hallucination_signal state; Graph.logical_signal state;
           Graph.assumptions_signal state; Graph.overconfidence_signal state;
           Graph.scope_signal state; Graph.underspec_signal state ]) in
  StronglySorted (fun a b => State.confidence b <= State.confidence a)
                 (Aggregation.out_detected_failures r) /\
  Permutation (Aggregation.out_detected_failures r) kept /\
  (forall q : Q,
      filter (fun s => Qeq_bool (State.confidence s) q)
             (Aggregation.out_detected_failures r)
      = filter (fun s => Qeq_bool (State.confidence s) q) kept).
Proof.
  intros r kept. subst r kept.
  rewrite detected_failures_eq.
  assert (E : Aggregation.collect_signals (Aggregation.signal_slots state)
              = flat_map (fun slot => match slot with Some s => [s] | None => [] end)
                  [ Graph.hallucination_signal state; Graph.logical_signal state;
                    Graph.assumptions_signal state; Graph.overconfidence_signal state;
                    Graph.scope_signal state; Graph.underspec_signal state ]).
  { unfold Aggregation.collect_signals. now rewrite collect_signals_acc. }
  rewrite <- E.
  change (fun s : State.FailureSignal =>
            State.detected s
            && Qle_bool (Config.failure_confidence_threshold settings)
                        (State.confidence s))
    with (retained (Config.failure_confidence_threshold settings)).
  split.
  { apply Sorted_StronglySorted.
    - intros a b c Hab Hbc. eapply Qle_trans; eassumption.
    - apply Sorted_impl with (R := Py.key_le State.confidence Aggregation.ge_conf).
      + intros a b H. apply Qle_bool_iff. exact H.
      + apply sort_by_sorted. intros a b. unfold Aggregation.ge_conf.
        destruct (Qlt_le_dec a b) as [H|H].
        * right. apply Qle_bool_iff. now apply Qlt_le_weak.
        * left. now apply Qle_bool_iff. }
  split; [apply sort_by_perm|].
  intros q.
  apply (sort_by_filter_same State.confidence Aggregation.ge_conf
           (fun k => Qeq_bool k q)).
  intros a b Ha Hb. apply Qeq_bool_iff in Ha, Hb.
  unfold Aggregation.ge_conf. apply Qle_bool_iff. rewrite Ha, Hb. apply Qle_refl.
Qed.

(** X2. [failure_types] lists the failure types of the retained signals
    without repetition, in the order of the slots (the order in which the
    signals are met, not the order of [detected_failures]). *)
Theorem failure_types_are_the_retained_types_once
    (settings : Config.Settings) (state : Graph.AnalysisState) :
  let r := Aggregation.aggregation_node settings state in
  let kept :=
    filter (retained (Config.failure_confidence_threshold settings))
           (Aggregation.out_failure_signals r) in
  Aggregation.out_failure_types r = unique_from [] (map State.failure_type kept) /\
  NoDup (Aggregation.out_failure_types r) /\
  (forall t, In t (Aggregation.out_failure_types r) <->
             exists s, In s (Aggregation.out_detected_failures r) /\
                       State.failure_type s = t).
Proof.
  intros r kept. subst r kept.
  rewrite failure_types_eq, failure_signals_eq, detected_failures_eq.
  destruct (unique_from_spec []
              (map State.failure_type
                 (filter (retained (Config.failure_confidence_threshold settings))
                    (Aggregation.collect_signals (Aggregation.signal_slots state)))))
    as [Hn Hi].
  split; [reflexivity|]. split; [exact Hn|].
  intros t. rewrite Hi, in_map_iff. split.
  - intros [(s & <- & Hs) _]. exists s. split; [|reflexivity].
    now apply sort_by_In.
  - intros (s & Hs & <-). split; [|intros []].
    exists s. split; [reflexivity|]. now apply sort_by_In in Hs.
Qed.

(** ** The breakdown of the risk score *)

Section RiskBreakdown.
Import State Graph Scoring RiskScoring.

Lemma score_loop_factors (fw : list (string * Q)) (dm : Q)
    (failures : list FailureSignal) (acc : Q * list Factor) :
  snd (fold_left (score_step fw dm) failures acc)
  = snd acc ++ map (fun f => hd {| factor_failure_type := ""; factor_confidence := 0;
                                   factor_severity := ""; factor_type_weight := 0;
                                   factor_severity_multiplier := 0;
                                   factor_domain_multiplier := 0;
                                   factor_contribution := 0 |}
                               (snd (score_step fw dm (0, []) f)))
                   failures.
Proof.
  revert acc; induction failures as [|f rest IH]; intros [total factors].
  - cbn. now rewrite app_nil_r.
  - cbn [fold_left map]. rewrite IH. cbn [score_step snd app hd].
    now rewrite <- app_assoc.
Qed.

Lemma contributing_factors_eq (settings : Config.Settings) (state : AnalysisState) :
  out_contributing_factors (risk_scoring_node settings state)
  = map (fun f => hd {| factor_failure_type := ""; factor_confidence := 0;
                        factor_severity := ""; factor_type_weight := 0;
                        factor_severity_multiplier := 0;
                        factor_domain_multiplier := 0;
                        factor_contribution := 0 |}
                    (snd (score_step (Config.failure_weights settings)
                            (Py.dict_get (Config.domain_multipliers settings)
                               (domain state) 1) (0, []) f)))
        (detected_failures state).
Proof.
  unfold risk_scoring_node.
  pose proof (score_loop_factors (Config.failure_weights settings)
                (Py.dict_get (Config.domain_multipliers settings) (domain state) 1)
                (detected_failures state) (0, [])) as H.
  destruct (fold_left _ _ _) as [total factors]. cbn in *. exact H.
Qed.

Lemma domain_multiplier_eq (settings : Config.Settings) (state : AnalysisState) :
  out_domain_multiplier (risk_scoring_node settings state)
  = Py.dict_get (Config.domain_multipliers settings) (domain state) 1.
Proof. unfold risk_scoring_node. destruct (fold_left _ _ _). reflexivity. Qed.

Lemma dict_get_absent {V : Type} (d : list (string * V)) (key : string) (default : V) :
  ~ In key (map fst d) -> Py.dict_get d key default = default.
Proof.
  induction d as [|[k v] rest IH]; cbn; [reflexivity|]. intros H.
  destruct (String.eqb k key) eqn:E.
  - apply String.eqb_eq in E. tauto.
  - apply IH. tauto.
Qed.


Lemma factors_consistent (settings : Config.Settings) (state : AnalysisState) :
  Forall (fun c =>
            factor_domain_multiplier c
            = out_domain_multiplier (risk_scoring_node settings state) /\
            factor_type_weight c
            = Py.dict_get (Config.failure_weights settings) (factor_failure_type c) (1 # 10) /\
            factor_severity_multiplier c
            = Py.dict_get severity_multipliers (factor_severity c) (5 # 10) /\
            factor_contribution c
            = Py.round (factor_confidence c * factor_type_weight c
                        * factor_severity_multiplier c * factor_domain_multiplier c) 4)
         (out_contributing_factors (risk_scoring_node settings state)).
Proof.
  rewrite contributing_factors_eq, domain_multiplier_eq.
  apply Forall_map, Forall_forall. intros f _. cbn. repeat split.
Qed.
End RiskBreakdown.

(** X3. [contributing_factors] holds one entry per retained failure, in the
    order of [detected_failures] (it is not sorted by contribution). An
    entry repeats the failure's type, confidence and severity, records the
    weight, the severity multiplier and the domain multiplier that were
    looked up, and its contribution is the product of the recorded values,
    taken from left to right as doubles, rounded to 4 decimals. In domain
    general, a hallucination of confidence 0.9 and a logical inconsistency
    of confidence 0.7, both of severity high, are recorded with the
    contributions 0.2363 and 0.1312. *)
Theorem contributing_factors_mirror_detected_failures
    (settings : Config64.Settings) (detected_failures : list RiskScoring64.Failure)
    (domain : string) :
  let r := RiskScoring64.risk_scoring_node settings detected_failures domain in
  let domain_multiplier :=
    Py.dict_get (Config64.domain_multipliers settings) domain 1.0%float in
  RiskScoring64.out_domain_multiplier r = domain_multiplier /\
  RiskScoring64.out_contributing_factors r
  = map (fun f =>
           let type_weight :=
             Py.dict_get (Config64.failure_weights settings)
               (RiskScoring64.failure_type f) 0.1%float in
           let severity_mult :=
             Py.dict_get RiskScoring64.severity_multipliers
               (RiskScoring64.severity f) 0.5%float in
           {| RiskScoring64.factor_failure_type := RiskScoring64.failure_type f;
              RiskScoring64.factor_confidence := RiskScoring64.confidence f;
              RiskScoring64.factor_severity := RiskScoring64.severity f;
              RiskScoring64.factor_type_weight := type_weight;
              RiskScoring64.factor_severity_multiplier := severity_mult;
              RiskScoring64.factor_domain_multiplier := domain_multiplier;
              RiskScoring64.factor_contribution :=
                Float64.round
                  (RiskScoring64.confidence f * type_weight * severity_mult
                   * domain_multiplier)%float 4 |})
        detected_failures /\
  map RiskScoring64.factor_contribution
    (RiskScoring64.out_contributing_factors
       (RiskScoring64.risk_scoring_node Config64.default_settings
          [ failure64 "hallucination" 0.9 "high";
            failure64 "logical_inconsistency" 0.7 "high" ] "general"))
  = [0.2363; 0.1312]%float.
Proof.
  intros r domain_multiplier. subst r domain_multiplier.
  rewrite risk_scoring_node64_eq.
  cbn [RiskScoring64.out_domain_multiplier RiskScoring64.out_contributing_factors].
  split; [reflexivity|]. split; [reflexivity|].
  vm_compute. reflexivity.
Qed.

(** X4. A key that is missing from a table never makes the scorer fail:
    a domain outside the five configured ones is scored with multiplier
    1.0, a failure type outside the six configured ones with weight 0.1,
    and a severity outside low, medium, high, critical with multiplier
    0.5. *)
Theorem unknown_keys_are_scored_with_defaults
    (settings : Config.Settings) (state : Graph.AnalysisState) :
  let r := RiskScoring.risk_scoring_node settings state in
  (~ In (Graph.domain state)
        ["general"; "finance"; "medical"; "legal"; "code"]%string ->
   RiskScoring.out_domain_multiplier r = 1) /\
  Forall (fun c =>
            (~ In (Scoring.factor_failure_type c)
                  ["hallucination"; "logical_inconsistency"; "missing_assumptions";
                   "overconfidence"; "scope_violation"; "underspecification"]%string ->
             Scoring.factor_type_weight c = 1 # 10) /\
            (~ In (Scoring.factor_severity c)
                  ["low"; "medium"; "high"; "critical"]%string ->
             Scoring.factor_severity_multiplier c = 5 # 10))
         (RiskScoring.out_contributing_factors r).
Proof.
  intros r. subst r. split.
  - intros H. rewrite domain_multiplier_eq. now apply dict_get_absent.
  - eapply Forall_impl; [|apply factors_consistent].
    intros c (_ & Hw & Hs & _). split; intros H.
    + rewrite Hw. now apply dict_get_absent.
    + rewrite Hs. now apply dict_get_absent.
Qed.



(** ** The hallucination detector *)

Section HallucinationFacts.
Import State Graph Llm Hallucination.

Lemma evidence_of_In (findings : list Finding) (e : string) :
  In e (evidence_of findings) <->
  e <> ""%string /\
  exists finding, In finding findings /\
                  is_hallucinated finding = Some true /\ reason finding = Some e.
Proof.
  unfold evidence_of. rewrite in_flat_map. split.
  - intros (finding & Hin & He).
    destruct (is_hallucinated finding) as [[|]|] eqn:Eh; cbn in He; try contradiction.
    destruct (reason finding) as [r|] eqn:Er; cbn in He; [|contradiction].
    destruct r as [|c r]; cbn in He; [contradiction|].
    destruct He as [<-|[]]. split; [discriminate|]. now exists finding.
  - intros (Hne & finding & Hin & Eh & Er). exists finding. split; [exact Hin|].
    rewrite Eh, Er. cbn. destruct e; [congruence | now left].
Qed.

Lemma related_claims_of_In (findings : list Finding) (id : string) :
  In id (related_claims_of findings) <->
  id <> ""%string /\
  exists finding, In finding findings /\
                  is_hallucinated finding = Some true /\
                  finding_claim_id finding = Some id.
Proof.
  unfold related_claims_of. rewrite in_flat_map. split.
  - intros (finding & Hin & He).
    destruct (is_hallucinated finding) as [[|]|] eqn:Eh; cbn in He; try contradiction.
    destruct (finding_claim_id finding) as [r|] eqn:Er; cbn in He; [|contradiction].
    destruct r as [|c r]; cbn in He; [contradiction|].
    destruct He as [<-|[]]. split; [discriminate|]. now exists finding.
  - intros (Hne & finding & Hin & Eh & Er). exists finding. split; [exact Hin|].
    rewrite Eh, Er. cbn. destruct id; [congruence | now left].
Qed.

Lemma flat_map_length_le {A B : Type} (f : A -> list B) (l : list A) :
  (forall a, List.length (f a) <= 1)%nat ->
  (List.length (flat_map f l) <= List.length l)%nat.
Proof.
  intros H. induction l as [|a l IH]; cbn; [lia|].
  rewrite length_app. specialize (H a). lia.
Qed.
End HallucinationFacts.

(** X6. The hallucination detector always returns a signal of type
    "hallucination" and never raises. When the model call raises or its
    output does not parse, the signal is the default one (not detected,
    confidence 0.0, severity "low", no evidence), and an error entry is
    added only in the first case. When the output parses, the evidence is
    made of the non-empty reasons of the findings flagged as hallucinated,
    the related claims of their non-empty claim ids, and neither list is
    longer than the list of findings. *)
Theorem hallucination_detector_fails_open_and_cites_flagged_findings
    (llm : Llm.outcome Hallucination.Result) (state : Graph.AnalysisState) :
  let u := Hallucination.hallucination_detector llm state in
  let s := Hallucination.out_hallucination_signal u in
  State.failure_type s = "hallucination"%string /\
  (forall e, llm = Llm.LlmRaised e ->
     s = Hallucination._create_default_signal /\
     Hallucination.out_errors u
     = Some (Graph.errors state ++ [("hallucination_detector"%string, e)])) /\
  (llm = Llm.LlmParseError ->
     s = Hallucination._create_default_signal /\ Hallucination.out_errors u = None) /\
  (State.detected Hallucination._create_default_signal = false /\
   State.confidence Hallucination._create_default_signal = 0 /\
   State.severity Hallucination._create_default_signal = "low"%string /\
   State.evidence Hallucination._create_default_signal = []) /\
  (forall result, llm = Llm.LlmParsed result ->
     let findings := Llm.get (Hallucination.result_findings result) [] in
     Hallucination.out_errors u = None /\
     State.findings s = findings /\
     (forall e, In e (State.evidence s) <->
        e <> ""%string /\
        exists finding, In finding findings /\
                        State.is_hallucinated finding = Some true /\
                        State.reason finding = Some e) /\
     (forall id, In id (State.related_claim_ids s) <->
        id <> ""%string /\
        exists finding, In finding findings /\
                        State.is_hallucinated finding = Some true /\
                        State.finding_claim_id finding = Some id) /\
     (List.length (State.evidence s) <= List.length findings)%nat /\
     (List.length (State.related_claim_ids s) <= List.length findings)%nat).
Proof.
  intros u s. subst u s.
  split; [destruct llm; reflexivity|].
  split; [intros e ->; split; reflexivity|].
  split; [intros ->; split; reflexivity|].
  split; [repeat split|].
  intros result -> findings. cbn.
  split; [reflexivity|]. split; [reflexivity|].
  split; [intros e; apply evidence_of_In|].
  split; [intros id; apply related_claims_of_In|].
  split; apply flat_map_length_le; intros finding;
    destruct (Llm.get (State.is_hallucinated finding) false); cbn; try lia.
  - destruct (Py.is_empty _); cbn; lia.
  - destruct (Py.is_empty _); cbn; lia.
Qed.

(** ** Outcomes of precheck *)

(** X7. A request that passes precheck carries no failure reason. A model
    call that raises or whose output does not parse never rejects a
    request: with such a call, a rejected request has one of the three
    fixed reasons. An error entry is recorded only when the model call
    raised, and then the request passes as a "response". *)
Theorem precheck_is_never_blocked_by_the_model
    (llm : Llm.outcome Precheck.Result) (state : Graph.AnalysisState) :
  let u := Precheck.precheck_node llm state in
  (Precheck.out_precheck_passed u = true ->
   Precheck.out_precheck_failure_reason u = None) /\
  (llm = Llm.LlmParseError \/ (exists e, llm = Llm.LlmRaised e) ->
   Precheck.out_precheck_passed u = false ->
   In (Precheck.out_precheck_failure_reason u)
      [Some "Question is empty"; Some "Answer is empty";
       Some "Answer appears to be an error message"]%string) /\
  (Precheck.out_errors u <> None ->
   Precheck.out_precheck_passed u = true /\
   Precheck.out_answer_type u = "response"%string /\
   exists e, llm = Llm.LlmRaised e /\
             Precheck.out_errors u = Some (Graph.errors state ++ [("precheck"%string, e)])).
Proof.
  intros u. subst u. unfold Precheck.precheck_node.
  destruct (Py.is_empty (Py.strip (Graph.question state)));
    [cbn; repeat split; try discriminate; try congruence; intros; now left|].
  destruct (Py.is_empty (Py.strip (Graph.answer state)));
    [cbn; repeat split; try discriminate; try congruence; intros; right; now left|].
  destruct (_ && _);
    [cbn; repeat split; try discriminate; try congruence|].
  destruct (_ && _);
    [cbn; repeat split; try discriminate; try congruence; intros; right; right; now left|].
  destruct llm as [e| |result]; cbn.
  - repeat split; try discriminate. now exists e.
  - repeat split; try discriminate; congruence.
  - split; [|split].
    + intros H. now rewrite H.
    + intros [H|[e H]]; discriminate.
    + congruence.
Qed.

(** X8. A short error reply is rejected without consulting the model:
    when the question is not empty, the stripped answer is not empty,
    holds an error pattern and has fewer than 500 characters, and the
    short-refusal check does not apply (no refusal pattern, or 200
    characters or more), precheck rejects the request with reason
    "Answer appears to be an error message" and answer type "error". *)
Theorem short_error_reply_is_rejected
    (llm : Llm.outcome Precheck.Result) (state : Graph.AnalysisState) :
  let answer := Py.strip (Graph.answer state) in
  Py.is_empty (Py.strip (Graph.question state)) = false ->
  Py.is_empty answer = false ->
  Py.any_in Precheck.refusal_patterns (Py.lower answer) = false
  \/ (200 <= String.length answer)%nat ->
  Py.any_in Precheck.error_patterns (Py.lower answer) = true ->
  (String.length answer < 500)%nat ->
  Precheck.precheck_node llm state
  = {| Precheck.out_precheck_passed := false;
       Precheck.out_precheck_failure_reason :=
         Some "Answer appears to be an error message"%string;
       Precheck.out_answer_type := "error";
       Precheck.out_errors := None |}.
Proof.
  intros answer Hq Ha Hr He Hl. subst answer. unfold Precheck.precheck_node.
  rewrite Hq, Ha, He.
  apply Nat.ltb_lt in Hl. rewrite Hl.
  assert (Hshort : Py.any_in Precheck.refusal_patterns
                     (Py.lower (Py.strip (Graph.answer state)))
                   && (String.length (Py.strip (Graph.answer state)) <? 200)%nat = false).
  { destruct Hr as [->|Hr]; [reflexivity|].
    apply Nat.ltb_ge in Hr. rewrite Hr. apply andb_false_r. }
  now rewrite Hshort.
Qed.

(** A refusal of more than 200 characters that reports an error is
    rejected as an error message. *)
Lemma short_error_reply_witness :
  Precheck.precheck_node Llm.LlmParseError
    (Graph.create_initial_state "Summarise the document." long_refusal_with_error
       None "general")
  = {| Precheck.out_precheck_passed := false;
       Precheck.out_precheck_failure_reason :=
         Some "Answer appears to be an error message"%string;
       Precheck.out_answer_type := "error";
       Precheck.out_errors := None |}.
Proof.
  apply (short_error_reply_is_rejected Llm.LlmParseError
           (Graph.create_initial_state "Summarise the document."
              long_refusal_with_error None "general"));
    [reflexivity | reflexivity | right; vm_compute; lia | reflexivity
    | vm_compute; lia].
Defined.

(** ** Whole runs *)

Section WholeRunFacts.
Import State Graph Orchestrator.

(** The state the detectors leave, on the path of a request that passed. *)
Lemma invoke_paths (settings : Config.Settings) (o : Oracle) (k : nat)
    (state : AnalysisState) :
  let s0 := run_node settings o precheck state in
  invoke settings o (8 + k) precheck state []
  = if precheck_passed s0
    then Some {| final_state := full_path settings o s0;
                 trace := [precheck; decomposition; parallel_detectors; aggregation;
                           risk_scoring; explanation; recommendation; finalize] |}
    else Some {| final_state := early_exit_node s0;
                 trace := [precheck; early_exit] |}.
Proof.
  intros s0. cbn [Nat.add invoke successor app]. fold s0.
  unfold should_continue_after_precheck.
  destruct (precheck_passed s0); cbn [successor app]; reflexivity.
Qed.

Lemma full_path_inputs (settings : Config.Settings) (o : Oracle) (s0 : AnalysisState) :
  question (full_path settings o s0) = question s0 /\
  answer (full_path settings o s0) = answer s0 /\
  context (full_path settings o s0) = context s0 /\
  domain (full_path settings o s0) = domain s0 /\
  precheck_passed (full_path settings o s0) = precheck_passed s0 /\
  precheck_failure_reason (full_path settings o s0) = precheck_failure_reason s0.
Proof. repeat split. Qed.

Lemma full_path_results (settings : Config.Settings) (o : Oracle) (s0 : AnalysisState) :
  let s2 := detected_state settings o s0 in
  let agg := Aggregation.aggregation_node settings s2 in
  let s3 := Aggregation.merge s2 agg in
  failure_signals (full_path settings o s0) = Aggregation.out_failure_signals agg /\
  detected_failures (full_path settings o s0) = Aggregation.out_detected_failures agg /\
  failure_detected (full_path settings o s0) = Aggregation.out_failure_detected agg /\
  failure_types (full_path settings o s0) = Aggregation.out_failure_types agg /\
  risk_score (full_path settings o s0)
  = RiskScoring.out_risk_score (RiskScoring.risk_scoring_node settings s3) /\
  risk_level (full_path settings o s0)
  = RiskScoring.out_risk_level (RiskScoring.risk_scoring_node settings s3) /\
  detected_failures s3 = Aggregation.out_detected_failures agg /\
  exists s5, recommendations (full_path settings o s0)
             = Recommendation.recommendation_node (recommendation_llm o) s5 /\
             detected_failures s5 = Aggregation.out_detected_failures agg.
Proof.
  intros s2 agg s3. repeat split.
  eexists. split; reflexivity.
Qed.
End WholeRunFacts.

(** X9. A run that reached END took one of exactly two paths, chosen by
    the result of precheck, which the final state keeps. A rejected
    request ran precheck and early_exit only; a request that passed ran
    the eight other nodes in their fixed order, and not early_exit. *)
Theorem run_took_one_of_two_paths
    (settings : Config.Settings) (o : Orchestrator.Oracle)
    (question answer : string) (context : option string) (domain : string)
    (run : Orchestrator.Run) :
  Orchestrator.run_analysis settings o question answer context domain = Some run ->
  Graph.precheck_passed (Orchestrator.final_state run)
  = Precheck.out_precheck_passed
      (Precheck.precheck_node (Orchestrator.precheck_llm o)
         (Graph.create_initial_state question answer context domain)) /\
  (Graph.precheck_passed (Orchestrator.final_state run) = false ->
   Orchestrator.trace run = [Orchestrator.precheck; Orchestrator.early_exit]) /\
  (Graph.precheck_passed (Orchestrator.final_state run) = true ->
   Orchestrator.trace run
   = [Orchestrator.precheck; Orchestrator.decomposition;
      Orchestrator.parallel_detectors; Orchestrator.aggregation;
      Orchestrator.risk_scoring; Orchestrator.explanation;
      Orchestrator.recommendation; Orchestrator.finalize]) /\
  (In Orchestrator.early_exit (Orchestrator.trace run) <->
   Graph.precheck_passed (Orchestrator.final_state run) = false).
Proof.
  intros Hrun.
  pose proof (run_analysis_paths settings o question answer context domain) as Hp.
  cbv zeta in Hp. rewrite Hp in Hrun. clear Hp.
  change (Precheck.out_precheck_passed
            (Precheck.precheck_node (Orchestrator.precheck_llm o)
               (Graph.create_initial_state question answer context domain)))
    with (Graph.precheck_passed
            (Orchestrator.run_node settings o Orchestrator.precheck
               (Graph.create_initial_state question answer context domain))).
  destruct (Graph.precheck_passed
              (Orchestrator.run_node settings o Orchestrator.precheck
                 (Graph.create_initial_state question answer context domain))) eqn:E0;
    injection Hrun as <-; cbn [Orchestrator.final_state Orchestrator.trace].
  - assert (Ef : forall x, Graph.precheck_passed (full_path settings o x)
                             = Graph.precheck_passed x) by reflexivity.
    cbn [Orchestrator.run_node] in E0.
    rewrite Ef, E0. split; [reflexivity|]. split; [discriminate|].
    split; [reflexivity|]. split; [|discriminate].
    cbn [In]. intros H. repeat (destruct H as [H|H]; [discriminate H|]). contradiction.
  - assert (Ef : forall x, Graph.precheck_passed (Orchestrator.early_exit_node x)
                             = Graph.precheck_passed x) by reflexivity.
    cbn [Orchestrator.run_node] in E0.
    rewrite Ef, E0. split; [reflexivity|]. split; [reflexivity|].
    split; [discriminate|]. split; [reflexivity|].
    intros _. cbn [In]. right. now left.
Qed.

(** A request with an empty answer is rejected and runs precheck and
    early_exit only. *)
Lemma rejected_run_path_witness :
  exists run : Orchestrator.Run,
    Orchestrator.run_analysis Config.default_settings Examples.unparsable_oracle
      "What is the dose?" "   " None "medical" = Some run /\
    Graph.precheck_passed (Orchestrator.final_state run) = false /\
    Orchestrator.trace run = [Orchestrator.precheck; Orchestrator.early_exit].
Proof.
  destruct (Orchestrator.run_analysis Config.default_settings Examples.unparsable_oracle
              "What is the dose?" "   " None "medical") as [run|] eqn:Hrun;
    [|vm_compute in Hrun; discriminate Hrun].
  destruct (run_took_one_of_two_paths Config.default_settings Examples.unparsable_oracle
              "What is the dose?" "   " None "medical" run Hrun)
    as (Hflag & Hrejected & _).
  assert (Hf : Graph.precheck_passed (Orchestrator.final_state run) = false).
  { rewrite Hflag. vm_compute. reflexivity. }
  exists run. split; [reflexivity|]. split; [exact Hf|]. exact (Hrejected Hf).
Defined.

(** X10. Whatever the reason of the rejection, a request that precheck
    rejects ends on the early exit with a zero-risk result: no failure
    detected, no failure type, risk score 0.0, category "low", no
    recommendation, and the explanation "Analysis skipped: " followed by
    the reason (the text "None" when the model rejected without giving
    one). No claim is extracted and no detector signal is collected. *)
Theorem rejected_request_ends_with_zero_risk
    (settings : Config.Settings) (o : Orchestrator.Oracle)
    (question answer : string) (context : option string) (domain : string) :
  let verdict :=
    Precheck.precheck_node (Orchestrator.precheck_llm o)
      (Graph.create_initial_state question answer context domain) in
  Precheck.out_precheck_passed verdict = false ->
  exists run : Orchestrator.Run,
    Orchestrator.run_analysis settings o question answer context domain = Some run /\
    Orchestrator.trace run = [Orchestrator.precheck; Orchestrator.early_exit] /\
    Graph.failure_detected (Orchestrator.final_state run) = false /\
    Graph.failure_types (Orchestrator.final_state run) = [] /\
    Graph.detected_failures (Orchestrator.final_state run) = [] /\
    Graph.risk_score (Orchestrator.final_state run) = 0 /\
    Graph.risk_level (Orchestrator.final_state run) = "low"%string /\
    Graph.recommendations (Orchestrator.final_state run) = [] /\
    Graph.final_explanation (Orchestrator.final_state run)
    = ("Analysis skipped: "
       ++ Orchestrator.str_of_reason (Precheck.out_precheck_failure_reason verdict))%string /\
    (Precheck.out_precheck_failure_reason verdict = None ->
     Graph.final_explanation (Orchestrator.final_state run)
     = "Analysis skipped: None"%string) /\
    Graph.claims (Orchestrator.final_state run) = [] /\
    Graph.failure_signals (Orchestrator.final_state run) = [] /\
    Graph.contributing_factors (Orchestrator.final_state run) = [].
Proof.
  intros verdict Hrej.
  pose proof (run_analysis_paths settings o question answer context domain) as Hrun.
  cbv zeta in Hrun. rewrite Hrun. clear Hrun.
  cbn [Orchestrator.run_node Precheck.merge Graph.precheck_passed].
  fold verdict. rewrite Hrej.
  eexists. split; [reflexivity|].
  cbn. repeat split. intros ->. reflexivity.
Qed.

(** A request with a blank question is rejected and ends with the
    explanation naming the empty question. *)
Lemma rejected_request_witness :
  exists run : Orchestrator.Run,
    Orchestrator.run_analysis Config.default_settings Examples.unparsable_oracle
      "   " "Paris." None "general" = Some run /\
    Graph.final_explanation (Orchestrator.final_state run)
    = "Analysis skipped: Question is empty"%string.
Proof.
  destruct (rejected_request_ends_with_zero_risk Config.default_settings
              Examples.unparsable_oracle "   " "Paris." None "general" eq_refl)
    as (run & Hrun & _ & _ & _ & _ & _ & _ & _ & Hexp & _).
  exists run. split; [exact Hrun | exact Hexp].
Defined.

(** X11. A run never changes its inputs: in the final state the question,
    the answer and the domain are the ones given, and the context is the
    one given, or the empty text when none was given. *)
Theorem run_keeps_its_inputs
    (settings : Config.Settings) (o : Orchestrator.Oracle)
    (question answer : string) (context : option string) (domain : string) :
  exists run : Orchestrator.Run,
    Orchestrator.run_analysis settings o question answer context domain = Some run /\
    Graph.question (Orchestrator.final_state run) = question /\
    Graph.answer (Orchestrator.final_state run) = answer /\
    Graph.context (Orchestrator.final_state run)
    = match context with Some text => text | None => ""%string end /\
    Graph.domain (Orchestrator.final_state run) = domain.
Proof.
  pose proof (run_analysis_paths settings o question answer context domain) as Hrun.
  cbv zeta in Hrun. rewrite Hrun. clear Hrun.
  destruct (Graph.precheck_passed _); eexists; (split; [reflexivity|]);
    repeat split.
Qed.

Section FinalStateFacts.
Import State Graph Orchestrator.

Lemma recommendation_node_length (llm : Llm.outcome Recommendation.Result)
    (state : AnalysisState) :
  (List.length (Recommendation.recommendation_node llm state) <= 10)%nat.
Proof.
  destruct (detected_failures state) eqn:E.
  - unfold Recommendation.recommendation_node. rewrite E. cbn. lia.
  - rewrite recommendation_node_eq by congruence. apply firstn_le_length.
Qed.

Lemma recommendation_node_nil (llm : Llm.outcome Recommendation.Result)
    (state : AnalysisState) :
  detected_failures state = [] -> Recommendation.recommendation_node llm state = [].
Proof. intros E. unfold Recommendation.recommendation_node. now rewrite E. Qed.

Lemma risk_of_no_failure (settings : Config.Settings) (state : AnalysisState) :
  detected_failures state = [] ->
  RiskScoring.out_risk_score (RiskScoring.risk_scoring_node settings state) == 0 /\
  RiskScoring.out_risk_level (RiskScoring.risk_scoring_node settings state) = "low"%string.
Proof.
  intros E.
  assert (T : RiskScoring.total_risk settings state = 0)
    by (unfold RiskScoring.total_risk; now rewrite E).
  rewrite risk_score_eq, risk_level_eq, T. split; vm_compute; reflexivity.
Qed.

Lemma retained_signals (settings : Config.Settings) (state : AnalysisState) :
  Forall (fun s => detected s = true /\
                   Config.failure_confidence_threshold settings <= confidence s /\
                   In s (Aggregation.out_failure_signals
                           (Aggregation.aggregation_node settings state)))
         (Aggregation.out_detected_failures (Aggregation.aggregation_node settings state)).
Proof.
  apply Forall_forall. intros s Hs.
  rewrite detected_failures_eq, sort_by_In, filter_In in Hs.
  destruct Hs as [Hin Hr]. unfold retained in Hr.
  apply andb_true_iff in Hr. destruct Hr as [Hd Hc]. apply Qle_bool_iff in Hc.
  rewrite failure_signals_eq. auto.
Qed.

Lemma filter_retained_nil (threshold : Q) (signals : list FailureSignal) :
  Forall (fun s => detected s = false) signals ->
  filter (retained threshold) signals = [].
Proof.
  induction 1 as [|s rest Hs _ IH]; [reflexivity|].
  cbn [filter]. unfold retained at 1. now rewrite Hs.
Qed.
End FinalStateFacts.

(** X12. In the final state of every run: [failure_detected] is true
    exactly when [detected_failures] is not empty; every retained failure
    is one of the collected signals, is flagged as detected and has a
    confidence at least the threshold; [failure_types] has no repetition;
    at most six signals are collected and at most ten recommendations are
    returned; and when no failure is retained there is no recommendation,
    the risk score is 0 and the category is "low". *)
Theorem final_state_is_consistent
    (settings : Config.Settings) (o : Orchestrator.Oracle)
    (question answer : string) (context : option string) (domain : string) :
  exists run : Orchestrator.Run,
    Orchestrator.run_analysis settings o question answer context domain = Some run /\
    let final := Orchestrator.final_state run in
    (Graph.failure_detected final = true <-> Graph.detected_failures final <> []) /\
    Forall (fun s => State.detected s = true /\
                     Config.failure_confidence_threshold settings <= State.confidence s /\
                     In s (Graph.failure_signals final))
           (Graph.detected_failures final) /\
    NoDup (Graph.failure_types final) /\
    (List.length (Graph.failure_signals final) <= 6)%nat /\
    (List.length (Graph.recommendations final) <= 10)%nat /\
    (Graph.detected_failures final = [] ->
     Graph.recommendations final = [] /\
     Graph.risk_score final == 0 /\
     Graph.risk_level final = "low"%string).
Proof.
  pose proof (run_analysis_paths settings o question answer context domain) as Hrun.
  cbv zeta in Hrun. rewrite Hrun. clear Hrun.
  set (s0 := Orchestrator.run_node settings o Orchestrator.precheck _).
  destruct (Graph.precheck_passed s0).
  - eexists. split; [reflexivity|]. cbn [Orchestrator.final_state].
    destruct (full_path_results settings o s0)
      as (Hsig & Hdet & Hflag & Htypes & Hscore & Hlevel & Hs3 & s5 & Hrec & Hs5).
    cbv zeta. rewrite Hsig, Hdet, Hflag, Htypes, Hscore, Hlevel, Hrec.
    split.
    { rewrite failure_detected_eq, Nat.ltb_lt.
      destruct (Aggregation.out_detected_failures _); cbn;
        split; intros H; [lia | congruence | discriminate | lia]. }
    split; [apply retained_signals|].
    split.
    { rewrite failure_types_eq. apply unique_from_spec. }
    split.
    { rewrite failure_signals_eq.
      etransitivity; [apply collect_signals_length | cbn; lia]. }
    split; [apply recommendation_node_length|].
    intros E. split; [apply recommendation_node_nil; now rewrite Hs5|].
    apply risk_of_no_failure. now rewrite Hs3.
  - eexists. split; [reflexivity|]. cbn.
    repeat split; try discriminate; try congruence; try constructor; try lia.
Qed.

(** X13. When the request passes precheck and none of the six detectors
    reports a detection, the run ends with no failure detected, no
    retained failure, risk score 0, category "low" and no recommendation,
    while the six signals are kept in [failure_signals]. *)
Theorem run_without_detection_has_zero_risk
    (settings : Config.Settings) (o : Orchestrator.Oracle)
    (question answer : string) (context : option string) (domain : string) :
  Precheck.out_precheck_passed
    (Precheck.precheck_node (Orchestrator.precheck_llm o)
       (Graph.create_initial_state question answer context domain)) = true ->
  (forall result, Orchestrator.hallucination_llm o = Llm.LlmParsed result ->
                  Llm.get (Hallucination.hallucination_detected result) false = false) ->
  State.detected (Orchestrator.logical_detector o) = false ->
  State.detected (Orchestrator.assumptions_detector o) = false ->
  State.detected (Orchestrator.overconfidence_detector o) = false ->
  State.detected (Orchestrator.scope_detector o) = false ->
  State.detected (Orchestrator.underspec_detector o) = false ->
  exists run : Orchestrator.Run,
    Orchestrator.run_analysis settings o question answer context domain = Some run /\
    Graph.failure_detected (Orchestrator.final_state run) = false /\
    Graph.detected_failures (Orchestrator.final_state run) = [] /\
    Graph.failure_types (Orchestrator.final_state run) = [] /\
    Graph.risk_score (Orchestrator.final_state run) == 0 /\
    Graph.risk_level (Orchestrator.final_state run) = "low"%string /\
    Graph.recommendations (Orchestrator.final_state run) = [] /\
    List.length (Graph.failure_signals (Orchestrator.final_state run)) = 6%nat.
Proof.
  intros Hpass Hh Hl Ha Ho Hsc Hu.
  pose proof (run_analysis_paths settings o question answer context domain) as Hrun.
  cbv zeta in Hrun. rewrite Hrun. clear Hrun.
  set (s0 := Orchestrator.run_node settings o Orchestrator.precheck _).
  assert (E0 : Graph.precheck_passed s0 = true) by exact Hpass.
  rewrite E0.
  eexists. split; [reflexivity|]. cbn [Orchestrator.final_state].
  destruct (full_path_results settings o s0)
    as (Hsig & Hdet & Hflag & Htypes & Hscore & Hlevel & Hs3 & s5 & Hrec & Hs5).
  assert (Hkept : filter (retained (Config.failure_confidence_threshold settings))
                    (Aggregation.collect_signals
                       (Aggregation.signal_slots (detected_state settings o s0))) = []).
  { apply filter_retained_nil. cbn.
    repeat constructor; try assumption.
    destruct (Orchestrator.hallucination_llm o) as [e| |result] eqn:El; cbn;
      [reflexivity | reflexivity | now apply Hh]. }
  assert (Hnone : Aggregation.out_detected_failures
                    (Aggregation.aggregation_node settings (detected_state settings o s0))
                  = []).
  { rewrite detected_failures_eq, Hkept. reflexivity. }
  rewrite Hsig, Hdet, Hflag, Htypes, Hscore, Hlevel, Hrec.
  rewrite failure_detected_eq, failure_types_eq, failure_signals_eq, Hnone, Hkept.
  split; [reflexivity|]. split; [reflexivity|]. split; [reflexivity|].
  destruct (risk_of_no_failure settings
              (Aggregation.merge (detected_state settings o s0)
                 (Aggregation.aggregation_node settings (detected_state settings o s0))))
    as [R0 Rl]; [now rewrite Hs3|].
  split; [exact R0|]. split; [exact Rl|].
  split; [apply recommendation_node_nil; now rewrite Hs5|].
  reflexivity.
Qed.

(** The question "What is 2+2?" with the answer "2+2 equals 4.", a model
    whose replies do not parse and detectors that find nothing. *)
Lemma run_without_detection_witness :
  exists run : Orchestrator.Run,
    Orchestrator.run_analysis Config.default_settings Examples.unparsable_oracle
      "What is 2+2?" "2+2 equals 4." None "general" = Some run /\
    Graph.failure_detected (Orchestrator.final_state run) = false /\
    Graph.risk_score (Orchestrator.final_state run) == 0 /\
    Graph.risk_level (Orchestrator.final_state run) = "low"%string.
Proof.
  assert (Hh : forall result,
             Orchestrator.hallucination_llm Examples.unparsable_oracle
             = Llm.LlmParsed result ->
             Llm.get (Hallucination.hallucination_detected result) false = false)
    by (intros result H; discriminate H).
  destruct (run_without_detection_has_zero_risk Config.default_settings
              Examples.unparsable_oracle "What is 2+2?" "2+2 equals 4." None "general"
              eq_refl Hh eq_refl eq_refl eq_refl eq_refl eq_refl)
    as (run & Hrun & Hflag & _ & _ & Hscore & Hlevel & _).
  exists run. auto.
Defined.

Section ErrorListFacts.
Import State Graph Orchestrator.

Lemma precheck_errors_cases (llm : Llm.outcome Precheck.Result) (state : AnalysisState) :
  Precheck.out_errors (Precheck.precheck_node llm state) = None \/
  exists e, Precheck.out_errors (Precheck.precheck_node llm state)
            = Some (errors state ++ [("precheck"%string, e)]).
Proof.
  unfold Precheck.precheck_node.
  destruct (Py.is_empty _); [now left|].
  destruct (Py.is_empty _); [now left|].
  destruct (_ && _); [now left|].
  destruct (_ && _); [now left|].
  destruct llm as [e| |result]; [right; now exists e | now left | now left].
Qed.

Lemma decomposition_errors_cases (llm : Llm.outcome Decomposition.Result)
    (state : AnalysisState) :
  (exists result, llm = Llm.LlmParsed result /\
     Decomposition.out_errors (Decomposition.decomposition_node llm state) = None) \/
  (exists e, (forall result, llm <> Llm.LlmParsed result) /\
     Decomposition.out_errors (Decomposition.decomposition_node llm state)
     = Some (errors state ++ [("decomposition"%string, e)])).
Proof.
  destruct llm as [e| |result].
  - right. exists e. split; [discriminate | reflexivity].
  - right. eexists. split; [discriminate | reflexivity].
  - left. now exists result.
Qed.
End ErrorListFacts.

(** X14. The node that merges the detectors returns, as [errors], the
    list read from the state followed by one entry of node
    "parallel_detectors" for each exception that escaped a detector, in
    the order of the detectors. The errors a detector recorded in its own
    dict are overwritten: the returned list does not depend on them. The
    key of a detector that returned a dict holds its signal, and the key
    of a detector whose exception escaped keeps the value of the state.
    When the six detectors return their dicts, the node is the step of
    the graph of this development. *)
Theorem escaped_detector_exceptions_are_recorded
    (state : Graph.AnalysisState) (h l a o s u : Detectors.gathered) :
  let next := Detectors.parallel_detectors_node state (gathered_results h l a o s u) in
  Graph.errors next
  = Graph.errors state
    ++ flat_map
         (fun result =>
            match result with
            | Detectors.Raised e => [("parallel_detectors"%string, e)]
            | Detectors.Returned _ _ => []
            end)
         [h; l; a; o; s; u] /\
  Graph.hallucination_signal next = slot_after h (Graph.hallucination_signal state) /\
  Graph.logical_signal next = slot_after l (Graph.logical_signal state) /\
  Graph.assumptions_signal next = slot_after a (Graph.assumptions_signal state) /\
  Graph.overconfidence_signal next = slot_after o (Graph.overconfidence_signal state) /\
  Graph.scope_signal next = slot_after s (Graph.scope_signal state) /\
  Graph.underspec_signal next = slot_after u (Graph.underspec_signal state) /\
  (forall (oracle : Orchestrator.Oracle)
          (el ea eo es eu : option (list (string * string))),
      Detectors.parallel_detectors_node state
        (gathered_results
           (Detectors.Returned
              (Hallucination.out_hallucination_signal
                 (Hallucination.hallucination_detector
                    (Orchestrator.hallucination_llm oracle) state))
              (Hallucination.out_errors
                 (Hallucination.hallucination_detector
                    (Orchestrator.hallucination_llm oracle) state)))
           (Detectors.Returned (Orchestrator.logical_detector oracle) el)
           (Detectors.Returned (Orchestrator.assumptions_detector oracle) ea)
           (Detectors.Returned (Orchestrator.overconfidence_detector oracle) eo)
           (Detectors.Returned (Orchestrator.scope_detector oracle) es)
           (Detectors.Returned (Orchestrator.underspec_detector oracle) eu))
      = Orchestrator.parallel_detectors_node state oracle) /\
  Graph.errors
    (Detectors.parallel_detectors_node
       (Graph.create_initial_state "What is the dose?" "Take two tablets a day."
          None "medical")
       (gathered_results
          (Detectors.Returned Hallucination._create_default_signal
             (Some [("hallucination_detector", "connection refused")]%string))
          (Detectors.Raised "'int' object is not iterable")
          (Detectors.Returned (Examples.signal "missing_assumptions" false 0 "low") None)
          (Detectors.Returned (Examples.signal "overconfidence" false 0 "low") None)
          (Detectors.Returned (Examples.signal "scope_violation" false 0 "low") None)
          (Detectors.Returned (Examples.signal "underspecification" false 0 "low") None)))
  = [("parallel_detectors", "'int' object is not iterable")]%string.
Proof.
  intros next. subst next.
  split.
  { unfold Detectors.parallel_detectors_node, Detectors.merge_results, gathered_results.
    cbn [fold_left flat_map Graph.errors].
    destruct h, l, a, o, s, u;
      cbn [Detectors.merge_step snd fst Detectors.merged_errors app];
      rewrite <- ?app_assoc; cbn [app]; rewrite ?app_nil_r; reflexivity. }
  do 6 (split; [destruct h, l, a, o, s, u; reflexivity|]).
  split; [|reflexivity].
  intros oracle el ea eo es eu. reflexivity.
Qed.

(** ** What the client raises and parses *)

Section ClientRaiseFacts.
Import Client.
Local Open Scope string_scope.

Lemma generate_single_attempt (timeout base_url : string) (backend : nat -> post_outcome) :
  generate timeout base_url backend
  = {| outcome := generate_body timeout base_url (backend 1%nat);
       attempts := 1; sleeps := [] |}.
Proof.
  unfold generate, retrying. cbn [Nat.sub retry_loop].
  destruct (generate_body timeout base_url (backend 1%nat)) as [v|e] eqn:E;
    [reflexivity|].
  rewrite (ollama_classes_not_retried e (generate_body_raises_ollama _ _ _ _ E)).
  reflexivity.
Qed.

Lemma after_first_absent (pattern s : string) :
  Py.contains pattern s = false -> after_first pattern s = None.
Proof.
  induction s as [|a s IH]; cbn [Py.contains after_first];
    destruct (prefix pattern _); try discriminate; auto.
Qed.

Lemma from_first_absent (c : ascii) (s : string) :
  occurs c s = false -> from_first c s = None.
Proof.
  induction s as [|a s IH]; cbn; [reflexivity|].
  destruct (Ascii.eqb a c); cbn; [discriminate | exact IH].
Qed.

End ClientRaiseFacts.

(** X15. [generate] returns the text of the first reply or raises one of
    the client's own exceptions, an instance of [OllamaError]: a timeout
    becomes [OllamaTimeoutError], a connection error
    [OllamaConnectionError], anything else [OllamaError]. An [httpx]
    exception or tenacity's [RetryError] never reaches the caller.
    [generate_structured] raises what [generate] raised. When [generate]
    returned a text, it raises only an exception other than
    [JSONDecodeError] that [json.loads] raised on the text, on its fenced
    group or on its brace span: it raises the one raised on the whole
    text, and it returns a result when none of the three calls raises. *)
Theorem generate_raises_only_client_errors
    (JSON : Type) (json_loads : string -> Client.loads JSON)
    (timeout base_url : string) (backend : nat -> Client.post_outcome) :
  let call := Client.outcome (Client.generate timeout base_url backend) in
  let structured := Client.generate_structured json_loads timeout base_url backend in
  (forall text, backend 1%nat = Client.Response text -> call = Client.Return text) /\
  (forall e, backend 1%nat = Client.PostRaises e ->
     exists e', call = Client.Raise e' /\
       Client.class e'
       = match Client.class e with
         | Client.HttpxTimeoutException => Client.OllamaTimeoutError
         | Client.HttpxConnectError => Client.OllamaConnectionError
         | _ => Client.OllamaError
         end) /\
  (forall e', call = Client.Raise e' ->
     Client.isinstance e' [Client.OllamaError] = true /\
     Client.isinstance e' [Client.HttpxTimeoutException; Client.HttpxConnectError;
                           Client.RetryError] = false) /\
  (forall e', call = Client.Raise e' -> structured = Client.Raise e') /\
  (forall text e', call = Client.Return text -> structured = Client.Raise e' ->
     exists tried,
       In (Some tried) [Some text; Client.fence_match text; Client.json_obj_match text] /\
       json_loads tried = Client.LoadsRaises e') /\
  (forall text e', call = Client.Return text ->
     json_loads text = Client.LoadsRaises e' -> structured = Client.Raise e') /\
  (forall text, call = Client.Return text ->
     (forall tried,
        In (Some tried) [Some text; Client.fence_match text; Client.json_obj_match text] ->
        forall e', json_loads tried <> Client.LoadsRaises e') ->
     exists r, structured = Client.Return r).
Proof.
  intros call structured. subst call structured.
  unfold Client.generate_structured.
  rewrite generate_single_attempt. cbn [Client.outcome].
  split; [intros text ->; reflexivity|].
  split.
  { intros e ->. unfold Client.generate_body, Client.isinstance.
    destruct e as [[] m]; cbn; eexists; split; reflexivity. }
  split.
  { intros e' H. apply generate_body_raises_ollama in H.
    unfold Client.isinstance. destruct H as [H|[H|H]]; rewrite H; split; reflexivity. }
  split; [intros e' ->; reflexivity|].
  assert (Hraise : forall text e',
            Client.parse_response json_loads text = Client.Raise e' ->
            exists tried,
              In (Some tried)
                 [Some text; Client.fence_match text; Client.json_obj_match text] /\
              json_loads tried = Client.LoadsRaises e').
  { intros text e'. unfold Client.parse_response, Client.try_group.
    destruct (json_loads text) as [v| |e0] eqn:Hw; [discriminate| |].
    - destruct (Client.fence_match text) as [g|] eqn:Hf.
      + destruct (json_loads g) as [v| |e1] eqn:Hg; [discriminate| |].
        * destruct (Client.json_obj_match text) as [b|] eqn:Ho; [|discriminate].
          destruct (json_loads b) as [v| |e2] eqn:Hb; try discriminate.
          intros [= <-]. exists b. split; [cbn; tauto | exact Hb].
        * intros [= <-]. exists g. split; [cbn; tauto | exact Hg].
      + destruct (Client.json_obj_match text) as [b|] eqn:Ho; [|discriminate].
        destruct (json_loads b) as [v| |e2] eqn:Hb; try discriminate.
        intros [= <-]. exists b. split; [cbn; tauto | exact Hb].
    - intros [= <-]. exists text. split; [now left | exact Hw]. }
  split; [intros text e' ->; apply Hraise|].
  split.
  { intros text e' -> Hw. unfold Client.parse_response. now rewrite Hw. }
  intros text -> Hno.
  destruct (Client.parse_response json_loads text) as [r|e'] eqn:E; [now exists r|].
  destruct (Hraise text e' E) as (tried & Hin & Ht).
  exfalso. exact (Hno tried Hin e' Ht).
Qed.

(** X16. A reply that holds no fence and no opening brace is parsed as a
    whole or not at all: [generate_structured] returns the value of the
    whole text when it is valid JSON, and otherwise the parse-error result
    carrying the reply unchanged; an exception of [json.loads] other than
    [JSONDecodeError] is raised as it is. *)
Theorem plain_reply_parses_whole_or_not_at_all
    (JSON : Type) (json_loads : string -> Client.loads JSON) (response : string) :
  Py.contains Client.fence response = false ->
  occurs "{" response = false ->
  Client.parse_response json_loads response
  = match json_loads response with
    | Client.Loaded value => Client.Return (Client.Parsed value)
    | Client.JSONDecodeError => Client.Return (Client.ParseError response)
    | Client.LoadsRaises e => Client.Raise e
    end.
Proof.
  intros Hf Hb. unfold Client.parse_response, Client.fence_match, Client.json_obj_match.
  rewrite (after_first_absent _ _ Hf), (from_first_absent _ _ Hb).
  destruct (json_loads response); reflexivity.
Qed.

(** A refusal in prose is returned as a parse error with its text. *)
Lemma plain_reply_witness :
  Client.parse_response loads_empty_object "I am sorry, I cannot produce JSON."
  = Client.Return (Client.ParseError "I am sorry, I cannot produce JSON.").
Proof.
  exact (plain_reply_parses_whole_or_not_at_all unit loads_empty_object
           "I am sorry, I cannot produce JSON." eq_refl eq_refl).
Defined.

(** X17. The fenced group stops at the nearest closing fence: the text
    handed to the parser at step (b) never holds a fence itself, so of
    several fenced blocks only the first is tried. *)
Theorem fenced_group_holds_no_fence (response g : string) :
  Client.fence_match response = Some g ->
  Py.contains Client.fence g = false.
Proof.
  unfold Client.fence_match.
  destruct (Client.after_first Client.fence response) as [rest|]; [|discriminate].
  apply until_fence_nearest.
Qed.

(** A reply with two fenced blocks: the group is the first block. *)
Lemma fenced_group_witness :
  Client.fence_match "```json {}``` or ```json []```" = Some "{}"%string /\
  Py.contains Client.fence "{}" = false.
Proof.
  split; [reflexivity|].
  apply (fenced_group_holds_no_fence "```json {}``` or ```json []```" "{}").
  reflexivity.
Defined.

(** ** More on the decomposition *)

Section DecompositionMore.
Import State Graph Llm Decomposition.
Local Open Scope string_scope.

Lemma str_of_nat_inj (n m : nat) : Py.str_of_nat n = Py.str_of_nat m -> n = m.
Proof.
  unfold Py.str_of_nat. intros H.
  apply Unsigned.to_uint_inj.
  assert (E : Some (Nat.to_uint n) = Some (Nat.to_uint m))
    by (rewrite <- !NilEmpty.usu; now rewrite H).
  now injection E.
Qed.

Lemma lstrip_length (s : string) : (String.length (Py.lstrip s) <= String.length s)%nat.
Proof.
  induction s as [|c s IH]; cbn; [lia|]. destruct (Py.is_space c); cbn; lia.
Qed.

Lemma rstrip_length (s : string) : (String.length (Py.rstrip s) <= String.length s)%nat.
Proof.
  induction s as [|c s IH]; cbn; [lia|].
  destruct (Py.rstrip s); [destruct (Py.is_space c)|]; cbn in *; lia.
Qed.

Lemma strip_length (s : string) : (String.length (Py.strip s) <= String.length s)%nat.
Proof.
  unfold Py.strip. etransitivity; [apply rstrip_length | apply lstrip_length].
Qed.

Lemma joined_pieces_length (b : bool) (pieces : list string) (text : string) :
  joined b pieces text ->
  Forall (fun piece => (String.length piece <= String.length text)%nat) pieces.
Proof.
  induction 1 as [b piece | b piece blanks pieces text He Hn Hs Hj IH].
  - constructor; [lia | constructor].
  - constructor.
    + rewrite !length_append. lia.
    + eapply Forall_impl; [|exact IH]. intros p Hp. cbn beta in *.
      rewrite !length_append. lia.
Qed.

(** A claim made by the loop from index [i] on carries the number and the
    stripped text of its sentence. *)
Lemma claims_from_numbered (i : nat) (sentences : list string) :
  Forall (fun c => exists k sentence,
                     (i <= k)%nat /\
                     nth_error sentences (k - i) = Some sentence /\
                     claim_id c = "c" ++ Py.str_of_nat (k + 1) /\
                     claim_text c = Py.strip sentence)
         (claims_from i sentences).
Proof.
  revert i; induction sentences as [|s rest IH]; intros i; cbn [claims_from];
    [constructor|].
  assert (Hrest : Forall (fun c => exists k sentence,
                     (i <= k)%nat /\
                     nth_error (s :: rest) (k - i) = Some sentence /\
                     claim_id c = "c" ++ Py.str_of_nat (k + 1) /\
                     claim_text c = Py.strip sentence)
                    (claims_from (S i) rest)).
  { eapply Forall_impl; [|apply IH].
    intros c (k & sentence & Hk & Hn & Hid & Ht).
    exists k, sentence. repeat split; auto; [lia|].
    replace (k - i)%nat with (S (k - S i)) by lia. exact Hn. }
  destruct (10 <? String.length (Py.strip s))%nat; [|exact Hrest].
  constructor; [|exact Hrest].
  exists i, s. rewrite Nat.sub_diag. repeat split. lia.
Qed.

Lemma claims_from_ids_nodup (i : nat) (sentences : list string) :
  NoDup (map claim_id (claims_from i sentences)).
Proof.
  revert i; induction sentences as [|s rest IH]; intros i; cbn [claims_from];
    [constructor|].
  destruct (10 <? String.length (Py.strip s))%nat; [|apply IH].
  cbn [map claim_id]. constructor; [|apply IH].
  rewrite in_map_iff. intros (c & Hid & Hin).
  pose proof (claims_from_numbered (S i) rest) as F.
  rewrite Forall_forall in F. destruct (F c Hin) as (k & _ & Hk & _ & Hc & _).
  rewrite Hc in Hid. injection Hid as Hid. apply str_of_nat_inj in Hid. lia.
Qed.

Lemma NoDup_firstn' {A : Type} (n : nat) (l : list A) : NoDup l -> NoDup (firstn n l).
Proof.
  intros H. rewrite <- (firstn_skipn n l) in H. now apply NoDup_app_remove_r in H.
Qed.
End DecompositionMore.

(** X18. The claims of the fallback carry the numbers of their sentences:
    the claim with id "c" followed by k holds the stripped text of the k-th
    sentence of the split, so skipped sentences leave gaps in the
    numbering, and no two claims share an id. *)
Theorem fallback_claim_ids_number_the_sentences (answer : string) :
  let sentences := Decomposition.split_sentences (Py.strip answer) in
  let claims := Decomposition._fallback_claim_extraction answer in
  NoDup (map State.claim_id claims) /\
  Forall (fun c => exists k sentence,
                     nth_error sentences k = Some sentence /\
                     State.claim_id c = ("c" ++ Py.str_of_nat (k + 1))%string /\
                     State.claim_text c = Py.strip sentence)
         claims.
Proof.
  intros sentences claims. subst claims. unfold Decomposition._fallback_claim_extraction.
  fold sentences. split.
  - rewrite <- firstn_map. apply NoDup_firstn', claims_from_ids_nodup.
  - apply Forall_firstn'. eapply Forall_impl; [|apply claims_from_numbered].
    intros c (k & sentence & _ & Hn & Hid & Ht). rewrite Nat.sub_0_r in Hn.
    now exists k, sentence.
Qed.

(** X19. An answer of at most 10 characters once stripped, the empty and
    the blank answer among them, gives the fallback no claim at all. *)
Theorem short_answer_has_no_fallback_claim (answer : string) :
  (String.length (Py.strip answer) <= 10)%nat ->
  Decomposition._fallback_claim_extraction answer = [].
Proof.
  intros Hlen. unfold Decomposition._fallback_claim_extraction.
  assert (Hnone : Decomposition.claims_from 0
                    (Decomposition.split_sentences (Py.strip answer)) = []).
  { destruct (Decomposition.claims_from 0 _) eqn:E; [reflexivity|]. exfalso.
    assert (Hne : Decomposition.claims_from 0
                    (Decomposition.split_sentences (Py.strip answer)) <> [])
      by (rewrite E; discriminate).
    apply claims_from_nonempty in Hne. destruct Hne as (sentence & Hin & Hl).
    pose proof (joined_pieces_length _ _ _ (split_sentences_joined (Py.strip answer))) as F.
    rewrite Forall_forall in F. specialize (F sentence Hin).
    pose proof (strip_length sentence). lia. }
  now rewrite Hnone.
Qed.

(** A blank answer. *)
Lemma short_answer_witness : Decomposition._fallback_claim_extraction "   " = [].
Proof. apply short_answer_has_no_fallback_claim. vm_compute. lia. Defined.

(** X20. When the model's output parses, the decomposer records no error
    and keeps the reasoning chain as given. The claims are the model's, one
    per element and in the same order, unless the model gave none, in
    which case they are the claims of the sentence split. The assumptions
    hold every overall assumption and every assumption of a claim, each
    once. *)
Theorem parsed_decomposition_collects_assumptions_once
    (result : Decomposition.Result) (state : Graph.AnalysisState) :
  let u := Decomposition.decomposition_node (Llm.LlmParsed result) state in
  let raw := Llm.get (Decomposition.result_claims result) [] in
  Decomposition.out_errors u = None /\
  Decomposition.out_reasoning_steps u = Llm.get (Decomposition.reasoning_chain result) [] /\
  (raw = [] ->
   Decomposition.out_claims u
   = Decomposition._fallback_claim_extraction (Graph.answer state)) /\
  (raw <> [] ->
   map State.claim_text (Decomposition.out_claims u)
   = map (fun c => Llm.get (Decomposition.raw_claim_text c) ""%string) raw /\
   map State.claim_type (Decomposition.out_claims u)
   = map (fun c => Llm.get (Decomposition.raw_claim_type c) "factual"%string) raw) /\
  NoDup (Decomposition.out_assumptions u) /\
  (forall a, In a (Decomposition.out_assumptions u) <->
     In a (Llm.get (Decomposition.overall_assumptions result) []) \/
     exists c, In c (Decomposition.out_claims u) /\ In a (State.implicit_assumptions c)).
Proof.
  intros u raw. subst u. cbn [Decomposition.decomposition_node].
  fold raw.
  assert (Hmap : forall i l,
            map State.claim_text (Decomposition.claims_of_raw i l)
            = map (fun c => Llm.get (Decomposition.raw_claim_text c) ""%string) l /\
            map State.claim_type (Decomposition.claims_of_raw i l)
            = map (fun c => Llm.get (Decomposition.raw_claim_type c) "factual"%string) l).
  { intros i l; revert i; induction l as [|c l IH]; intros i; cbn; [now split|].
    destruct (IH (S i)) as [-> ->]. now split. }
  cbn [Decomposition.out_errors Decomposition.out_reasoning_steps
       Decomposition.out_claims Decomposition.out_assumptions].
  split; [reflexivity|]. split; [reflexivity|].
  split; [intros ->; reflexivity|].
  split.
  { intros Hne. destruct raw as [|c l]; [congruence|]. cbn [Decomposition.claims_of_raw].
    apply (Hmap 0%nat (c :: l)). }
  split; [apply NoDup_nodup|].
  intros a. unfold Decomposition.dedup. rewrite nodup_In, in_app_iff, in_flat_map.
  reflexivity.
Qed.

(** ** The entries taken from the table of recommendations *)

Section RecommendationMore.
Import State Graph Llm Recommendation.

(** The keys of [RECOMMENDATIONS_DB]. *)
Lemma block_entries (t : string) (e : Entry) :
  In e (firstn 2 (Py.dict_get RECOMMENDATIONS_DB t [])) ->
  (entry_priority e = 1 \/ entry_priority e = 2)%Z /\
  In t (map fst RECOMMENDATIONS_DB).
Proof.
  unfold RECOMMENDATIONS_DB. cbn [Py.dict_get map fst].
  repeat match goal with
         | |- context [String.eqb ?k t] =>
             let E := fresh "E" in
             destruct (String.eqb k t) eqn:E;
             [apply String.eqb_eq in E; subst t; cbn [firstn In];
              intros [<-|[<-|[]]]; cbn; split; auto; tauto|]
         end.
  intros [].
Qed.

Lemma block_length (t : string) :
  List.length (block t)
  = if existsb (String.eqb t) (map fst RECOMMENDATIONS_DB) then 2%nat else 0%nat.
Proof.
  unfold block. rewrite length_map.
  unfold RECOMMENDATIONS_DB. cbn [Py.dict_get map fst existsb].
  rewrite !(String.eqb_sym t).
  repeat match goal with
         | |- context [String.eqb ?k t] =>
             destruct (String.eqb k t); [reflexivity|]
         end.
  reflexivity.
Qed.

Lemma numbered_In (k : nat) (l : list (string * Entry)) (r : RecommendationData) :
  In r (numbered k l) -> exists i t e, In (t, e) l /\ r = make i t e.
Proof.
  revert k; induction l as [|[t e] l IH]; intros k; cbn [numbered In]; [tauto|].
  intros [<-|H].
  - exists k, t, e. split; [now left | reflexivity].
  - destruct (IH _ H) as (i & t' & e' & Hin & ->).
    exists i, t', e'. split; [now right | reflexivity].
Qed.

Lemma flat_map_block_length (ts : list string) :
  List.length (flat_map block ts)
  = (2 * List.length
           (filter (fun t => existsb (String.eqb t) (map fst RECOMMENDATIONS_DB)) ts))%nat.
Proof.
  induction ts as [|t ts IH]; [reflexivity|].
  cbn [flat_map filter]. rewrite length_app, IH, block_length.
  destruct (existsb _ _); cbn [List.length]; lia.
Qed.

Lemma types_in_order_spec (failures : list FailureSignal) :
  NoDup (types_in_order failures) /\
  (forall t, In t (types_in_order failures) <->
             exists f, In f failures /\ failure_type f = t).
Proof.
  destruct (unique_from_spec [] (map failure_type (sorted_failures failures)))
    as [Hn Hi].
  split; [exact Hn|]. intros t. unfold types_in_order. rewrite Hi, in_map_iff.
  unfold sorted_failures. split.
  - intros [(f & <- & Hf) _]. exists f. split; [|reflexivity].
    now apply sort_by_In in Hf.
  - intros (f & Hf & <-). split; [|intros []]. exists f. split; [reflexivity|].
    now apply sort_by_In.
Qed.

(** A list sorted over the keys 1 and 2 is its entries of key 1 followed
    by its entries of key 2. *)
Lemma sorted_two_keys (l : list RecommendationData) :
  Sorted by_priority l ->
  Forall (fun r => (priority r = 1 \/ priority r = 2)%Z) l ->
  l = filter (fun r => (priority r =? 1)%Z) l ++ filter (fun r => (priority r =? 2)%Z) l.
Proof.
  intros Hs Hk.
  apply Sorted_StronglySorted in Hs;
    [|intros a b c; unfold by_priority; lia].
  induction Hs as [|a l Hs IH Hall]; [reflexivity|].
  inversion Hk as [|a' l' Ha Hl]; subst.
  cbn [filter]. destruct Ha as [Ha|Ha]; rewrite Ha; cbn [Z.eqb Pos.eqb app].
  - f_equal. now apply IH.
  - assert (E1 : filter (fun r => (priority r =? 1)%Z) l = []).
    { clear IH Hs Hk. induction l as [|b l IHl]; [reflexivity|].
      inversion Hall as [|b' l'' Hb Hrest]; subst.
      inversion Hl as [|b' l'' Hb2 Hl2]; subst.
      unfold by_priority in Hb. cbn [filter].
      assert (Eb : (priority b =? 1)%Z = false) by (apply Z.eqb_neq; lia).
      rewrite Eb. apply IHl; assumption. }
    assert (E2 : filter (fun r => (priority r =? 2)%Z) l = l).
    { clear IH Hs E1 Hk. induction l as [|b l IHl]; [reflexivity|].
      inversion Hall as [|b' l'' Hb Hrest]; subst.
      inversion Hl as [|b' l'' Hb2 Hl2]; subst.
      unfold by_priority in Hb. cbn [filter].
      assert (Eb : (priority b =? 2)%Z = true) by (apply Z.eqb_eq; lia).
      rewrite Eb. f_equal. apply IHl; assumption. }
    rewrite E1, E2. reflexivity.
Qed.

Lemma predefined_keys (failures : list FailureSignal) :
  Forall (fun r => (priority r = 1 \/ priority r = 2)%Z) (predefined failures).
Proof.
  rewrite predefined_eq. apply Forall_forall. intros r Hr.
  apply numbered_In in Hr. destruct Hr as (i & t & e & Hin & ->).
  apply in_flat_map in Hin. destruct Hin as (t' & _ & Hb).
  unfold block in Hb. apply in_map_iff in Hb. destruct Hb as (e' & [= <- <-] & He).
  apply (block_entries t' e'). exact He.
Qed.

End RecommendationMore.

(** X21. The recommendations taken from the static table are the first
    and the second entry of each detected failure type that the table
    knows: each has priority 1 or 2 (the third entries of the table are
    never used), carries an implementation hint and names a failure type
    that is a key of the table and the type of a retained failure. Their
    number is twice the number of distinct retained types that are keys of
    the table, so at most 12; their ids are pairwise distinct; and the sort
    by priority puts the entries of priority 1 first and those of priority
    2 after them, each group in the order of creation. *)
Theorem table_recommendations_are_first_and_second_entries
    (failures : list State.FailureSignal) :
  let base := Recommendation.predefined failures in
  let known t := existsb (String.eqb t) (map fst Recommendation.RECOMMENDATIONS_DB) in
  Forall (fun r =>
            (State.priority r = 1 \/ State.priority r = 2)%Z /\
            State.implementation_hint r <> None /\
            In (State.rec_failure_type r) (map fst Recommendation.RECOMMENDATIONS_DB) /\
            exists f, In f failures /\ State.failure_type f = State.rec_failure_type r)
         base /\
  List.length base = (2 * List.length (filter known (types_in_order failures)))%nat /\
  (List.length base <= 12)%nat /\
  NoDup (map State.recommendation_id base) /\
  Py.sort_by State.priority Z.leb base
  = filter (fun r => (State.priority r =? 1)%Z) base
    ++ filter (fun r => (State.priority r =? 2)%Z) base.
Proof.
  intros base known.
  destruct (types_in_order_spec failures) as [Hnodup Hin].
  assert (Hlen : List.length base
                 = (2 * List.length (filter known (types_in_order failures)))%nat).
  { subst base. rewrite predefined_eq, numbered_length. apply flat_map_block_length. }
  split; [|split; [exact Hlen|split; [|split]]].
  - subst base. rewrite predefined_eq. apply Forall_forall. intros r Hr.
    apply numbered_In in Hr. destruct Hr as (i & t & e & Hb & ->).
    apply in_flat_map in Hb. destruct Hb as (t' & Ht' & Hb).
    unfold block in Hb. apply in_map_iff in Hb. destruct Hb as (e' & [= <- <-] & He).
    destruct (block_entries t' e' He) as [Hp Hk].
    cbn [make State.priority State.implementation_hint State.rec_failure_type].
    split; [exact Hp|]. split; [discriminate|]. split; [exact Hk|].
    now apply Hin.
  - rewrite Hlen.
    assert (H6 : (List.length (filter known (types_in_order failures))
                  <= List.length (map fst Recommendation.RECOMMENDATIONS_DB))%nat).
    { apply NoDup_incl_length; [now apply NoDup_filter|].
      intros t Ht. apply filter_In in Ht. destruct Ht as [_ Ht].
      subst known. cbn beta in Ht. apply existsb_exists in Ht.
      destruct Ht as (k & Hk & E). apply String.eqb_eq in E. now subst. }
    cbn [Recommendation.RECOMMENDATIONS_DB map List.length] in H6. lia.
  - subst base. rewrite predefined_eq, numbered_ids.
    apply Finite.Injective_map_NoDup; [|apply seq_NoDup].
    intros a b E. injection E as E. now apply str_of_nat_inj.
  - assert (H1 : filter (fun r => (State.priority r =? 1)%Z)
                   (Py.sort_by State.priority Z.leb base)
                 = filter (fun r => (State.priority r =? 1)%Z) base).
    { apply (sort_by_filter_same State.priority Z.leb (fun k => (k =? 1)%Z)).
      intros a b Ha Hb. apply Z.eqb_eq in Ha, Hb. apply Z.leb_le. lia. }
    assert (H2 : filter (fun r => (State.priority r =? 2)%Z)
                   (Py.sort_by State.priority Z.leb base)
                 = filter (fun r => (State.priority r =? 2)%Z) base).
    { apply (sort_by_filter_same State.priority Z.leb (fun k => (k =? 2)%Z)).
      intros a b Ha Hb. apply Z.eqb_eq in Ha, Hb. apply Z.leb_le. lia. }
    rewrite <- H1, <- H2. apply sorted_two_keys.
    + apply sorted_predefined.
    + apply Forall_forall. intros r Hr. apply sort_by_In in Hr.
      revert r Hr. apply Forall_forall. apply predefined_keys.
Qed.



(** ** Requests accepted by the schema *)

Section RequestFacts.
Import Graph.

Lemma lstrip_head (s : string) :
  match Py.lstrip s with
  | EmptyString => True
  | String c _ => Py.is_space c = false
  end.
Proof.
  induction s as [|c s IH]; cbn [Py.lstrip]; [exact I|].
  destruct (Py.is_space c) eqn:E; [exact IH | exact E].
Qed.

Lemma rstrip_cons (c : ascii) (s : string) :
  Py.rstrip (String c s)
  = match Py.rstrip s with
    | EmptyString => if Py.is_space c then EmptyString else String c EmptyString
    | kept => String c kept
    end.
Proof. reflexivity. Qed.

Lemma rstrip_idem (s : string) : Py.rstrip (Py.rstrip s) = Py.rstrip s.
Proof.
  induction s as [|c s IH]; [reflexivity|].
  rewrite (rstrip_cons c s). destruct (Py.rstrip s) as [|k kept] eqn:E.
  - destruct (Py.is_space c) eqn:Ec; [reflexivity|].
    rewrite rstrip_cons. cbn [Py.rstrip]. now rewrite Ec.
  - rewrite rstrip_cons, IH. reflexivity.
Qed.

Lemma rstrip_keeps_head (c : ascii) (s : string) :
  Py.is_space c = false -> exists kept, Py.rstrip (String c s) = String c kept.
Proof.
  intros Ec. rewrite rstrip_cons. destruct (Py.rstrip s) as [|k kept].
  - rewrite Ec. now exists EmptyString.
  - now exists (String k kept).
Qed.

Lemma strip_idem (s : string) : Py.strip (Py.strip s) = Py.strip s.
Proof.
  unfold Py.strip. pose proof (lstrip_head s) as H.
  destruct (Py.lstrip s) as [|c rest]; [reflexivity|].
  destruct (rstrip_keeps_head c rest H) as (kept & E).
  rewrite E. cbn [Py.lstrip]. rewrite H, <- E. apply rstrip_idem.
Qed.

Lemma is_empty_false (s : string) : Py.is_empty s = false <-> s <> EmptyString.
Proof. destruct s; cbn; split; congruence. Qed.

Lemma question_field_ok (raw v : string) :
  Requests.question_field raw = inl v ->
  v = Py.strip raw /\ Py.is_empty (Py.strip v) = false /\
  (N.of_nat (String.length raw) <= 10000)%N.
Proof.
  unfold Requests.question_field, Requests.constrained_str,
    Requests.validate_question_not_empty, Requests.strip_whitespace.
  destruct (N.of_nat (String.length raw) <? 1)%N; [discriminate|].
  destruct (10000 <? N.of_nat (String.length raw))%N eqn:El; [discriminate|].
  destruct (Py.is_empty (Py.strip (Py.strip raw))) eqn:E; [discriminate|].
  intros [= <-]. split; [reflexivity|]. split; [exact E|].
  now apply N.ltb_ge in El.
Qed.

Lemma llm_answer_field_ok (raw v : string) :
  Requests.llm_answer_field raw = inl v ->
  v = Py.strip raw /\ Py.is_empty (Py.strip v) = false /\
  (N.of_nat (String.length raw) <= 50000)%N.
Proof.
  unfold Requests.llm_answer_field, Requests.constrained_str,
    Requests.validate_answer_not_empty, Requests.strip_whitespace.
  destruct (N.of_nat (String.length raw) <? 1)%N; [discriminate|].
  destruct (50000 <? N.of_nat (String.length raw))%N eqn:El; [discriminate|].
  destruct (Py.is_empty (Py.strip (Py.strip raw))) eqn:E; [discriminate|].
  intros [= <-]. split; [reflexivity|]. split; [exact E|].
  now apply N.ltb_ge in El.
Qed.

Lemma precheck_reason_of_nonempty (llm : Llm.outcome Precheck.Result)
    (state : AnalysisState) (r : string) :
  Py.is_empty (Py.strip (question state)) = false ->
  Py.is_empty (Py.strip (answer state)) = false ->
  Precheck.out_precheck_failure_reason (Precheck.precheck_node llm state) = Some r ->
  r = "Answer appears to be an error message"%string \/
  exists result, llm = Llm.LlmParsed result /\ Precheck.result_reason result = Some r.
Proof.
  intros Hq Ha. unfold Precheck.precheck_node. rewrite Hq, Ha.
  destruct (_ && _); [discriminate|].
  destruct (_ && _); [cbn; intros [= <-]; now left|].
  destruct llm as [e| |result]; cbn; [discriminate | discriminate |].
  destruct (negb _); [|discriminate].
  intros H. right. now exists result.
Qed.

Lemma domain_lookup (settings : Config.Settings) (d : Requests.Domain) :
  Py.dict_get (Config.domain_multipliers settings) (Requests.value d) 1
  = multiplier_of settings d.
Proof. destruct d; reflexivity. Qed.
End RequestFacts.

(** X23. A request that the schema accepted is never rejected by precheck
    for being empty. The validators keep the stripped question and answer,
    refuse those that are empty once stripped, and stripping again changes
    nothing; so the run on an accepted request skips both emptiness guards
    of precheck: when the run ends with a failure reason, the reason is
    "Answer appears to be an error message" or the reason the model gave.
    The domain of an accepted request is one of the five configured ones:
    on the full path its multiplier is the configured value, never the
    default of the lookup. *)
Theorem accepted_request_is_never_rejected_as_empty
    (settings : Config.Settings) (o : Orchestrator.Oracle)
    (raw_question raw_answer : string) (request : Requests.AnalysisRequest) :
  Requests.question_field raw_question = inl (Requests.question request) ->
  Requests.llm_answer_field raw_answer = inl (Requests.llm_answer request) ->
  Requests.question request = Py.strip raw_question /\
  Requests.llm_answer request = Py.strip raw_answer /\
  Py.strip (Requests.question request) = Requests.question request /\
  Py.strip (Requests.llm_answer request) = Requests.llm_answer request /\
  Requests.question request <> ""%string /\
  Requests.llm_answer request <> ""%string /\
  exists run : Orchestrator.Run,
    Orchestrator.run_analysis settings o
      (Requests.question request) (Requests.llm_answer request)
      (Requests.context request) (Requests.value (Requests.domain request)) = Some run /\
    Service.analyze settings o request
    = Some (Service._build_response (Orchestrator.final_state run)) /\
    (forall r, Graph.precheck_failure_reason (Orchestrator.final_state run) = Some r ->
       r = "Answer appears to be an error message"%string \/
       exists result, Orchestrator.precheck_llm o = Llm.LlmParsed result /\
                      Precheck.result_reason result = Some r) /\
    (Graph.precheck_passed (Orchestrator.final_state run) = true ->
     Graph.domain_multiplier (Orchestrator.final_state run)
     = multiplier_of settings (Requests.domain request)).
Proof.
  intros Hq Ha.
  destruct (question_field_ok _ _ Hq) as (Eq & Nq & _).
  destruct (llm_answer_field_ok _ _ Ha) as (Ea & Na & _).
  assert (Sq : Py.strip (Requests.question request) = Requests.question request)
    by (rewrite Eq; apply strip_idem).
  assert (Sa : Py.strip (Requests.llm_answer request) = Requests.llm_answer request)
    by (rewrite Ea; apply strip_idem).
  split; [exact Eq|]. split; [exact Ea|]. split; [exact Sq|]. split; [exact Sa|].
  split; [apply is_empty_false; now rewrite <- Sq|].
  split; [apply is_empty_false; now rewrite <- Sa|].
  unfold Service.analyze.
  pose proof (run_analysis_paths settings o (Requests.question request)
                (Requests.llm_answer request) (Requests.context request)
                (Requests.value (Requests.domain request))) as Hrun.
  cbv zeta in Hrun. rewrite Hrun. clear Hrun.
  set (s := Graph.create_initial_state _ _ _ _).
  assert (Hreason : forall r,
            Graph.precheck_failure_reason
              (Orchestrator.run_node settings o Orchestrator.precheck s) = Some r ->
            r = "Answer appears to be an error message"%string \/
            exists result, Orchestrator.precheck_llm o = Llm.LlmParsed result /\
                           Precheck.result_reason result = Some r).
  { intros r. cbn [Orchestrator.run_node Precheck.merge Graph.precheck_failure_reason].
    apply precheck_reason_of_nonempty; [exact Nq | exact Na]. }
  destruct (Graph.precheck_passed
              (Orchestrator.run_node settings o Orchestrator.precheck s)) eqn:E.
  - eexists. split; [reflexivity|]. split; [reflexivity|].
    cbn [Orchestrator.final_state]. split; [exact Hreason|].
    intros _.
    change (Graph.domain_multiplier
              (full_path settings o
                 (Orchestrator.run_node settings o Orchestrator.precheck s)))
      with (RiskScoring.out_domain_multiplier
              (RiskScoring.risk_scoring_node settings
                 (Orchestrator.run_node settings o Orchestrator.aggregation
                    (detected_state settings o
                       (Orchestrator.run_node settings o Orchestrator.precheck s))))).
    rewrite domain_multiplier_eq. apply domain_lookup.
  - eexists. split; [reflexivity|]. split; [reflexivity|].
    cbn [Orchestrator.final_state]. split; [exact Hreason|].
    cbn [Orchestrator.early_exit_node Graph.precheck_passed]. congruence.
Qed.

(** The question " What is the dose? " and the answer "Take two tablets."
    are accepted, stripped, and the run on them is not rejected. *)
Lemma accepted_request_witness :
  exists run : Orchestrator.Run,
    Orchestrator.run_analysis Config.default_settings Examples.unparsable_oracle
      "What is the dose?" "Take two tablets." None "medical" = Some run /\
    Graph.precheck_passed (Orchestrator.final_state run) = true /\
    Graph.domain_multiplier (Orchestrator.final_state run) = 2.
Proof.
  destruct (accepted_request_is_never_rejected_as_empty
              Config.default_settings Examples.unparsable_oracle
              " What is the dose? " "Take two tablets."
              {| Requests.question := "What is the dose?";
                 Requests.llm_answer := "Take two tablets.";
                 Requests.context := None;
                 Requests.domain := Requests.MEDICAL |} eq_refl eq_refl)
    as (_ & _ & _ & _ & _ & _ & run & Hrun & _ & _ & Hm).
  exists run. split; [exact Hrun|].
  assert (Hp : Graph.precheck_passed (Orchestrator.final_state run) = true).
  { vm_compute in Hrun. injection Hrun as <-. reflexivity. }
  split; [exact Hp | exact (Hm Hp)].
Defined.

(** ** The explanation node *)

Section ExplanationFacts.

Lemma append_nonempty_r (s1 s2 : string) :
  s2 <> EmptyString -> (s1 ++ s2)%string <> EmptyString.
Proof. destruct s1; cbn; [auto | discriminate]. Qed.

Lemma explained_nonempty (summary rest : string) :
  (summary ++ Explanation.blank_line ++ rest)%string <> EmptyString.
Proof. apply append_nonempty_r. discriminate. Qed.
End ExplanationFacts.

(** X24. On a state whose values have their declared types, the
    explanation the node returns is a text that is not empty. With no
    retained failure it is the fixed no-failure text, whatever the model
    would answer, and no error is recorded. With retained
    failures, a model call that raises or whose output does not parse
    gives the same fallback text as summary, detailed explanation and
    explanation, and the retained failure types as key findings; an error
    entry (node "explanation") is recorded only when the call raised. When
    the parsed output has no detailed explanation and no impact, the
    summary is used twice. Written over the state, the update is the step
    of the graph whose text and error are those of the update. *)
Theorem explanation_node_falls_back_to_fixed_texts
    (format_2f : Q -> string) (llm : Llm.outcome Explanation.Result)
    (state : Graph.AnalysisState) :
  let u := Explanation.explanation_node format_2f llm state in
  let fallback :=
    Explanation._generate_fallback_explanation format_2f
      (Graph.detected_failures state) (Graph.risk_score state)
      (Graph.risk_level state) in
  Explanation.out_explanation u <> ""%string /\
  (Graph.detected_failures state = [] ->
   (forall llm', Explanation.explanation_node format_2f llm' state = u) /\
   Explanation.out_explanation u
   = Explanation._generate_no_failure_explanation format_2f
       (Graph.risk_score state) (Graph.risk_level state) /\
   Explanation.out_errors u = None) /\
  (Graph.detected_failures state <> [] ->
   (forall result, llm <> Llm.LlmParsed result) ->
   Explanation.out_explanation u = fallback /\
   Explanation.out_explanation_summary u = fallback /\
   Explanation.out_detailed_explanation u = fallback /\
   Explanation.out_key_findings u
   = map State.failure_type (Graph.detected_failures state)) /\
  (forall result,
     Graph.detected_failures state <> [] -> llm = Llm.LlmParsed result ->
     Explanation.detailed_explanation result = None ->
     Explanation.impact_assessment result = None ->
     Explanation.out_explanation u
     = (Llm.get (Explanation.summary result) "Analysis complete."
        ++ Explanation.blank_line
        ++ Llm.get (Explanation.summary result) "Analysis complete.")%string) /\
  (Explanation.out_errors u <> None ->
   Graph.detected_failures state <> [] /\
   exists e, llm = Llm.LlmRaised e /\
             Explanation.out_errors u
             = Some (Graph.errors state ++ [("explanation"%string, e)])) /\
  (forall o : Orchestrator.Oracle,
     Orchestrator.explanation_text o = Explanation.out_explanation u ->
     (Orchestrator.explanation_error o = None /\ Explanation.out_errors u = None
      \/ exists e, Orchestrator.explanation_error o = Some e /\
                   Explanation.out_errors u
                   = Some (Graph.errors state ++ [("explanation"%string, e)])) ->
     Orchestrator.explanation_node state o = Explanation.merge state u).
Proof.
  intros u fallback. subst u fallback.
  assert (Hstep : forall (u : Explanation.Update) (o : Orchestrator.Oracle),
            Orchestrator.explanation_text o = Explanation.out_explanation u ->
            (Orchestrator.explanation_error o = None /\ Explanation.out_errors u = None
             \/ exists e, Orchestrator.explanation_error o = Some e /\
                          Explanation.out_errors u
                          = Some (Graph.errors state ++ [("explanation"%string, e)])) ->
            Orchestrator.explanation_node state o = Explanation.merge state u).
  { intros u o Ht He. unfold Orchestrator.explanation_node, Explanation.merge.
    rewrite Ht. destruct He as [[-> ->]|(e & -> & ->)]; reflexivity. }
  split; [|split; [|split; [|split; [|split; [|apply Hstep]]]]];
    unfold Explanation.explanation_node;
    destruct (Graph.detected_failures state) as [|f rest] eqn:E.
  - cbn. discriminate.
  - destruct llm as [e| |result]; cbn [Explanation.out_explanation];
      try (cbn; discriminate).
    destruct (Py.is_empty _); [apply explained_nonempty|].
    apply append_nonempty_r. discriminate.
  - intros _. repeat split.
  - discriminate.
  - congruence.
  - intros _ Hl. destruct llm as [e| |result]; [| |now destruct (Hl result)];
      repeat split.
  - congruence.
  - intros result _ -> Hd Hi. cbn [Explanation.out_explanation].
    rewrite Hd, Hi. reflexivity.
  - cbn. congruence.
  - intros H. split; [discriminate|].
    destruct llm as [e| |result]; cbn in H; [|congruence|congruence].
    now exists e.
Qed.

(** ** The response built from the final state *)

Section ResponseFacts.
Import Responses Service.

Lemma member_failure_type (t : string) (m : FailureType) :
  member failure_type_members t = Some m <-> failure_type_value m = t.
Proof.
  unfold member, failure_type_members. cbn [map fst snd Py.dict_get]. split.
  - repeat match goal with
           | |- context [String.eqb ?k t] =>
               let E := fresh "E" in
               destruct (String.eqb k t) eqn:E;
               [apply String.eqb_eq in E; intros [= <-]; exact E|]
           end.
    discriminate.
  - intros <-. destruct m; reflexivity.
Qed.

Lemma member_known (t : string) :
  known_type t <-> exists m, member failure_type_members t = Some m.
Proof.
  split.
  - unfold known_type. cbn [failure_type_members map fst In].
    intros [<-|[<-|[<-|[<-|[<-|[<-|[]]]]]]]; eexists; reflexivity.
  - intros (m & H). apply member_failure_type in H. subst t.
    unfold known_type. cbn [failure_type_members map fst In].
    destruct m; cbn; tauto.
Qed.

Lemma member_unknown (t : string) :
  ~ known_type t <-> member failure_type_members t = None.
Proof.
  rewrite member_known. destruct (member failure_type_members t) as [m|].
  - split; [intros H; destruct H; now exists m | discriminate].
  - split; [reflexivity | intros _ (m & H); discriminate].
Qed.

Lemma Qrange_dec (lo hi x : Q) :
  Qle_bool lo x && Qle_bool x hi = true <-> lo <= x <= hi.
Proof. rewrite andb_true_iff, !Qle_bool_iff. tauto. Qed.

Lemma failure_detail_cases (f : State.FailureSignal) :
  (confidence_ok f /\ exists d, failure_detail f = inl d) \/
  (~ confidence_ok f /\ failure_detail f = inr (ValidationError "FailureDetail" "confidence")).
Proof.
  unfold failure_detail, new_FailureDetail, confidence_ok.
  destruct (Qle_bool 0 (State.confidence f) && Qle_bool (State.confidence f) 1) eqn:E.
  - left. split; [now apply Qrange_dec | eexists; reflexivity].
  - right. split; [|reflexivity]. intros H. apply Qrange_dec in H. congruence.
Qed.

Lemma build_failures_acc (l : list State.FailureSignal) (acc : list FailureDetail) :
  build_failures l acc
  = match build_failures l [] with
    | inl details => inl (acc ++ details)
    | inr e => inr e
    end.
Proof.
  revert acc; induction l as [|f l IH]; intros acc; cbn [build_failures].
  - now rewrite app_nil_r.
  - destruct (failure_detail f) as [d|e]; [|reflexivity].
    rewrite IH, (IH ([] ++ [d])). destruct (build_failures l []); [|reflexivity].
    now rewrite <- app_assoc.
Qed.

Lemma build_failures_cases (l : list State.FailureSignal) :
  (Forall confidence_ok l /\
   exists details, build_failures l [] = inl details /\
                   Forall2 (fun f d => failure_detail f = inl d) l details) \/
  (~ Forall confidence_ok l /\
   build_failures l [] = inr (ValidationError "FailureDetail" "confidence")).
Proof.
  induction l as [|f l IH].
  - left. split; [constructor|]. exists []. split; [reflexivity | constructor].
  - cbn [build_failures]. destruct (failure_detail_cases f) as [[Hf (d & Ed)]|[Hf Ed]].
    + rewrite Ed, build_failures_acc.
      destruct IH as [[Hl (ds & Eds & H2)]|[Hl Eds]]; rewrite Eds.
      * left. split; [now constructor|]. exists (d :: ds).
        split; [reflexivity | now constructor].
      * right. split; [|reflexivity]. intros H. inversion H; subst. tauto.
    + rewrite Ed. right. split; [|reflexivity]. intros H. inversion H; subst. tauto.
Qed.

Lemma recommendation_cases (r : State.RecommendationData) :
  (priority_ok r /\ exists b, recommendation r = inl b) \/
  (~ priority_ok r /\ recommendation r = inr (ValidationError "Recommendation" "priority")).
Proof.
  unfold recommendation, new_Recommendation, priority_ok.
  destruct ((1 <=? State.priority r) && (State.priority r <=? 5))%Z eqn:E.
  - left. split; [|eexists; reflexivity].
    apply andb_true_iff in E. destruct E as [E1 E2].
    apply Z.leb_le in E1, E2. lia.
  - right. split; [|reflexivity]. intros [H1 H2].
    apply Z.leb_le in H1, H2. rewrite H1, H2 in E. discriminate.
Qed.

Lemma build_recommendations_acc (l : list State.RecommendationData)
    (acc : list Recommendation) :
  build_recommendations l acc
  = match build_recommendations l [] with
    | inl built => inl (acc ++ built)
    | inr e => inr e
    end.
Proof.
  revert acc; induction l as [|r l IH]; intros acc; cbn [build_recommendations].
  - now rewrite app_nil_r.
  - destruct (recommendation r) as [b|e]; [|reflexivity].
    rewrite IH, (IH ([] ++ [b])). destruct (build_recommendations l []); [|reflexivity].
    now rewrite <- app_assoc.
Qed.

Lemma build_recommendations_cases (l : list State.RecommendationData) :
  (Forall priority_ok l /\
   exists built, build_recommendations l [] = inl built /\
                 Forall2 (fun r b => recommendation r = inl b) l built) \/
  (~ Forall priority_ok l /\
   build_recommendations l [] = inr (ValidationError "Recommendation" "priority")).
Proof.
  induction l as [|r l IH].
  - left. split; [constructor|]. exists []. split; [reflexivity | constructor].
  - cbn [build_recommendations].
    destruct (recommendation_cases r) as [[Hr (b & Eb)]|[Hr Eb]].
    + rewrite Eb, build_recommendations_acc.
      destruct IH as [[Hl (bs & Ebs & H2)]|[Hl Ebs]]; rewrite Ebs.
      * left. split; [now constructor|]. exists (b :: bs).
        split; [reflexivity | now constructor].
      * right. split; [|reflexivity]. intros H. inversion H; subst. tauto.
    + rewrite Eb. right. split; [|reflexivity]. intros H. inversion H; subst. tauto.
Qed.

Lemma build_failure_types_cases (l : list string) :
  (Forall known_type l /\
   exists types, build_failure_types l = inl types /\
                 map failure_type_value types = l) \/
  (~ Forall known_type l /\
   exists t, In t l /\ ~ known_type t /\ build_failure_types l = inr (ValueError t)).
Proof.
  induction l as [|t l IH].
  - left. split; [constructor|]. exists []. split; reflexivity.
  - cbn [build_failure_types].
    destruct (member failure_type_members t) as [m|] eqn:Em.
    + assert (Hk : known_type t) by (apply member_known; now exists m).
      apply member_failure_type in Em.
      destruct IH as [[Hl (ts & Ets & Hv)]|[Hl (u & Hu & Hn & Eu)]].
      * rewrite Ets. left. split; [now constructor|]. exists (m :: ts).
        split; [reflexivity|]. cbn. now rewrite Em, Hv.
      * rewrite Eu. right. split; [intros H; inversion H; subst; tauto|].
        exists u. split; [now right|]. split; [exact Hn | reflexivity].
    + apply member_unknown in Em. right.
      split; [intros H; inversion H; subst; tauto|].
      exists t. split; [now left|]. split; [exact Em | reflexivity].
Qed.

Lemma with_issues_nil (c : ClaimAnalysis) : with_issues c [] = c.
Proof. reflexivity. Qed.

Lemma with_issues_id (c : ClaimAnalysis) (extra : list string) :
  claim_id (with_issues c extra) = claim_id c.
Proof. destruct extra; reflexivity. Qed.

Lemma with_issues_app (c : ClaimAnalysis) (a b : list string) :
  with_issues (with_issues c a) b = with_issues c (a ++ b).
Proof.
  destruct a as [|x a]; [reflexivity|].
  destruct b as [|y b]; [now rewrite app_nil_r|].
  cbn. now rewrite <- app_assoc.
Qed.

(** A loop of markings is one marking with the issues in the order of the
    loop. *)
Lemma fold_marks {X : Type} (step : list ClaimAnalysis -> X -> list ClaimAnalysis)
    (g : X -> string -> list string) :
  (forall claims x,
      step claims x = map (fun c => with_issues c (g x (claim_id c))) claims) ->
  forall xs claims,
    fold_left step xs claims
    = map (fun c => with_issues c (flat_map (fun x => g x (claim_id c)) xs)) claims.
Proof.
  intros Hstep xs; induction xs as [|x xs IH]; intros claims; cbn [fold_left flat_map].
  - symmetry. apply map_id.
  - rewrite IH, Hstep, map_map. apply map_ext. intros c.
    now rewrite with_issues_id, with_issues_app.
Qed.

Lemma mark_claims_eq (issue id : string) (claims : list ClaimAnalysis) :
  mark_claims issue id claims
  = map (fun c => with_issues c (if String.eqb (claim_id c) id then [issue] else []))
        claims.
Proof.
  unfold mark_claims. apply map_ext. intros c.
  destruct (String.eqb (claim_id c) id); reflexivity.
Qed.

Lemma marked_claims_eq (failures : list FailureDetail) (claims : list ClaimAnalysis) :
  fold_left mark_failure failures claims
  = map (fun c => with_issues c (issues_for failures (claim_id c))) claims.
Proof.
  unfold issues_for.
  apply (fold_marks mark_failure
           (fun d cid =>
              flat_map (fun id => if String.eqb cid id
                                  then [failure_type_value (failure_type d)] else [])
                       (related_claim_ids d))).
  intros cs d. unfold mark_failure.
  apply (fold_marks
           (fun claims claim_id =>
              mark_claims (failure_type_value (failure_type d)) claim_id claims)
           (fun id cid => if String.eqb cid id
                          then [failure_type_value (failure_type d)] else [])).
  intros cs' id. apply mark_claims_eq.
Qed.

Lemma issues_for_nonempty (failures : list FailureDetail) (id : string) :
  issues_for failures id <> [] <->
  exists d, In d failures /\ In id (related_claim_ids d).
Proof.
  unfold issues_for. split.
  - intros H. destruct (flat_map _ failures) as [|x l] eqn:E; [congruence|].
    assert (Hx : In x (flat_map
                         (fun d => flat_map
                            (fun id' => if String.eqb id id'
                                        then [failure_type_value (failure_type d)]
                                        else [])
                            (related_claim_ids d)) failures))
      by (rewrite E; now left).
    apply in_flat_map in Hx. destruct Hx as (d & Hd & Hx).
    apply in_flat_map in Hx. destruct Hx as (id' & Hid & Hx).
    destruct (String.eqb id id') eqn:Ee; [|destruct Hx].
    apply String.eqb_eq in Ee. subst id'. now exists d.
  - intros (d & Hd & Hid) E.
    assert (Hx : In (failure_type_value (failure_type d))
                    (flat_map
                       (fun d => flat_map
                          (fun id' => if String.eqb id id'
                                      then [failure_type_value (failure_type d)]
                                      else [])
                          (related_claim_ids d)) failures)).
    { apply in_flat_map. exists d. split; [exact Hd|].
      apply in_flat_map. exists id. split; [exact Hid|].
      rewrite String.eqb_refl. now left. }
    rewrite E in Hx. destruct Hx.
Qed.

(** The parts of a response that was built. *)
Lemma build_response_inl (result : Graph.AnalysisState) (response : AnalysisResponse) :
  _build_response result = inl response ->
  Forall2 (fun f d => failure_detail f = inl d)
          (Graph.detected_failures result) (failures response) /\
  claims response
  = map (fun c => with_issues (claim_analysis c)
                    (issues_for (failures response) (State.claim_id c)))
        (Graph.claims result) /\
  new_RiskAssessment (Graph.risk_score result)
    match member risk_level_members (Graph.risk_level result) with
    | Some level => level
    | None => LOW
    end
    (Graph.domain result) (Graph.domain_multiplier result)
    (Graph.contributing_factors result) = inl (risk_assessment response) /\
  Forall2 (fun r b => recommendation r = inl b)
          (Graph.recommendations result) (recommendations response) /\
  map failure_type_value (failure_types response) = Graph.failure_types result /\
  failure_detected response = Graph.failure_detected result /\
  response_explanation response = Graph.final_explanation result.
Proof.
  unfold _build_response.
  destruct (build_failures_cases (Graph.detected_failures result))
    as [[_ (ds & -> & Hds)]|[_ ->]]; [|discriminate].
  destruct (new_RiskAssessment _ _ _ _ _) as [ra|e] eqn:Era; [|discriminate].
  destruct (build_recommendations_cases (Graph.recommendations result))
    as [[_ (bs & -> & Hbs)]|[_ ->]]; [|discriminate].
  destruct (build_failure_types_cases (Graph.failure_types result))
    as [[_ (ts & -> & Hts)]|[_ (t & _ & _ & ->)]]; [|discriminate].
  intros [= <-]. cbn.
  repeat split; try assumption.
  rewrite marked_claims_eq, map_map. reflexivity.
Qed.

Lemma build_response_cases (result : Graph.AnalysisState) :
  match _build_response result with
  | inl _ =>
      Forall confidence_ok (Graph.detected_failures result) /\
      0 <= Graph.risk_score result <= 1 /\
      Forall priority_ok (Graph.recommendations result) /\
      Forall known_type (Graph.failure_types result)
  | inr e =>
      (~ Forall confidence_ok (Graph.detected_failures result) /\
       e = ValidationError "FailureDetail" "confidence") \/
      (Forall confidence_ok (Graph.detected_failures result) /\
       ~ 0 <= Graph.risk_score result <= 1 /\
       e = ValidationError "RiskAssessment" "risk_score") \/
      (Forall confidence_ok (Graph.detected_failures result) /\
       0 <= Graph.risk_score result <= 1 /\
       ~ Forall priority_ok (Graph.recommendations result) /\
       e = ValidationError "Recommendation" "priority") \/
      (Forall confidence_ok (Graph.detected_failures result) /\
       0 <= Graph.risk_score result <= 1 /\
       Forall priority_ok (Graph.recommendations result) /\
       exists t, In t (Graph.failure_types result) /\ ~ known_type t /\
                 e = ValueError t)
  end.
Proof.
  unfold _build_response.
  destruct (build_failures_cases (Graph.detected_failures result))
    as [[Hc (ds & -> & _)]|[Hc ->]]; [|now left].
  unfold new_RiskAssessment.
  destruct (Qle_bool 0 (Graph.risk_score result)
            && Qle_bool (Graph.risk_score result) 1) eqn:Er.
  2:{ right; left. split; [exact Hc|]. split; [|reflexivity].
      intros H. apply Qrange_dec in H. congruence. }
  apply Qrange_dec in Er.
  destruct (build_recommendations_cases (Graph.recommendations result))
    as [[Hp (bs & -> & _)]|[Hp ->]];
    [|right; right; left; split; [exact Hc|]; split; [exact Er|];
      split; [exact Hp | reflexivity]].
  destruct (build_failure_types_cases (Graph.failure_types result))
    as [[Hk (ts & -> & _)]|[Hk (t & Ht & Hn & ->)]];
    [split; [exact Hc|]; split; [exact Er|]; split; [exact Hp | exact Hk]|].
  right; right; right. split; [exact Hc|]. split; [exact Er|]. split; [exact Hp|].
  exists t. split; [exact Ht|]. split; [exact Hn | reflexivity].
Qed.
End ResponseFacts.

(** X25. The response is built exactly when the final state satisfies the
    constraints of the response models: every retained failure has a
    confidence between 0 and 1, the risk score is between 0 and 1, every
    recommendation has a priority between 1 and 5, and every entry of
    [failure_types] is the value of a member of [FailureType]. Otherwise
    building raises, and the first broken constraint in that order names
    the error: the validation error of FailureDetail, of RiskAssessment or
    of Recommendation, or the value error of the unknown failure type. *)
Theorem response_is_built_iff_values_are_in_range (result : Graph.AnalysisState) :
  let built := Forall confidence_ok (Graph.detected_failures result) /\
               0 <= Graph.risk_score result <= 1 /\
               Forall priority_ok (Graph.recommendations result) /\
               Forall known_type (Graph.failure_types result) in
  ((exists response, Service._build_response result = inl response) <-> built) /\
  (~ Forall confidence_ok (Graph.detected_failures result) ->
   Service._build_response result
   = inr (Responses.ValidationError "FailureDetail" "confidence")) /\
  (Forall confidence_ok (Graph.detected_failures result) ->
   ~ 0 <= Graph.risk_score result <= 1 ->
   Service._build_response result
   = inr (Responses.ValidationError "RiskAssessment" "risk_score")) /\
  (Forall confidence_ok (Graph.detected_failures result) ->
   0 <= Graph.risk_score result <= 1 ->
   ~ Forall priority_ok (Graph.recommendations result) ->
   Service._build_response result
   = inr (Responses.ValidationError "Recommendation" "priority")) /\
  (Forall confidence_ok (Graph.detected_failures result) ->
   0 <= Graph.risk_score result <= 1 ->
   Forall priority_ok (Graph.recommendations result) ->
   ~ Forall known_type (Graph.failure_types result) ->
   exists t, In t (Graph.failure_types result) /\ ~ known_type t /\
             Service._build_response result = inr (Responses.ValueError t)).
Proof.
  intros built. subst built.
  pose proof (build_response_cases result) as H.
  destruct (Service._build_response result) as [response|e].
  - destruct H as (Hc & Hr & Hp & Hk).
    split; [split; [auto | intros _; now exists response]|].
    repeat split; intros; tauto.
  - split.
    { split; [intros (response & E); discriminate|].
      intros (Hc & Hr & Hp & Hk).
      destruct H as [[H _]|[(_ & H & _)|[(_ & _ & H & _)|(_ & _ & _ & t & Ht & Hn & _)]]];
        try tauto.
      exfalso. apply Hn. exact (proj1 (Forall_forall _ _) Hk t Ht). }
    split; [|split; [|split]].
    + intros Hn.
      destruct H as [[_ ->]|[(H & _)|[(H & _)|(H & _)]]]; [reflexivity|tauto|tauto|tauto].
    + intros Hc Hn.
      destruct H as [[H _]|[(_ & _ & ->)|[(_ & H & _)|(_ & H & _)]]];
        [tauto|reflexivity|tauto|tauto].
    + intros Hc Hr Hn.
      destruct H as [[H _]|[(_ & H & _)|[(_ & _ & _ & ->)|(_ & _ & H & _)]]];
        [tauto|tauto|reflexivity|tauto].
    + intros Hc Hr Hp Hn.
      destruct H as [[H _]|[(_ & H & _)|[(_ & _ & H & _)|(_ & _ & _ & t & Ht & Hk & ->)]]];
        [tauto|tauto|tauto|].
      exists t. auto.
Qed.

(** X26. A response that was built repeats the final state: the flag, the
    explanation, the risk score, the domain and its multiplier are the
    ones of the state; [failures] and [recommendations] have one entry
    per retained failure and per recommendation, in the same order, with
    the same confidence, priority and texts; the values of
    [failure_types] are the state's. A failure type that is a value of
    [FailureType] is kept; any other, as the "general" of a
    domain-specific recommendation, is reported as hallucination, and a
    risk level outside the four values as low. *)
Theorem response_mirrors_the_final_state
    (result : Graph.AnalysisState) (response : Responses.AnalysisResponse) :
  Service._build_response result = inl response ->
  Responses.failure_detected response = Graph.failure_detected result /\
  Responses.response_explanation response = Graph.final_explanation result /\
  map Responses.failure_type_value (Responses.failure_types response)
  = Graph.failure_types result /\
  Responses.risk_score (Responses.risk_assessment response) = Graph.risk_score result /\
  Responses.domain (Responses.risk_assessment response) = Graph.domain result /\
  Responses.domain_multiplier (Responses.risk_assessment response)
  = Graph.domain_multiplier result /\
  (~ In (Graph.risk_level result) ["low"; "medium"; "high"; "critical"]%string ->
   Responses.risk_level (Responses.risk_assessment response) = Responses.LOW) /\
  Forall2 (fun f d =>
             Responses.detected d = State.detected f /\
             Responses.confidence d = State.confidence f /\
             Responses.evidence d = State.evidence f /\
             Responses.related_claim_ids d = State.related_claim_ids f /\
             Responses.explanation d = State.explanation f /\
             (known_type (State.failure_type f) ->
              Responses.failure_type_value (Responses.failure_type d)
              = State.failure_type f) /\
             (~ known_type (State.failure_type f) ->
              Responses.failure_type d = Responses.HALLUCINATION))
          (Graph.detected_failures result) (Responses.failures response) /\
  Forall2 (fun r b =>
             Responses.recommendation_id b = State.recommendation_id r /\
             Responses.priority b = State.priority r /\
             Responses.title b = State.title r /\
             Responses.description b = State.description r /\
             Responses.implementation_hint b = State.implementation_hint r /\
             (known_type (State.rec_failure_type r) ->
              Responses.failure_type_value (Responses.rec_failure_type b)
              = State.rec_failure_type r) /\
             (~ known_type (State.rec_failure_type r) ->
              Responses.rec_failure_type b = Responses.HALLUCINATION))
          (Graph.recommendations result) (Responses.recommendations response).
Proof.
  intros H. apply build_response_inl in H.
  destruct H as (Hf & _ & Hra & Hr & Ht & Hd & He).
  assert (Hlabel : forall t,
            (known_type t ->
             Responses.failure_type_value
               match Responses.member Responses.failure_type_members t with
               | Some m => m
               | None => Responses.HALLUCINATION
               end = t) /\
            (~ known_type t ->
             match Responses.member Responses.failure_type_members t with
             | Some m => m
             | None => Responses.HALLUCINATION
             end = Responses.HALLUCINATION)).
  { intros t. split.
    - intros Hk. apply member_known in Hk. destruct Hk as (m & Em).
      rewrite Em. now apply member_failure_type.
    - intros Hk. apply member_unknown in Hk. now rewrite Hk. }
  unfold Responses.new_RiskAssessment in Hra.
  destruct (Qle_bool 0 _ && Qle_bool _ 1); [|discriminate].
  injection Hra as Hra.
  split; [exact Hd|]. split; [exact He|]. split; [exact Ht|].
  rewrite <- Hra.
  cbn [Responses.risk_score Responses.domain Responses.domain_multiplier
       Responses.risk_level].
  split; [reflexivity|]. split; [reflexivity|]. split; [reflexivity|].
  split.
  { intros Hn.
    assert (E : Responses.member Responses.risk_level_members (Graph.risk_level result)
                = None).
    { unfold Responses.member, Responses.risk_level_members.
      cbn [map fst snd Py.dict_get].
      repeat match goal with
             | |- context [String.eqb ?k (Graph.risk_level result)] =>
                 let E := fresh "E" in
                 destruct (String.eqb k (Graph.risk_level result)) eqn:E;
                 [apply String.eqb_eq in E; exfalso; apply Hn; rewrite <- E;
                  cbn; tauto|]
             end.
      reflexivity. }
    now rewrite E. }
  split.
  - eapply Forall2_impl; [|exact Hf]. intros f d Efd.
    unfold Service.failure_detail, Responses.new_FailureDetail in Efd.
    destruct (Qle_bool 0 _ && Qle_bool _ 1); [|discriminate].
    injection Efd as <-. cbn. repeat split; apply Hlabel.
  - eapply Forall2_impl; [|exact Hr]. intros r b Erb.
    unfold Service.recommendation, Responses.new_Recommendation in Erb.
    destruct ((1 <=? _) && (_ <=? 5))%Z; [|discriminate].
    injection Erb as <-. cbn. repeat split; apply Hlabel.
Qed.

(** X27. In a response that was built there is one claim analysis per
    claim of the state, in the same order, with the id and the text of
    the claim, confidence 0.8 and [is_verifiable] true. Its issues are the
    failure types of the failures that relate to its id, in the order of
    [failures], once for each related id that is the claim's; and the
    claim is reported as not supported exactly when some failure names
    its id among its related claims. *)
Theorem claims_are_marked_by_the_failures_that_cite_them
    (result : Graph.AnalysisState) (response : Responses.AnalysisResponse) :
  Service._build_response result = inl response ->
  Forall2 (fun c a =>
             Responses.claim_id a = State.claim_id c /\
             Responses.claim_text a = State.claim_text c /\
             Responses.is_verifiable a = true /\
             Responses.claim_confidence a = 8 # 10 /\
             Responses.issues a
             = issues_for (Responses.failures response) (State.claim_id c) /\
             (Responses.is_supported a = false <->
              exists d, In d (Responses.failures response) /\
                        In (State.claim_id c) (Responses.related_claim_ids d)))
          (Graph.claims result) (Responses.claims response).
Proof.
  intros H. apply build_response_inl in H.
  destruct H as (_ & Hc & _). rewrite Hc. clear Hc.
  induction (Graph.claims result) as [|c cs IH]; cbn [map]; constructor; [|exact IH].
  rewrite <- issues_for_nonempty.
  destruct (issues_for (Responses.failures response) (State.claim_id c)) as [|x l];
    cbn; repeat split; try congruence; try discriminate.
Qed.

(** The run on the dose request: the response is built, flags a failure
    and names the hallucination. *)
Lemma response_mirror_witness :
  exists response,
    Service._build_response dose_state = inl response /\
    Responses.failure_detected response = true /\
    map Responses.failure_type_value (Responses.failure_types response)
    = ["hallucination"%string].
Proof.
  destruct (Service._build_response dose_state) as [response|e] eqn:E;
    [|vm_compute in E; discriminate E].
  exists response. split; [reflexivity|].
  destruct (response_mirrors_the_final_state dose_state response E)
    as (Hd & _ & Ht & _).
  rewrite Hd, Ht. split; vm_compute; reflexivity.
Defined.

(** The run on the dose request: the answer has two sentences, and the
    response two claims. *)
Lemma marked_claims_witness :
  exists response,
    Service._build_response dose_state = inl response /\
    List.length (Responses.claims response) = 2%nat.
Proof.
  destruct (Service._build_response dose_state) as [response|e] eqn:E;
    [|vm_compute in E; discriminate E].
  exists response. split; [reflexivity|].
  pose proof (claims_are_marked_by_the_failures_that_cite_them dose_state response E)
    as H.
  apply Forall2_length in H. rewrite <- H. vm_compute. reflexivity.
Defined.

(** ** Runs and their responses *)

Section RunResponseFacts.
Import State Graph Orchestrator.

Lemma sort_by_nil {A K : Type} (key : A -> K) (leb : K -> K -> bool) (l : list A) :
  Py.sort_by key leb l = [] -> l = [].
Proof.
  intros H. apply length_zero_iff_nil.
  rewrite <- (sort_by_length key leb l), H. reflexivity.
Qed.

(** What the final state of the full path holds when no failure is
    retained. *)
Lemma full_path_no_failure (settings : Config.Settings) (o : Oracle)
    (s0 : AnalysisState) :
  failure_detected (full_path settings o s0) = false ->
  detected_failures (full_path settings o s0) = [] /\
  failure_types (full_path settings o s0) = [] /\
  recommendations (full_path settings o s0) = [] /\
  risk_score (full_path settings o s0) == 0 /\
  risk_level (full_path settings o s0) = "low"%string.
Proof.
  destruct (full_path_results settings o s0)
    as (_ & Hdet & Hflag & Htypes & Hscore & Hlevel & Hs3 & s5 & Hrec & Hs5).
  rewrite Hflag, Hdet, Htypes, Hscore, Hlevel, Hrec. intros Hf.
  rewrite failure_detected_eq in Hf. apply Nat.ltb_ge in Hf.
  assert (Hnone : Aggregation.out_detected_failures
                    (Aggregation.aggregation_node settings (detected_state settings o s0))
                  = []) by (apply length_zero_iff_nil; lia).
  split; [exact Hnone|].
  split.
  { rewrite failure_types_eq. rewrite detected_failures_eq in Hnone.
    apply sort_by_nil in Hnone. now rewrite Hnone. }
  split; [apply recommendation_node_nil; now rewrite Hs5|].
  apply risk_of_no_failure. now rewrite Hs3.
Qed.

Lemma build_response_no_failure (result : AnalysisState) :
  detected_failures result = [] ->
  failure_types result = [] ->
  recommendations result = [] ->
  risk_score result == 0 ->
  exists assessment,
    Service._build_response result
    = inl {| Responses.failure_detected := failure_detected result;
             Responses.failure_types := [];
             Responses.failures := [];
             Responses.claims := map Service.claim_analysis (claims result);
             Responses.risk_assessment := assessment;
             Responses.recommendations := [];
             Responses.response_explanation := final_explanation result |} /\
    Responses.risk_score assessment == 0 /\
    (risk_level result = "low"%string ->
     Responses.risk_level assessment = Responses.LOW).
Proof.
  intros Hd Ht Hr Hs. unfold Service._build_response.
  rewrite Hd, Ht, Hr. cbn [Service.build_failures Service.build_recommendations
                           Service.build_failure_types fold_left].
  unfold Responses.new_RiskAssessment.
  assert (E : Qle_bool 0 (risk_score result) && Qle_bool (risk_score result) 1 = true).
  { apply Qrange_dec. rewrite Hs. split; discriminate. }
  rewrite E. eexists. split; [reflexivity|]. cbn. split; [exact Hs|].
  intros ->. reflexivity.
Qed.

Lemma hallucination_signal_retained (settings : Config.Settings) (o : Oracle)
    (s0 : AnalysisState) (h : Hallucination.Result) :
  hallucination_llm o = Llm.LlmParsed h ->
  Llm.get (Hallucination.hallucination_detected h) false = true ->
  Config.failure_confidence_threshold settings
  <= Llm.get (Hallucination.result_confidence h) 0 ->
  exists s, In s (detected_failures (full_path settings o s0)) /\
            failure_type s = "hallucination"%string /\
            confidence s = Llm.get (Hallucination.result_confidence h) 0.
Proof.
  intros Hl Hd Hc.
  destruct (full_path_results settings o s0) as (_ & Hdet & _).
  rewrite Hdet, detected_failures_eq.
  eexists. split.
  - apply sort_by_In, filter_In. split.
    + unfold Aggregation.collect_signals. rewrite collect_signals_acc.
      cbn [app Aggregation.signal_slots flat_map]. left.
      cbn [detected_state run_node parallel_detectors_node hallucination_signal].
      rewrite Hl. reflexivity.
    + unfold retained. cbn [detected confidence Hallucination.out_hallucination_signal
                            Hallucination.hallucination_detector].
      rewrite Hd. cbn [andb]. now apply Qle_bool_iff.
  - split; reflexivity.
Qed.
End RunResponseFacts.

(** X28. A confidence above 1 reported by the model makes the request
    fail: when the request passes precheck and the parsed output of the
    hallucination detector reports a detection with a confidence that is
    above 1 (and at least the threshold), the signal is retained with that
    confidence, the model of the failure refuses it, and [analyze] raises
    the validation error of FailureDetail instead of returning a
    response. *)
Theorem confidence_above_one_fails_the_request
    (settings : Config.Settings) (o : Orchestrator.Oracle)
    (request : Requests.AnalysisRequest) (h : Hallucination.Result) :
  Precheck.out_precheck_passed
    (Precheck.precheck_node (Orchestrator.precheck_llm o)
       (Graph.create_initial_state (Requests.question request)
          (Requests.llm_answer request) (Requests.context request)
          (Requests.value (Requests.domain request)))) = true ->
  Orchestrator.hallucination_llm o = Llm.LlmParsed h ->
  Llm.get (Hallucination.hallucination_detected h) false = true ->
  Config.failure_confidence_threshold settings
  <= Llm.get (Hallucination.result_confidence h) 0 ->
  1 < Llm.get (Hallucination.result_confidence h) 0 ->
  Service.analyze settings o request
  = Some (inr (Responses.ValidationError "FailureDetail" "confidence")).
Proof.
  intros Hpass Hl Hd Ht Hc. unfold Service.analyze.
  pose proof (run_analysis_paths settings o (Requests.question request)
                (Requests.llm_answer request) (Requests.context request)
                (Requests.value (Requests.domain request))) as Hrun.
  cbv zeta in Hrun. rewrite Hrun. clear Hrun.
  set (s0 := Orchestrator.run_node settings o Orchestrator.precheck _).
  assert (E0 : Graph.precheck_passed s0 = true) by exact Hpass.
  rewrite E0. cbn [Orchestrator.final_state]. f_equal.
  destruct (hallucination_signal_retained settings o s0 h Hl Hd Ht)
    as (s & Hin & _ & Hs).
  assert (Hbad : ~ Forall confidence_ok (Graph.detected_failures (full_path settings o s0))).
  { intros H. apply (proj1 (Forall_forall _ _) H) in Hin.
    unfold confidence_ok in Hin. rewrite Hs in Hin. destruct Hin as [_ Hin].
    apply (Qlt_not_le _ _ Hc). exact Hin. }
  pose proof (build_response_cases (full_path settings o s0)) as H.
  destruct (Service._build_response (full_path settings o s0)) as [response|e].
  - tauto.
  - destruct H as [[_ ->]|[(H & _)|[(H & _)|(H & _)]]]; [reflexivity|tauto|tauto|tauto].
Qed.

(** The dose request with a model that reports a confidence of 1.5. *)
Lemma confidence_above_one_witness :
  Service.analyze Config.default_settings overconfident_oracle dose_request
  = Some (inr (Responses.ValidationError "FailureDetail" "confidence")).
Proof.
  apply (confidence_above_one_fails_the_request Config.default_settings
           overconfident_oracle dose_request
           {| Hallucination.hallucination_detected := Some true;
              Hallucination.result_confidence := Some (15 # 10);
              Hallucination.result_severity := Some "high"%string;
              Hallucination.summary := None;
              Hallucination.result_findings := None |});
    [reflexivity | reflexivity | reflexivity | vm_compute; discriminate
    | vm_compute; reflexivity].
Defined.

(** X29. The response built for a run that retained no failure: a request
    that precheck rejected retains none, and when the final state of a run
    reports no failure, the response built from it reports no failure, no
    failure type, no recommendation, a risk score of 0 and the level low,
    repeats the explanation, and gives every claim of the state as
    supported and without issue. *)
Theorem response_of_a_run_without_retained_failure
    (settings : Config.Settings) (o : Orchestrator.Oracle)
    (request : Requests.AnalysisRequest)
    (run : Orchestrator.Run) (response : Responses.AnalysisResponse) :
  Orchestrator.run_analysis settings o
    (Requests.question request) (Requests.llm_answer request)
    (Requests.context request) (Requests.value (Requests.domain request)) = Some run ->
  Service.analyze settings o request = Some (inl response) ->
  (Graph.precheck_passed (Orchestrator.final_state run) = false ->
   Graph.failure_detected (Orchestrator.final_state run) = false) /\
  (Graph.failure_detected (Orchestrator.final_state run) = false ->
   Responses.failure_detected response = false /\
   Responses.failure_types response = [] /\
   Responses.failures response = [] /\
   Responses.recommendations response = [] /\
   Responses.risk_score (Responses.risk_assessment response) == 0 /\
   Responses.risk_level (Responses.risk_assessment response) = Responses.LOW /\
   Responses.response_explanation response
   = Graph.final_explanation (Orchestrator.final_state run) /\
   List.length (Responses.claims response)
   = List.length (Graph.claims (Orchestrator.final_state run)) /\
   Forall (fun a => Responses.is_supported a = true /\ Responses.issues a = [])
          (Responses.claims response)).
Proof.
  intros Hrun Hbuilt. unfold Service.analyze in Hbuilt. rewrite Hrun in Hbuilt.
  injection Hbuilt as Hbuilt.
  assert (Hbuild : forall final,
            Service._build_response final = inl response ->
            Graph.detected_failures final = [] ->
            Graph.failure_types final = [] ->
            Graph.recommendations final = [] ->
            Graph.risk_score final == 0 ->
            Graph.risk_level final = "low"%string ->
            Graph.failure_detected final = false ->
            Responses.failure_detected response = false /\
            Responses.failure_types response = [] /\
            Responses.failures response = [] /\
            Responses.recommendations response = [] /\
            Responses.risk_score (Responses.risk_assessment response) == 0 /\
            Responses.risk_level (Responses.risk_assessment response) = Responses.LOW /\
            Responses.response_explanation response = Graph.final_explanation final /\
            List.length (Responses.claims response)
            = List.length (Graph.claims final) /\
            Forall (fun a => Responses.is_supported a = true /\ Responses.issues a = [])
                   (Responses.claims response)).
  { intros final Hb Hd Ht Hr Hs Hl Hf.
    destruct (build_response_no_failure final Hd Ht Hr Hs) as (ra & E & Hra & Hlow).
    rewrite E in Hb. injection Hb as <-. cbn.
    split; [exact Hf|]. split; [reflexivity|]. split; [reflexivity|].
    split; [reflexivity|]. split; [exact Hra|]. split; [now apply Hlow|].
    split; [reflexivity|]. split; [apply length_map|].
    apply Forall_map, Forall_forall. intros c _. split; reflexivity. }
  pose proof (run_analysis_paths settings o (Requests.question request)
                (Requests.llm_answer request) (Requests.context request)
                (Requests.value (Requests.domain request))) as Hp.
  cbv zeta in Hp. rewrite Hp in Hrun. clear Hp.
  set (s0 := Orchestrator.run_node settings o Orchestrator.precheck _) in Hrun.
  destruct (Graph.precheck_passed s0) eqn:E0; injection Hrun as <-;
    cbn [Orchestrator.final_state] in *.
  - split.
    { intros H. change (Graph.precheck_passed (full_path settings o s0))
                  with (Graph.precheck_passed s0) in H. congruence. }
    intros Hf.
    destruct (full_path_no_failure settings o s0 Hf) as (Hd & Ht & Hr & Hs & Hl).
    now apply Hbuild.
  - split; [reflexivity|]. intros _.
    apply Hbuild; [exact Hbuilt | reflexivity ..].
Qed.

(** The dose request with a backend whose replies do not parse and
    detectors that find nothing: the run retains no failure, and the
    response reports none, with a risk score of 0. *)
Lemma response_without_failure_witness :
  exists (run : Orchestrator.Run) (response : Responses.AnalysisResponse),
    Orchestrator.run_analysis Config.default_settings Examples.unparsable_oracle
      (Requests.question dose_request) (Requests.llm_answer dose_request)
      (Requests.context dose_request) (Requests.value (Requests.domain dose_request))
    = Some run /\
    Service.analyze Config.default_settings Examples.unparsable_oracle dose_request
    = Some (inl response) /\
    Graph.failure_detected (Orchestrator.final_state run) = false /\
    Responses.failures response = [] /\
    Responses.risk_score (Responses.risk_assessment response) == 0 /\
    List.length (Responses.claims response) = 2%nat.
Proof.
  destruct (Orchestrator.run_analysis Config.default_settings Examples.unparsable_oracle
              (Requests.question dose_request) (Requests.llm_answer dose_request)
              (Requests.context dose_request)
              (Requests.value (Requests.domain dose_request))) as [run|] eqn:Hrun;
    [|vm_compute in Hrun; discriminate Hrun].
  destruct (Service.analyze Config.default_settings Examples.unparsable_oracle
              dose_request) as [[response|e]|] eqn:Hbuilt;
    [ | vm_compute in Hbuilt; discriminate Hbuilt
      | vm_compute in Hbuilt; discriminate Hbuilt ].
  assert (Hf : Graph.failure_detected (Orchestrator.final_state run) = false).
  { vm_compute in Hrun. injection Hrun as <-. reflexivity. }
  assert (Hc : List.length (Graph.claims (Orchestrator.final_state run)) = 2%nat).
  { vm_compute in Hrun. injection Hrun as <-. reflexivity. }
  destruct (response_of_a_run_without_retained_failure Config.default_settings
              Examples.unparsable_oracle dose_request run response Hrun Hbuilt)
    as (_ & H).
  destruct (H Hf) as (_ & _ & Hfail & _ & Hscore & _ & _ & Hlen & _).
  exists run, response. split; [reflexivity|]. split; [reflexivity|].
  split; [exact Hf|]. split; [exact Hfail|]. split; [exact Hscore|].
  now rewrite Hlen.
Defined.
